(** * UrbanFlow Navigator: the trip-planning core

    A shallow embedding of [src/services/google-maps.ts],
    [src/services/open-weather-map.ts] and
    [src/ai/flows/generate-trip-plan.ts], of the handlers of
    [src/components/trip-planner.tsx], of the page and of
    [src/components/navigation-controls.tsx], and the properties of the
    trip-planning core proved over it.

    Conventions of the embedding.
    - An [async] function is a computation of type [Async A]: the list of
      outbound calls it issued, in order, and how its promise settled.
    - A thrown JavaScript value is an [Error] object with its message, or
      some other value; the services tell errors apart by their message.
    - Coordinates, ratings and radii are IEEE 754 doubles ([float]); the
      per-leg distances and durations of the Directions API are integer
      metres and seconds held in doubles: they are integers ([Z]), and
      reading and adding them rounds as [JS.number] does.
    - What the host provides (the environment variable, the HTTP endpoints,
      the prompt of the reasoning engine, the polyline codec, the
      implementation-approximated [Math] functions, number printing) is a
      field of [World]. *)

From Stdlib Require Import ZArith List String Ascii Bool Lia Floats Permutation.
From Stdlib Require Import DecimalString.
Import ListNotations.

Set Warnings "-inexact-float".

Local Open Scope list_scope.
Local Open Scope string_scope.

(** ** JavaScript values and operators used by the services *)

Module JS.

Definition dquote : string := String (ascii_of_nat 34) EmptyString.

(** Truthiness of a string: the empty string is falsy. *)
Definition truthyString (s : string) : bool :=
  match s with EmptyString => false | String _ _ => true end.

(** [x || d] for an optional string [x]. *)
Definition orString (x : option string) (d : string) : string :=
  match x with
  | Some s => if truthyString s then s else d
  | None => d
  end.

(** [!x] for an optional string [x]. *)
Definition notString (x : option string) : bool :=
  match x with
  | Some s => negb (truthyString s)
  | None => true
  end.

(** Truthiness of a number: [0], [-0] and [NaN] are falsy. *)
Definition truthyNumber (x : float) : bool :=
  negb (PrimFloat.is_zero x || PrimFloat.is_nan x).

(** [x || 0] for an optional integer [x]. *)
Definition orZero (x : option Z) : Z :=
  match x with Some v => v | None => 0%Z end.

(** The spacing of the doubles around the integer [z]: 1 up to 2^53, and
    twice as much from each further power of two on. *)
Definition ulp (z : Z) : Z := (2 ^ Z.max 0 (Z.log2 (Z.abs z) - 52))%Z.

(** The double nearest to the integer [z], a tie going to the even
    significand: what reading an integer literal gives, and what an
    operation on doubles makes of an exact result [z]. (Magnitudes from
    2^1024 on, which JavaScript reads as [Infinity], are outside the
    embedding.) *)
Definition number (z : Z) : Z :=
  let u := ulp z in
  let q := (Z.abs z / u)%Z in
  let r := (Z.abs z mod u)%Z in
  (Z.sgn z * ((if 2 * r <? u then q
               else if u <? 2 * r then q + 1
               else if Z.even q then q else q + 1) * u))%Z.

(** [x + y] on doubles that hold integers. *)
Definition plus (x y : Z) : Z := number (x + y).

(** [s.startsWith(p)] *)
Definition startsWith (s p : string) : bool := String.prefix p s.

(** [l.join(sep)] *)
Definition join (sep : string) (l : list string) : string :=
  String.concat sep l.

(** [s.replace(/_/g, ' ')] *)
Fixpoint replaceUnderscores (s : string) : string :=
  match s with
  | EmptyString => EmptyString
  | String c r =>
      String (if Ascii.eqb c "_" then " "%char else c) (replaceUnderscores r)
  end.

(** [l.includes(x)] on an array of strings. *)
Definition includes (l : list string) (x : string) : bool :=
  existsb (String.eqb x) l.

(** [l.slice(0, n)] *)
Definition slice0 {A} (n : nat) (l : list A) : list A := firstn n l.

Definition isPZero (x : float) : bool :=
  match PrimFloat.classify x with PZero => true | _ => false end.

Definition isNZero (x : float) : bool :=
  match PrimFloat.classify x with NZero => true | _ => false end.

(** [Math.max(x, y)]: NaN if an argument is NaN; starting from [x], the
    second argument replaces it when it is greater, or when it is [+0]
    and [x] is [-0]. *)
Definition Math_max (x y : float) : float :=
  if PrimFloat.is_nan x || PrimFloat.is_nan y then PrimFloat.nan
  else if PrimFloat.ltb x y || (isPZero y && isNZero x) then y
  else x.

(** [Math.min(x, y)], symmetrically. *)
Definition Math_min (x y : float) : float :=
  if PrimFloat.is_nan x || PrimFloat.is_nan y then PrimFloat.nan
  else if PrimFloat.ltb y x || (isNZero y && isPZero x) then y
  else x.

(** [Math.round(n / d)] for integers [n] and [d > 0]: the nearest
    integer, a tie going up. The source divides doubles; for [d] one of
    60 and 1000 and [n] of magnitude below 2^53 the quotient's rounding
    error is too small to change the result. *)
Definition roundDiv (n d : Z) : Z := ((2 * n + d) / (2 * d))%Z.

(** [Math.round(x)]: NaN, the infinities and the zeros are returned as
    they are; a finite [x = n * 2^e] gives [floor(x + 1/2)], computed on
    the integers, and keeps the sign of [x] when that is zero. *)
Definition Math_round (x : float) : float :=
  match Prim2SF x with
  | S754_finite s m e =>
      let n := cond_Zopp s (Zpos m) in
      let r := if (0 <=? e)%Z then (n * 2 ^ e)%Z
               else ((2 * n + 2 ^ (- e)) / 2 ^ (- e + 1))%Z in
      SF2Prim (binary_normalize prec emax r 0 s)
  | _ => x
  end.

Definition Math_PI : float := 3.141592653589793%float.

End JS.

(** ** Promises that log their outbound calls *)

Inductive Thrown : Type :=
| ErrorObj (message : string)
| NonError.

Inductive Outcome (A : Type) : Type :=
| Resolved (a : A)
| Rejected (e : Thrown).

Arguments Resolved {A} a.
Arguments Rejected {A} e.

Definition isRejected {A} (o : Outcome A) : bool :=
  match o with Rejected _ => true | Resolved _ => false end.

Section AsyncMonad.

Variable Event : Type.

Definition Async (A : Type) : Type := (list Event * Outcome A)%type.

Definition ret {A} (a : A) : Async A := ([], Resolved a).

Definition throw {A} (e : Thrown) : Async A := ([], Rejected e).

Definition emit (ev : Event) : Async unit := ([ev], Resolved tt).

Definition bind {A B} (m : Async A) (k : A -> Async B) : Async B :=
  match m with
  | (l, Resolved a) => let (l', r) := k a in ((l ++ l')%list, r)
  | (l, Rejected e) => (l, Rejected e)
  end.

(** [try { m } catch (error) { h error }] *)
Definition tryCatch {A} (m : Async A) (h : Thrown -> Async A) : Async A :=
  match m with
  | (l, Rejected e) => let (l', r) := h e in ((l ++ l')%list, r)
  | (l, Resolved a) => (l, Resolved a)
  end.

(** Settle with the outcome of an external call. *)
Definition settle {A} (o : Outcome A) : Async A := ([], o).

Definition calls {A} (m : Async A) : list Event := fst m.
Definition outcome {A} (m : Async A) : Outcome A := snd m.

End AsyncMonad.

Arguments ret {Event A} a.
Arguments throw {Event A} e.
Arguments emit {Event} ev.
Arguments bind {Event A B} m k.
Arguments tryCatch {Event A} m h.
Arguments settle {Event A} o.
Arguments calls {Event A} m.
Arguments outcome {Event A} m.

Declare Scope async_scope.
Delimit Scope async_scope with async.
Notation "x <- m ;; k" := (bind m (fun x => k))
  (at level 100, m at next level, right associativity) : async_scope.
Notation "m ;;; k" := (bind m (fun _ => k))
  (at level 100, right associativity) : async_scope.
Local Open Scope async_scope.

(** ** Data model of [google-maps.ts] and [open-weather-map.ts] *)

Record Coordinate : Type := { lat : float; lng : float }.

Record Bounds : Type := { northeast : Coordinate; southwest : Coordinate }.

(** The [bounds] of a [Route] are tested for presence by
    [findAttractionsNearRoute], so the field is optional here. *)
Record Route : Type := {
  path : list Coordinate;
  distanceMeters : Z;
  durationSeconds : Z;
  bounds : option Bounds;
  waypointsOrder : option (list nat)
}.

Record Attraction : Type := {
  name : string;
  description : string;
  location : Coordinate;
  placeId : option string;
  rating : option float;
  types : option (list string)
}.

Record DailyOutlook : Type := {
  date : string;
  temperatureCelsius : float;
  dayConditions : string
}.

Record WeatherForecast : Type := {
  currentTemperatureCelsius : float;
  conditions : string;
  fiveDayOutlook : list DailyOutlook
}.

(** ** Provider responses, as far as the services read them *)

Record TextValue : Type := { value : option Z }.

Record Leg : Type := {
  distance : option TextValue;
  duration : option TextValue
}.

Record Polyline : Type := { points : option string }.

Record DirectionsRoute : Type := {
  legs : option (list Leg);
  overview_polyline : option Polyline;
  route_bounds : option Bounds;
  waypoint_order : option (list nat)
}.

Record DirectionsResponse : Type := {
  d_status : string;
  d_error_message : option string;
  routes : option (list DirectionsRoute)
}.

Record GeocodingResult : Type := {
  geometry_location : Coordinate;
  formatted_address : string
}.

Record GeocodingResponse : Type := {
  g_status : string;
  g_error_message : option string;
  g_results : option (list GeocodingResult)
}.

Record Place : Type := {
  place_name : string;
  vicinity : option string;
  place_types : option (list string);
  place_location : Coordinate;
  place_id : option string;
  place_rating : option float;
  business_status : option string
}.

Record PlacesResponse : Type := {
  p_status : string;
  p_error_message : option string;
  p_results : option (list Place)
}.

(** ** Outbound requests: the parameters put into the query string *)

Inductive Request : Type :=
| GeocodeAddress (address : string) (key : string)
| GeocodeLatLng (latlng : Coordinate) (key : string)
| Directions (origin destination : Coordinate) (waypoints : option string)
             (key : string)
| NearbySearch (center : Coordinate) (radius : float) (keyword : string)
               (key : string).

(** ** Reasoning engine interface of [generate-trip-plan.ts] *)

Record RouteInfo : Type := {
  distanceKm : Z;
  durationMinutes : Z;
  hasWaypoints : bool
}.

Record WeatherSummary : Type := {
  ws_currentTemperatureCelsius : float;
  currentConditions : string;
  outlookSummary : string
}.

Record AttractionSummary : Type := {
  as_name : string;
  as_type : option string;
  as_rating : option float
}.

Record PromptInput : Type := {
  pi_originAddress : string;
  pi_destinationAddress : string;
  desiredDepartureTime : string;
  routeInfo : RouteInfo;
  pi_weatherForecast : WeatherSummary;
  attractions : list AttractionSummary
}.

Record PromptOutput : Type := {
  po_suggestedDepartureTime : option string;
  po_reasoning : option string
}.

Inductive Event : Type :=
| Fetch (r : Request)
| Prompt (p : PromptInput).

(** ** The host *)

Record World : Type := {
  (** [process.env.GOOGLE_MAPS_API_KEY] *)
  API_KEY : option string;
  (** [fetch(url)] then [response.json()], per endpoint *)
  fetchGeocoding : Request -> Outcome GeocodingResponse;
  fetchDirections : Request -> Outcome DirectionsResponse;
  fetchPlaces : Request -> Outcome PlacesResponse;
  (** [generateTripPlanPrompt(promptInput)], giving [{ output }] *)
  generateTripPlanPrompt : PromptInput -> Outcome (option PromptOutput);
  (** [decode(points, 5)] of [@googlemaps/polyline-codec] *)
  decode : string -> list (float * float);
  Math_sin : float -> float;
  Math_cos : float -> float;
  Math_atan2 : float -> float -> float;
  (** [JSON.stringify] of a coordinate *)
  JSON_stringify : Coordinate -> string;
  (** [new Date(d).toLocaleDateString(undefined, { weekday: 'short' })] *)
  weekdayShort : string -> string
}.

Definition Task (A : Type) : Type := Async Event A.

(** ** [google-maps.ts] *)

Definition SERVER_CONFIG_ERROR_MSG : string :=
  "Server Configuration Error: Google Maps API key (GOOGLE_MAPS_API_KEY) is not configured. Please ensure it is correctly set in your `.env.local` file and that the server has been restarted.".

(** [!API_KEY] *)
Definition apiKeyMissing (w : World) : bool := JS.notString (API_KEY w).

(** [API_KEY!] *)
Definition apiKey (w : World) : string :=
  match API_KEY w with Some k => k | None => "" end.

Definition checkApiKey (w : World) (apiName : string) : Task unit :=
  if apiKeyMissing w then throw (ErrorObj SERVER_CONFIG_ERROR_MSG)
  else ret tt.

(** [await fetch(url)] and [await response.json()]: the call is logged,
    then the promise settles as the endpoint decides. *)
Definition fetchJson {A} (endpoint : Request -> Outcome A) (r : Request)
  : Task A :=
  emit (Fetch r) ;;; settle (endpoint r).

(** *** [findShortestRoute] *)

Definition nonEmpty {A} (l : list A) : bool :=
  match l with [] => false | _ :: _ => true end.

(** The [waypoints] query parameter: only entries of the form
    [place_id:...] are used, behind an [optimize:true|] prefix. *)
Definition waypointsParameter (waypoints : option (list string))
  : option string :=
  match waypoints with
  | Some wps =>
      if nonEmpty wps then
        let validWaypoints :=
          filter (fun wp => JS.startsWith wp "place_id:") wps in
        if nonEmpty validWaypoints
        then Some ("optimize:true|" ++ JS.join "|" validWaypoints)
        else None
      else None
  | None => None
  end.

(** [waypoints && waypoints.length > 0] *)
Definition hasStops (waypoints : option (list string)) : bool :=
  match waypoints with Some wps => nonEmpty wps | None => false end.

(** The error thrown for a Directions status other than [OK]. *)
Definition directionsStatusError (data : DirectionsResponse)
    (waypoints : option (list string)) : string :=
  let status := d_status data in
  let msg := d_error_message data in
  if status =? "REQUEST_DENIED" then
    "Directions API Error: Request Denied. " ++
    JS.orString msg "Check if the Directions API is enabled and authorized for your GOOGLE_MAPS_API_KEY."
  else if (status =? "ZERO_RESULTS") && hasStops waypoints then
    "Directions API Error: No route found including the specified waypoints. Status: " ++ status ++ "."
  else if status =? "INVALID_REQUEST" then
    "Directions API Error: Invalid Request. " ++
    JS.orString msg "Check origin, destination, and waypoint format."
  else if status =? "MAX_WAYPOINTS_EXCEEDED" then
    "Directions API Error: Too many waypoints provided. " ++ JS.orString msg ""
  else if status =? "OVER_QUERY_LIMIT" then
    "Directions API Error: Usage limit exceeded. " ++
    JS.orString msg "Check your Google Cloud Console quotas."
  else
    "Could not find route. Status: " ++ status ++ ". " ++ JS.orString msg "".

(** [leg.distance?.value || 0] and [leg.duration?.value || 0]; [value]
    holds the integer the provider wrote, which [response.json()] reads
    as the nearest double. *)
Definition legDistance (leg : Leg) : Z :=
  JS.orZero (match distance leg with
             | Some d => option_map JS.number (value d)
             | None => None
             end).

Definition legDuration (leg : Leg) : Z :=
  JS.orZero (match duration leg with
             | Some d => option_map JS.number (value d)
             | None => None
             end).

(** The [forEach] over the legs, both accumulators at once; [+=] adds
    doubles. *)
Definition sumLegs (legs : list Leg) : Z * Z :=
  fold_left
    (fun totals leg =>
       (JS.plus (fst totals) (legDistance leg),
        JS.plus (snd totals) (legDuration leg)))
    legs (0, 0)%Z.

(** [route.overview_polyline?.points], when truthy. *)
Definition polylinePoints (route : DirectionsRoute) : option string :=
  match overview_polyline route with
  | Some pl =>
      match points pl with
      | Some s => if JS.truthyString s then Some s else None
      | None => None
      end
  | None => None
  end.

(** [!route.legs || !route.overview_polyline?.points || !route.bounds] *)
Definition missingRequiredFields (route : DirectionsRoute) : bool :=
  match legs route, polylinePoints route, route_bounds route with
  | Some _, Some _, Some _ => false
  | _, _, _ => true
  end.

Definition MISSING_FIELDS_MSG : string :=
  "Directions API response missing required fields.".

(** The [catch] block of [findShortestRoute]. *)
Definition directionsCatch (error : Thrown) : Task Route :=
  match error with
  | ErrorObj m =>
      if m =? SERVER_CONFIG_ERROR_MSG then throw error
      else if JS.startsWith m "Could not find route"
              || JS.startsWith m "Directions API Error:" then throw error
      else throw (ErrorObj ("Failed to fetch directions: " ++ m))
  | NonError =>
      throw (ErrorObj "An unknown error occurred while fetching directions.")
  end.

Definition buildRoute (w : World) (route : DirectionsRoute) : Task Route :=
  match legs route, polylinePoints route, route_bounds route with
  | Some ls, Some pts, Some b =>
      let totals := sumLegs ls in
      let decodedPath :=
        map (fun p => {| lat := fst p; lng := snd p |}) (decode w pts) in
      ret {| path := decodedPath;
             distanceMeters := fst totals;
             durationSeconds := snd totals;
             bounds := Some {| northeast := northeast b;
                               southwest := southwest b |};
             waypointsOrder := waypoint_order route |}
  | _, _, _ => throw (ErrorObj MISSING_FIELDS_MSG)
  end.

Definition directionsRequest (w : World) (origin destination : Coordinate)
    (waypoints : option (list string)) : Request :=
  Directions origin destination (waypointsParameter waypoints) (apiKey w).

Definition findShortestRoute (w : World) (origin destination : Coordinate)
    (waypoints : option (list string)) : Task Route :=
  checkApiKey w "Directions" ;;;
  tryCatch
    (data <- fetchJson (fetchDirections w)
               (directionsRequest w origin destination waypoints) ;;
     if negb (d_status data =? "OK") then
       throw (ErrorObj (directionsStatusError data waypoints))
     else
       match routes data with
       | None | Some [] =>
           throw (ErrorObj "Could not find route. Status: ZERO_RESULTS.")
       | Some (route :: _) => buildRoute w route
       end)
    directionsCatch.

(** *** [getCoordinatesFromAddress] and [getAddressFromCoordinates] *)

Definition geocodingStatusError (address : string) (data : GeocodingResponse)
  : string :=
  let status := g_status data in
  let msg := g_error_message data in
  if status =? "REQUEST_DENIED" then
    "Geocoding API Error: Request Denied for address " ++ JS.dquote ++ address
    ++ JS.dquote ++ ". " ++
    JS.orString msg "Check if the Geocoding API is enabled and authorized for your GOOGLE_MAPS_API_KEY."
  else if status =? "ZERO_RESULTS" then
    "Geocoding API Error: No results found for address " ++ JS.dquote
    ++ address ++ JS.dquote ++ ". Please ensure the address is valid."
  else if status =? "OVER_QUERY_LIMIT" then
    "Geocoding API Error: Usage limit exceeded. " ++
    JS.orString msg "Check your Google Cloud Console quotas."
  else
    "Could not geocode address " ++ JS.dquote ++ address ++ JS.dquote
    ++ ". Status: " ++ status ++ ". " ++ JS.orString msg "".

Definition geocodingCatch (error : Thrown) : Task Coordinate :=
  match error with
  | ErrorObj m =>
      if m =? SERVER_CONFIG_ERROR_MSG then throw error
      else if JS.startsWith m "Could not geocode address"
              || JS.startsWith m "Geocoding API Error:" then throw error
      else throw (ErrorObj ("Failed to geocode address: " ++ m))
  | NonError => throw (ErrorObj "An unknown error occurred during geocoding.")
  end.

Definition getCoordinatesFromAddress (w : World) (address : string)
  : Task Coordinate :=
  checkApiKey w "Geocoding" ;;;
  tryCatch
    (data <- fetchJson (fetchGeocoding w) (GeocodeAddress address (apiKey w)) ;;
     if negb (g_status data =? "OK") then
       throw (ErrorObj (geocodingStatusError address data))
     else
       match g_results data with
       | None | Some [] =>
           throw (ErrorObj ("Could not geocode address " ++ JS.dquote
                            ++ address ++ JS.dquote
                            ++ ". Status: ZERO_RESULTS (unexpected)."))
       | Some (r :: _) => ret (geometry_location r)
       end)
    geocodingCatch.

Definition reverseStatusError (w : World) (coordinate : Coordinate)
    (data : GeocodingResponse) : string :=
  let status := g_status data in
  let msg := g_error_message data in
  let c := JSON_stringify w coordinate in
  if status =? "REQUEST_DENIED" then
    "Reverse Geocoding API Error: Request Denied for coordinates " ++ c ++ ". "
    ++ JS.orString msg "Check if the Geocoding API is enabled and authorized for your GOOGLE_MAPS_API_KEY."
  else if status =? "ZERO_RESULTS" then
    "Reverse Geocoding API Error: No address found for coordinates " ++ c ++ "."
  else if status =? "OVER_QUERY_LIMIT" then
    "Reverse Geocoding API Error: Usage limit exceeded. " ++
    JS.orString msg "Check your Google Cloud Console quotas."
  else
    "Could not reverse geocode coordinates " ++ c ++ ". Status: " ++ status
    ++ ". " ++ JS.orString msg "".

Definition reverseCatch (error : Thrown) : Task string :=
  match error with
  | ErrorObj m =>
      if m =? SERVER_CONFIG_ERROR_MSG then throw error
      else if JS.startsWith m "Could not reverse geocode"
              || JS.startsWith m "Reverse Geocoding API Error:" then throw error
      else throw (ErrorObj ("Failed to reverse geocode coordinates: " ++ m))
  | NonError =>
      throw (ErrorObj "An unknown error occurred during reverse geocoding.")
  end.

Definition getAddressFromCoordinates (w : World) (coordinate : Coordinate)
  : Task string :=
  checkApiKey w "Reverse Geocoding" ;;;
  tryCatch
    (data <- fetchJson (fetchGeocoding w) (GeocodeLatLng coordinate (apiKey w)) ;;
     if negb (g_status data =? "OK") then
       throw (ErrorObj (reverseStatusError w coordinate data))
     else
       match g_results data with
       | None | Some [] =>
           throw (ErrorObj ("Could not find address for coordinates "
                            ++ JSON_stringify w coordinate
                            ++ ". Status: ZERO_RESULTS (unexpected)."))
       | Some (r :: _) => ret (formatted_address r)
       end)
    reverseCatch.

(** *** [findAttractionsNearCoordinate] *)

Definition PLACES_KEYWORD : string :=
  "famous attraction point of interest landmark museum park".

Definition placesStatusError (data : PlacesResponse) : string :=
  let status := p_status data in
  let msg := p_error_message data in
  if status =? "REQUEST_DENIED" then
    "Places API Error: Request Denied. " ++
    JS.orString msg "Check if the Places API is enabled and authorized for your GOOGLE_MAPS_API_KEY."
  else if status =? "INVALID_REQUEST" then
    "Places API Error: Invalid Request. " ++
    JS.orString msg "Check search parameters."
  else if status =? "OVER_QUERY_LIMIT" then
    "Places API Error: Usage limit exceeded. " ++
    JS.orString msg "Check your Google Cloud Console quotas."
  else
    "Places API request failed. Status: " ++ status ++ ". "
    ++ JS.orString msg "".

(** [place.rating && place.rating >= 3.5] *)
Definition wellRated (place : Place) : bool :=
  match place_rating place with
  | Some r => JS.truthyNumber r && PrimFloat.leb 3.5%float r
  | None => false
  end.

(** [place.business_status === 'OPERATIONAL'] *)
Definition operational (place : Place) : bool :=
  match business_status place with
  | Some s => s =? "OPERATIONAL"
  | None => false
  end.

(** The predicate of the [filter]. *)
Definition keepPlace (place : Place) : bool :=
  wellRated place && operational place.

(** [place.vicinity || place.types?.filter(...).join(', ').replace(/_/g, ' ')
    || 'Notable place'] *)
Definition placeDescription (place : Place) : string :=
  let fromTypes :=
    match place_types place with
    | Some ts =>
        Some (JS.replaceUnderscores
                (JS.join ", "
                   (filter (fun t => negb (t =? "point_of_interest")
                                     && negb (t =? "establishment")) ts)))
    | None => None
    end in
  match vicinity place with
  | Some v => if JS.truthyString v then v
              else JS.orString fromTypes "Notable place"
  | None => JS.orString fromTypes "Notable place"
  end.

(** The object built by the [map]. *)
Definition placeToAttraction (place : Place) : Attraction :=
  {| name := place_name place;
     description := placeDescription place;
     location := place_location place;
     placeId := place_id place;
     rating := place_rating place;
     types := place_types place |}.

Definition MAX_ATTRACTIONS : nat := 15.

(** [data.results.filter(...).slice(0, 15)] *)
Definition keptPlaces (results : list Place) : list Place :=
  JS.slice0 MAX_ATTRACTIONS (filter keepPlace results).

Definition placesCatch (error : Thrown) : Task (list Attraction) :=
  match error with
  | ErrorObj m =>
      if m =? SERVER_CONFIG_ERROR_MSG then throw error
      else if JS.startsWith m "Places API Error:" then throw error
      else throw (ErrorObj ("Failed to find attractions: " ++ m))
  | NonError =>
      throw (ErrorObj "An unknown error occurred while finding attractions.")
  end.

Definition nearbySearchRequest (w : World) (center : Coordinate)
    (radius : float) : Request :=
  NearbySearch center radius PLACES_KEYWORD (apiKey w).

(** The [radius] parameter defaults to 15000 in the source; every caller
    modelled here passes it. *)
Definition findAttractionsNearCoordinate (w : World) (center : Coordinate)
    (radius : float) : Task (list Attraction) :=
  checkApiKey w "Places" ;;;
  tryCatch
    (data <- fetchJson (fetchPlaces w) (nearbySearchRequest w center radius) ;;
     if negb (p_status data =? "OK") && negb (p_status data =? "ZERO_RESULTS")
     then throw (ErrorObj (placesStatusError data))
     else if p_status data =? "ZERO_RESULTS" then ret []
     else
       match p_results data with
       | None => ret []
       | Some results => ret (map placeToAttraction (keptPlaces results))
       end)
    placesCatch.

(** *** [findAttractionsNearRoute] *)

Local Open Scope float_scope.

Definition EARTH_RADIUS : float := 6371e3.

(** The centre of the bounding box. *)
Definition boundsCenter (b : Bounds) : Coordinate :=
  {| lat := (lat (northeast b) + lat (southwest b)) / 2;
     lng := (lng (northeast b) + lng (southwest b)) / 2 |}.

(** The [a] of the Haversine formula for the two corners of the box: the
    square of half the chord between them. *)
Definition squareHalfChord (w : World) (b : Bounds) : float :=
  let phi1 := lat (southwest b) * JS.Math_PI / 180 in
  let phi2 := lat (northeast b) * JS.Math_PI / 180 in
  let deltaPhi := (lat (northeast b) - lat (southwest b)) * JS.Math_PI / 180 in
  let deltaLambda :=
    (lng (northeast b) - lng (southwest b)) * JS.Math_PI / 180 in
  Math_sin w (deltaPhi / 2) * Math_sin w (deltaPhi / 2) +
  Math_cos w phi1 * Math_cos w phi2 *
  Math_sin w (deltaLambda / 2) * Math_sin w (deltaLambda / 2).

(** The Haversine distance between the two corners of the box. *)
Definition diagonalDistance (w : World) (b : Bounds) : float :=
  let a := squareHalfChord w b in
  let c := 2 * Math_atan2 w (PrimFloat.sqrt a) (PrimFloat.sqrt (1 - a)) in
  EARTH_RADIUS * c.

(** [Math.min(Math.max(diagonalDistance / 1.8, 10000), 50000)] *)
Definition clampRadius (diagonal : float) : float :=
  JS.Math_min (JS.Math_max (diagonal / 1.8) 10000) 50000.

Definition searchRadius (w : World) (b : Bounds) : float :=
  clampRadius (diagonalDistance w b).

Local Close Scope float_scope.

(** The [catch] blocks of [findAttractionsNearRoute]: both rethrow the
    configuration error and turn anything else into an empty list. *)
Definition nearRouteCatch (error : Thrown) : Task (list Attraction) :=
  match error with
  | ErrorObj m =>
      if m =? SERVER_CONFIG_ERROR_MSG then throw error else ret []
  | NonError => ret []
  end.

Definition findAttractionsNearRoute (w : World) (route : Route)
  : Task (list Attraction) :=
  match bounds route with
  | None =>
      if nonEmpty (path route) then
        let midPointIndex := Nat.div (List.length (path route)) 2 in
        match nth_error (path route) midPointIndex with
        | Some midPoint =>
            tryCatch (findAttractionsNearCoordinate w midPoint 20000%float)
                     nearRouteCatch
        | None =>
            (* [path[midPointIndex]] would be [undefined]; reading its
               [lat] fails inside the callee, after the key check *)
            tryCatch (checkApiKey w "Places" ;;;
                      throw (ErrorObj "Cannot read properties of undefined (reading 'lat')"))
                     nearRouteCatch
        end
      else ret []
  | Some b =>
      tryCatch
        (findAttractionsNearCoordinate w (boundsCenter b)
           (JS.Math_round (searchRadius w b)))
        nearRouteCatch
  end.

(** ** [open-weather-map.ts] *)

Definition getWeatherForecast (location : Coordinate) : Task WeatherForecast :=
  ret {| currentTemperatureCelsius := 23%float;
         conditions := "Partly Cloudy";
         fiveDayOutlook :=
           [ {| date := "2024-07-29"; temperatureCelsius := 25%float;
                dayConditions := "Sunny" |};
             {| date := "2024-07-30"; temperatureCelsius := 27%float;
                dayConditions := "Sunny" |};
             {| date := "2024-07-31"; temperatureCelsius := 26%float;
                dayConditions := "Cloudy" |};
             {| date := "2024-08-01"; temperatureCelsius := 24%float;
                dayConditions := "Rainy" |};
             {| date := "2024-08-02"; temperatureCelsius := 23%float;
                dayConditions := "Partly Cloudy" |} ] |}.

(** ** [generate-trip-plan.ts] *)

Record GenerateTripPlanInput : Type := {
  originAddress : string;
  destinationAddress : string;
  departureTime : string;
  waypoints : option (list string)
}.

Record GenerateTripPlanOutput : Type := {
  out_originAddress : string;
  out_destinationAddress : string;
  suggestedDepartureTime : string;
  route : Route;
  weatherForecast : WeatherForecast;
  nearbyAttractions : list Attraction;
  reasoning : string
}.

(** [!input.waypoints?.includes(att.placeId || '')] *)
Definition notAStop (input : GenerateTripPlanInput) (att : Attraction) : bool :=
  match waypoints input with
  | Some stops => negb (JS.includes stops (JS.orString (placeId att) ""))
  | None => true
  end.

Definition MAX_PROMPT_ATTRACTIONS : nat := 5.

(** [nearbyAttractions.filter(...).slice(0, 5)] *)
Definition promptCandidates (input : GenerateTripPlanInput)
    (nearby : list Attraction) : list Attraction :=
  JS.slice0 MAX_PROMPT_ATTRACTIONS (filter (notAStop input) nearby).

(** [att.types?.[0]?.replace(/_/g, ' ')] *)
Definition primaryType (att : Attraction) : option string :=
  match types att with
  | Some (t :: _) => Some (JS.replaceUnderscores t)
  | _ => None
  end.

Definition summarizeAttraction (att : Attraction) : AttractionSummary :=
  {| as_name := name att;
     as_type := primaryType att;
     as_rating := rating att |}.

Definition summarizeOutlook (w : World) (forecast : WeatherForecast) : string :=
  JS.orString
    (Some (JS.join ", "
             (map (fun day => weekdayShort w (date day) ++ ": "
                              ++ dayConditions day)
                  (fiveDayOutlook forecast))))
    "No outlook available.".

Definition buildPromptInput (w : World) (input : GenerateTripPlanInput)
    (r : Route) (forecast : WeatherForecast) (nearby : list Attraction)
  : PromptInput :=
  {| pi_originAddress := originAddress input;
     pi_destinationAddress := destinationAddress input;
     desiredDepartureTime := departureTime input;
     routeInfo :=
       {| distanceKm := JS.roundDiv (distanceMeters r) 1000;
          durationMinutes := JS.roundDiv (durationSeconds r) 60;
          hasWaypoints := hasStops (waypoints input) |};
     pi_weatherForecast :=
       {| ws_currentTemperatureCelsius := currentTemperatureCelsius forecast;
          currentConditions := conditions forecast;
          outlookSummary := summarizeOutlook w forecast |};
     attractions := map summarizeAttraction (promptCandidates input nearby) |}.

(** [await generateTripPlanPrompt(promptInput)] *)
Definition callPrompt (w : World) (p : PromptInput)
  : Task (option PromptOutput) :=
  emit (Prompt p) ;;; settle (generateTripPlanPrompt w p).

Definition AI_FAILED_MSG : string :=
  "AI failed to generate a valid suggestion or reasoning.".

(** [!output?.suggestedDepartureTime || !output?.reasoning] *)
Definition incompleteOutput (output : option PromptOutput) : bool :=
  match output with
  | Some o =>
      JS.notString (po_suggestedDepartureTime o) || JS.notString (po_reasoning o)
  | None => true
  end.

(** [output.suggestedDepartureTime] and [output.reasoning], read after the
    completeness check. *)
Definition suggestedTimeOf (output : option PromptOutput) : string :=
  match output with
  | Some o => JS.orString (po_suggestedDepartureTime o) ""
  | None => ""
  end.

Definition reasoningOf (output : option PromptOutput) : string :=
  match output with
  | Some o => JS.orString (po_reasoning o) ""
  | None => ""
  end.

(** Steps 6 (the check) and 7 of the flow. *)
Definition assemble (input : GenerateTripPlanInput) (output : option PromptOutput)
    (r : Route) (forecast : WeatherForecast) (nearby : list Attraction)
  : Task GenerateTripPlanOutput :=
  if incompleteOutput output then throw (ErrorObj AI_FAILED_MSG)
  else ret {| out_originAddress := originAddress input;
              out_destinationAddress := destinationAddress input;
              suggestedDepartureTime := suggestedTimeOf output;
              route := r;
              weatherForecast := forecast;
              nearbyAttractions := nearby;
              reasoning := reasoningOf output |}.

Definition flowCatch (error : Thrown) : Task GenerateTripPlanOutput :=
  match error with
  | ErrorObj m => throw (ErrorObj ("Trip plan generation failed: " ++ m))
  | NonError =>
      throw (ErrorObj "An unknown error occurred during trip plan generation.")
  end.

(** [input.waypoints?.map(id => `place_id:${id}`) || []] *)
Definition waypointsParam (input : GenerateTripPlanInput) : list string :=
  match waypoints input with
  | Some ids => map (fun id => "place_id:" ++ id) ids
  | None => []
  end.

Definition generateTripPlanFlow (w : World) (input : GenerateTripPlanInput)
  : Task GenerateTripPlanOutput :=
  tryCatch
    (originCoord <- getCoordinatesFromAddress w (originAddress input) ;;
     destinationCoord <- getCoordinatesFromAddress w (destinationAddress input) ;;
     r <- findShortestRoute w originCoord destinationCoord
            (Some (waypointsParam input)) ;;
     forecast <- getWeatherForecast originCoord ;;
     nearby <- findAttractionsNearRoute w r ;;
     let promptInput := buildPromptInput w input r forecast nearby in
     output <- callPrompt w promptInput ;;
     assemble input output r forecast nearby)
    flowCatch.

Definition generateTripPlan (w : World) (input : GenerateTripPlanInput)
  : Task GenerateTripPlanOutput :=
  generateTripPlanFlow w input.

(** ** Specification-side notions *)

(** The sum of a list of integers. *)
Definition Zsum (l : list Z) : Z := fold_right Z.add 0%Z l.

(** An integer that a double holds: 53 bits at most, times a power of
    two. *)
Definition isDouble (z : Z) : Prop :=
  exists q e, (0 <= q <= 2 ^ 53 /\ 0 <= e /\ Z.abs z = q * 2 ^ e)%Z.

(** The running total of [+=] over a list of doubles, from left to right. *)
Definition runningTotal (l : list Z) : Z := fold_left JS.plus l 0%Z.

(** [l1] is [l2] with some elements dropped, the order kept. *)
Inductive subseq {A} : list A -> list A -> Prop :=
| subseq_nil : subseq [] []
| subseq_skip x l1 l2 : subseq l1 l2 -> subseq l1 (x :: l2)
| subseq_keep x l1 l2 : subseq l1 l2 -> subseq (x :: l1) (x :: l2).

Definition CONFIG_ERROR : Thrown := ErrorObj SERVER_CONFIG_ERROR_MSG.

Definition isFetch (ev : Event) : Prop :=
  match ev with Fetch _ => True | Prompt _ => False end.

(** The single nearby search [findAttractionsNearRoute] delegates to, if
    any: its centre and radius. *)
Definition searchTarget (w : World) (r : Route) : option (Coordinate * float) :=
  match bounds r with
  | Some b => Some (boundsCenter b, JS.Math_round (searchRadius w b))
  | None =>
      match nth_error (path r) (Nat.div (List.length (path r)) 2) with
      | Some midPoint => Some (midPoint, 20000%float)
      | None => None
      end
  end.

(** How the reasoning stage settles the flow. *)
Definition reasoningVerdict (w : World) (input : GenerateTripPlanInput)
    (r : Route) (forecast : WeatherForecast) (nearby : list Attraction)
  : Outcome GenerateTripPlanOutput :=
  match generateTripPlanPrompt w (buildPromptInput w input r forecast nearby) with
  | Resolved output =>
      if incompleteOutput output
      then Rejected (ErrorObj ("Trip plan generation failed: " ++ AI_FAILED_MSG))
      else Resolved {| out_originAddress := originAddress input;
                       out_destinationAddress := destinationAddress input;
                       suggestedDepartureTime := suggestedTimeOf output;
                       route := r;
                       weatherForecast := forecast;
                       nearbyAttractions := nearby;
                       reasoning := reasoningOf output |}
  | Rejected e => outcome (flowCatch e)
  end.

(** A field of the engine's output that is missing or empty. *)
Definition missingOrEmpty (field : option string) : Prop :=
  field = None \/ field = Some "".

(** An output of the reasoning engine lacking the suggested time or the
    reasoning. *)
Definition incompleteRecommendation (output : option PromptOutput) : Prop :=
  match output with
  | None => True
  | Some o =>
      missingOrEmpty (po_suggestedDepartureTime o)
      \/ missingOrEmpty (po_reasoning o)
  end.

Definition INVALID_RECOMMENDATION : Thrown :=
  ErrorObj ("Trip plan generation failed: " ++ AI_FAILED_MSG).

(** The forecast a call of the weather provider resolves to, if any. *)
Definition forecastOf (location : Coordinate) : WeatherForecast :=
  match outcome (getWeatherForecast location) with
  | Resolved f => f
  | Rejected _ =>
      {| currentTemperatureCelsius := 0%float; conditions := "";
         fiveDayOutlook := [] |}
  end.

(** The Haversine great-circle distance between [p1] and [p2] on a sphere of
    the given radius, angles in degrees. *)
Definition haversine (w : World) (sphereRadius : float) (p1 p2 : Coordinate)
  : float :=
  let toRadians := fun deg => (deg * JS.Math_PI / 180)%float in
  let halfChordLat := Math_sin w (toRadians (lat p2 - lat p1)%float / 2)%float in
  let halfChordLng := Math_sin w (toRadians (lng p2 - lng p1)%float / 2)%float in
  let a := (halfChordLat * halfChordLat +
            Math_cos w (toRadians (lat p1)) * Math_cos w (toRadians (lat p2))
            * halfChordLng * halfChordLng)%float in
  (sphereRadius *
   (2 * Math_atan2 w (PrimFloat.sqrt a) (PrimFloat.sqrt (1 - a))))%float.

(** Clamping as the specification words it. *)
Definition clampTo (lo hi x : float) : float :=
  if PrimFloat.ltb x lo then lo
  else if PrimFloat.ltb hi x then hi
  else x.

(** The doubles 10000 and 50000, the doubles of the integers between them,
    and the check that these lie between the two. *)
Module RoundTable.

Local Open Scope Z_scope.

Definition lo : spec_float := S754_finite false 5497558138880000 (-39).
Definition hi : spec_float := S754_finite false 6871947673600000 (-37).

(** The double nearest to the integer [r]. *)
Definition ofInteger (r : Z) : spec_float :=
  binary_normalize prec emax r 0 false.

Definition roundedOk (r : Z) : bool :=
  valid_binary (ofInteger r) && SFleb lo (ofInteger r)
  && SFleb (ofInteger r) hi.

(** [f] holds of the [n] integers from [from] on. *)
Fixpoint allFrom (f : Z -> bool) (from : Z) (n : nat) : bool :=
  match n with
  | O => true
  | S k => f from && allFrom f (from + 1) k
  end.

End RoundTable.

(** ** A sample host, for running the services on concrete inputs *)

Module Sample.

Local Open Scope float_scope.

(** Series approximations standing for the host's [Math.sin], [Math.cos]
    and [Math.atan2] on the arguments the services pass. *)
Definition sinApprox (x : float) : float :=
  let x2 := x * x in
  x * (1 - x2 / 6 * (1 - x2 / 20 * (1 - x2 / 42 * (1 - x2 / 72
       * (1 - x2 / 110 * (1 - x2 / 156)))))).

Definition cosApprox (x : float) : float :=
  let x2 := x * x in
  1 - x2 / 2 * (1 - x2 / 12 * (1 - x2 / 30 * (1 - x2 / 56
      * (1 - x2 / 90 * (1 - x2 / 132))))).

Definition halveTangent (t : float) : float :=
  t / (1 + PrimFloat.sqrt (1 + t * t)).

Definition atanApprox (t : float) : float :=
  let u := halveTangent (halveTangent (halveTangent t)) in
  let u2 := u * u in
  8 * (u * (1 - u2 * (1 / 3 - u2 * (1 / 5 - u2 * (1 / 7 - u2 * (1 / 9
            - u2 / 11)))))).

Definition atan2Approx (y x : float) : float :=
  if PrimFloat.ltb 0 x then atanApprox (y / x)
  else if PrimFloat.ltb 0 y then JS.Math_PI / 2
  else 0.

Definition sanFrancisco : Coordinate := {| lat := 37.7749; lng := -122.4194 |}.
Definition losAngeles : Coordinate := {| lat := 34.0522; lng := -118.2437 |}.

Definition leg (meters seconds : Z) : Leg :=
  {| distance := Some {| value := Some meters |};
     duration := Some {| value := Some seconds |} |}.

Definition coastBounds : Bounds :=
  {| northeast := {| lat := 37.8; lng := -118.2 |};
     southwest := {| lat := 34.0; lng := -122.5 |} |}.

(** A route of three legs, as the Directions API reports it, with the
    given [waypoint_order]. *)
Definition withOrder (order : option (list nat)) : DirectionsRoute :=
  {| legs := Some [leg 120000 4500; leg 250000 9000; leg 265000 9900];
     overview_polyline := Some {| points := Some "a~l~Fjk~uOwHJy@P" |};
     route_bounds := Some coastBounds;
     waypoint_order := order |}.

Definition coastRoute : DirectionsRoute := withOrder (Some [1; 0]%nat).

(** The same route without its bounding box. *)
Definition unboundedRoute : DirectionsRoute :=
  {| legs := legs coastRoute;
     overview_polyline := overview_polyline coastRoute;
     route_bounds := None;
     waypoint_order := None |}.

(** A route of three legs, the first of 2^53 m. *)
Definition farRoute : DirectionsRoute :=
  {| legs := Some [leg (2 ^ 53) 3600; leg 1 60; leg 1 60];
     overview_polyline := overview_polyline coastRoute;
     route_bounds := route_bounds coastRoute;
     waypoint_order := None |}.

Definition directionsOf (r : DirectionsRoute) : DirectionsResponse :=
  {| d_status := "OK"; d_error_message := None; routes := Some [r] |}.

Definition place (n : string) (id : string) (r : float) (status : string)
  : Place :=
  {| place_name := n;
     vicinity := None;
     place_types := Some ["tourist_attraction"; "point_of_interest"]%string;
     place_location := sanFrancisco;
     place_id := Some id;
     place_rating := Some r;
     business_status := Some status |}.

Definition somePlaces : PlacesResponse :=
  {| p_status := "OK";
     p_error_message := None;
     p_results :=
       Some [ place "Pier" "A" 4.5 "OPERATIONAL";
              place "Closed Diner" "B" 4.9 "CLOSED_TEMPORARILY";
              place "Tar Pits" "C" 3.5 "OPERATIONAL";
              place "Dull Corner" "D" 3.4 "OPERATIONAL";
              place "Museum" "E" 4.7 "OPERATIONAL" ] |}.

Definition goodAdvice : option PromptOutput :=
  Some {| po_suggestedDepartureTime := Some "2024-08-03T10:15:00Z";
          po_reasoning := Some "Leave shortly after ten to miss the morning peak." |}.

Definition emptyTimeAdvice : option PromptOutput :=
  Some {| po_suggestedDepartureTime := Some "";
          po_reasoning := Some "Any time works." |}.

Definition geocoded (c : Coordinate) : GeocodingResponse :=
  {| g_status := "OK";
     g_error_message := None;
     g_results := Some [ {| geometry_location := c;
                            formatted_address := "somewhere" |} ] |}.

(** A host with the given key and endpoint behaviours. *)
Definition world (k : option string)
    (dir : Outcome DirectionsResponse) (places : Outcome PlacesResponse)
    (advice : Outcome (option PromptOutput)) : World :=
  {| API_KEY := k;
     fetchGeocoding := fun r =>
       match r with
       | GeocodeAddress a _ =>
           Resolved (geocoded (if (a =? "Los Angeles, CA")%string
                               then losAngeles else sanFrancisco))
       | _ => Resolved (geocoded sanFrancisco)
       end;
     fetchDirections := fun _ => dir;
     fetchPlaces := fun _ => places;
     generateTripPlanPrompt := fun _ => advice;
     decode := fun _ => [(37.7749, -122.4194); (34.0522, -118.2437)];
     Math_sin := sinApprox;
     Math_cos := cosApprox;
     Math_atan2 := atan2Approx;
     JSON_stringify := fun _ => "{}"%string;
     weekdayShort := fun _ => "Mon"%string |}.

Definition configured : World :=
  world (Some "k-123"%string) (Resolved (directionsOf coastRoute))
        (Resolved somePlaces) (Resolved goodAdvice).

(** A configured host whose Directions endpoint answers with [r]. *)
Definition routing (r : DirectionsRoute) : World :=
  world (Some "k-123"%string) (Resolved (directionsOf r))
        (Resolved somePlaces) (Resolved goodAdvice).

(** A configured host whose Places endpoint fails at the network level. *)
Definition placesDown : World :=
  world (Some "k-123"%string) (Resolved (directionsOf coastRoute))
        (Rejected (ErrorObj "socket hang up")) (Resolved goodAdvice).

(** The [Route] that [findShortestRoute] builds from [coastRoute]. *)
Definition coastTrip : Route :=
  {| path := [sanFrancisco; losAngeles];
     distanceMeters := 635000;
     durationSeconds := 23400;
     bounds := Some coastBounds;
     waypointsOrder := Some [1; 0]%nat |}.

(** A configured host whose reasoning engine returns an empty time. *)
Definition vagueAdvisor : World :=
  world (Some "k-123"%string) (Resolved (directionsOf coastRoute))
        (Resolved somePlaces) (Resolved emptyTimeAdvice).

Definition unconfigured : World :=
  world None (Resolved (directionsOf coastRoute))
        (Resolved somePlaces) (Resolved goodAdvice).

Definition tripInput (stops : option (list string)) : GenerateTripPlanInput :=
  {| originAddress := "San Francisco, CA";
     destinationAddress := "Los Angeles, CA";
     departureTime := "2024-08-03T10:00:00Z";
     waypoints := stops |}.

End Sample.

(** ** Requests and notions used by the further properties *)

(** The request [getCoordinatesFromAddress] sends. *)
Definition geocodeRequest (w : World) (address : string) : Request :=
  GeocodeAddress address (apiKey w).

(** The request [getAddressFromCoordinates] sends. *)
Definition reverseRequest (w : World) (coordinate : Coordinate) : Request :=
  GeocodeLatLng coordinate (apiKey w).

(** A Places status the service has its own error for. *)
Definition knownPlacesFailure (status : string) : bool :=
  (status =? "REQUEST_DENIED") || (status =? "INVALID_REQUEST")
  || (status =? "OVER_QUERY_LIMIT").

(** What the flow's [catch] block makes of an error. *)
Definition flowError (e : Thrown) : Thrown :=
  match e with
  | ErrorObj m => ErrorObj ("Trip plan generation failed: " ++ m)
  | NonError =>
      ErrorObj "An unknown error occurred during trip plan generation."
  end.

(** [l1] is an initial segment of [l2]. *)
Definition isPrefixOf {A} (l1 l2 : list A) : Prop :=
  exists rest, l2 = (l1 ++ rest)%list.

(** ** String operations used by the user interface *)

Module Text.

(** [c.toLowerCase()] on an ASCII letter; other bytes are kept.
    JavaScript also lowers letters outside ASCII, a few of them to ASCII
    letters (the Kelvin sign to [k]): what is proved below of a message
    with a free part is stated for ASCII text. *)
Definition lowerChar (c : ascii) : ascii :=
  let n := nat_of_ascii c in
  if (65 <=? n)%nat && (n <=? 90)%nat then ascii_of_nat (n + 32) else c.

(** The text is made of ASCII characters only. *)
Definition isAscii (s : string) : bool :=
  forallb (fun c => (nat_of_ascii c <? 128)%nat) (list_ascii_of_string s).

(** [s.toLowerCase()] *)
Fixpoint toLowerCase (s : string) : string :=
  match s with
  | EmptyString => EmptyString
  | String c r => String (lowerChar c) (toLowerCase r)
  end.

(** [s.includes(needle)] *)
Fixpoint includes (s needle : string) : bool :=
  String.prefix needle s
  || match s with
     | EmptyString => false
     | String _ r => includes r needle
     end.

(** White space as [trim] sees it, among the ASCII characters. *)
Definition isWhitespace (c : ascii) : bool :=
  let n := nat_of_ascii c in
  (n =? 32)%nat || ((9 <=? n)%nat && (n <=? 13)%nat).

Fixpoint trimStart (s : string) : string :=
  match s with
  | EmptyString => EmptyString
  | String c r => if isWhitespace c then trimStart r else s
  end.

Fixpoint trimEnd (s : string) : string :=
  match s with
  | EmptyString => EmptyString
  | String c r =>
      match trimEnd r with
      | EmptyString => if isWhitespace c then EmptyString
                       else String c EmptyString
      | r' => String c r'
      end
  end.

(** [s.trim()] *)
Definition trim (s : string) : string := trimEnd (trimStart s).

(** An integer inside a template literal. *)
Definition ofInteger (z : Z) : string :=
  DecimalString.NilZero.string_of_int (Z.to_int z).

End Text.

(** ** [trip-planner.tsx] *)

(** The [errorMessage] computed by the [catch] block of [onSubmit];
    [selectedCount] is [selectedWaypoints.length]. *)
Definition planErrorMessage (selectedCount : nat) (err : Thrown) : string :=
  match err with
  | NonError =>
      "Could not generate trip plan. Please check your inputs and try again later."
  | ErrorObj originalMessage =>
      let lowerCaseMessage := Text.toLowerCase originalMessage in
      let has := Text.includes lowerCaseMessage in
      if originalMessage =? SERVER_CONFIG_ERROR_MSG then SERVER_CONFIG_ERROR_MSG
      else if has "api key not valid" || has "unauthorized" || has "forbidden"
      then "Error: Invalid Google Maps API key. Please verify the `GOOGLE_MAPS_API_KEY` and `NEXT_PUBLIC_GOOGLE_MAPS_API_KEY` values in your `.env.local` file and ensure they are correctly configured in your Google Cloud Console."
      else if has "request_denied" then
        if has "api project is not authorized" || has "api is not enabled"
        then "Error: Google Maps API request denied. Ensure the required APIs (Geocoding, Directions, Places) are ENABLED and authorized for your server-side key (GOOGLE_MAPS_API_KEY) in Google Cloud Console. Check billing status and key restrictions. Restart server after changes. ("
             ++ originalMessage ++ ")"
        else "Error: Google Maps API request denied. " ++ originalMessage
      else if has "quota" || has "limit"
      then "Error: Could not generate trip plan due to exceeding Google Maps API usage limits. Please check your quotas in the Google Cloud Console."
      else if has "geocode" && has "zero_results"
      then "Error: Could not find coordinates for the specified address. Please ensure the address is valid. ("
           ++ originalMessage ++ ")"
      else if has "directions" && has "zero_results"
      then "Error: No route found between the specified locations"
           ++ (if (0 <? selectedCount)%nat then " including the selected stops"
               else "")
           ++ ". (" ++ originalMessage ++ ")"
      else if has "places" && has "zero_results"
      then "Error: No attractions found for the specified area. ("
           ++ originalMessage ++ ")"
      else if has "fetch" && has "failed"
      then "Error: Network request failed. Could not connect to Google Maps services. Please check your internet connection and firewall settings. ("
           ++ originalMessage ++ ")"
      else if JS.startsWith originalMessage "Trip plan generation failed:" then
        if Text.includes originalMessage SERVER_CONFIG_ERROR_MSG
        then SERVER_CONFIG_ERROR_MSG
        else originalMessage
      else "Error generating trip plan: " ++ originalMessage
  end.

(** Whether a message holds one of the words that the [catch] block of
    [onSubmit] looks for before it considers a network failure. *)
Definition earlierTrigger (originalMessage : string) : bool :=
  let has := Text.includes (Text.toLowerCase originalMessage) in
  has "api key not valid" || has "unauthorized" || has "forbidden"
  || has "request_denied" || has "quota" || has "limit"
  || has "zero_results".

(** The [errorMessage] computed by the [catch] block of
    [handleUseCurrentLocation] around [getAddressFromCoordinates]. *)
Definition locationErrorMessage (err : Thrown) : string :=
  match err with
  | NonError => "Could not determine address from your location."
  | ErrorObj m =>
      if m =? SERVER_CONFIG_ERROR_MSG then SERVER_CONFIG_ERROR_MSG
      else if Text.includes m "REQUEST_DENIED"
      then "Error: Reverse Geocoding failed. Ensure the Geocoding API is enabled and authorized for your server-side key (GOOGLE_MAPS_API_KEY)."
      else if Text.includes m "ZERO_RESULTS"
      then "Error: Could not find an address for your current coordinates."
      else "Reverse geocoding failed: " ++ m
  end.

(** The [checked] argument of a checkbox change. *)
Inductive CheckedState : Type := Checked | Unchecked | Indeterminate.

(** The updater passed to [setSelectedWaypoints] by [handleWaypointChange]. *)
Definition handleWaypointChange (checked : CheckedState) (placeId : string)
    (prev : list string) : list string :=
  match checked with
  | Checked => (prev ++ [placeId])%list
  | _ => filter (fun id => negb (id =? placeId)) prev
  end.

(** [formatDuration], on a whole number of seconds: [Math.floor] of a
    quotient is the floor division, [%] the remainder with the sign of the
    dividend. The source divides doubles and prints a number in a
    template: for seconds of magnitude below 2^53 the quotient's rounding
    error is too small to change its floor, and the numbers print as
    their decimal digits. *)
Definition formatDuration (seconds : Z) : string :=
  let hours := (seconds / 3600)%Z in
  let minutes := (Z.rem seconds 3600 / 60)%Z in
  let withHours :=
    if (0 <? hours)%Z then Text.ofInteger hours ++ " hr " else "" in
  let durationString :=
    if (0 <? minutes)%Z || (hours =? 0)%Z
    then withHours ++ Text.ofInteger minutes ++ " min"
    else withHours in
  match Text.trim durationString with
  | EmptyString => "0 min"
  | shown => shown
  end.

(** The state of the [TripPlanner] component that [onSubmit] reads and
    writes. *)
Record PlannerState : Type := {
  tripPlan : option GenerateTripPlanOutput;
  loadingPlan : bool;
  error : option string;
  selectedWaypoints : list string
}.

Record TripPlannerFormValues : Type := {
  form_originAddress : string;
  form_destinationAddress : string;
  form_departureTime : string
}.

(** What [onSubmit] does to the outside: calls of [onPlanGenerated] and
    toasts. *)
Inductive Notice : Type :=
| PlanGenerated (plan : option GenerateTripPlanOutput)
| Toast (destructive : bool) (title description : string).

(** [{ ...tripPlan, route: { ...tripPlan.route, path: [] } }] *)
Definition withoutPath (plan : GenerateTripPlanOutput) : GenerateTripPlanOutput :=
  {| out_originAddress := out_originAddress plan;
     out_destinationAddress := out_destinationAddress plan;
     suggestedDepartureTime := suggestedDepartureTime plan;
     route := {| path := [];
                 distanceMeters := distanceMeters (route plan);
                 durationSeconds := durationSeconds (route plan);
                 bounds := bounds (route plan);
                 waypointsOrder := waypointsOrder (route plan) |};
     weatherForecast := weatherForecast plan;
     nearbyAttractions := nearbyAttractions plan;
     reasoning := reasoning plan |}.

(** The [try] block of [onSubmit]; [toISO] stands for [new Date(s)] and
    [toISOString()], giving nothing for an invalid date. *)
Definition submitPlan (w : World) (toISO : string -> option string)
    (stops : list string) (data : TripPlannerFormValues)
  : Task GenerateTripPlanOutput :=
  match toISO (form_departureTime data) with
  | None => throw (ErrorObj "Invalid date/time format for departure")
  | Some departureISO =>
      generateTripPlan w
        {| originAddress := form_originAddress data;
           destinationAddress := form_destinationAddress data;
           departureTime := departureISO;
           waypoints := Some stops |}
  end.

(** [onSubmit]: the outbound calls, the state of the component when it
    returns, and its notices in order. *)
Definition onSubmit (w : World) (toISO : string -> option string)
    (st : PlannerState) (data : TripPlannerFormValues)
  : list Event * (PlannerState * list Notice) :=
  let isUpdate := nonEmpty (selectedWaypoints st) in
  let waypointsToSubmit := selectedWaypoints st in
  let plan0 := if isUpdate then tripPlan st else None in
  let stops0 := if isUpdate then selectedWaypoints st else [] in
  let first :=
    PlanGenerated (if isUpdate then option_map withoutPath (tripPlan st)
                   else None) in
  match submitPlan w toISO waypointsToSubmit data with
  | (log, Resolved plan) =>
      (log,
       ({| tripPlan := Some plan; loadingPlan := false; error := None;
           selectedWaypoints := stops0 |},
        [ first;
          PlanGenerated (Some plan);
          Toast false
            (if isUpdate then "Route Updated" else "Trip Plan Generated")
            (if isUpdate then "Route updated with selected stops."
             else "Your AI-powered trip plan is ready.") ]))
  | (log, Rejected err) =>
      let errorMessage :=
        planErrorMessage (List.length (selectedWaypoints st)) err in
      (log,
       ({| tripPlan := plan0; loadingPlan := false;
           error := Some errorMessage; selectedWaypoints := stops0 |},
        [ first;
          PlanGenerated None;
          Toast true "Trip Plan Error" errorMessage ]))
  end.

(** ** [page.tsx] and [navigation-controls.tsx] *)

Record HomeState : Type := {
  home_tripPlan : option GenerateTripPlanOutput;
  isNavigating : bool
}.

Definition homeInitial : HomeState :=
  {| home_tripPlan := None; isNavigating := false |}.

Definition handlePlanGenerated (plan : option GenerateTripPlanOutput)
    (st : HomeState) : HomeState :=
  {| home_tripPlan := plan; isNavigating := false |}.

Definition handleStartNavigation (st : HomeState) : HomeState :=
  match home_tripPlan st with
  | Some _ => {| home_tripPlan := home_tripPlan st; isNavigating := true |}
  | None => st
  end.

Definition handleStopNavigation (st : HomeState) : HomeState :=
  {| home_tripPlan := home_tripPlan st; isNavigating := false |}.

(** What can happen to the page. *)
Inductive HomeAction : Type :=
| OnPlanGenerated (plan : option GenerateTripPlanOutput)
| OnStart
| OnStop.

Definition homeStep (st : HomeState) (a : HomeAction) : HomeState :=
  match a with
  | OnPlanGenerated plan => handlePlanGenerated plan st
  | OnStart => handleStartNavigation st
  | OnStop => handleStopNavigation st
  end.

Definition homeRun (actions : list HomeAction) : HomeState :=
  fold_left homeStep actions homeInitial.

(** The page's actions caused by the notices of a submit. *)
Definition pageActions (notices : list Notice) : list HomeAction :=
  flat_map (fun n => match n with
                     | PlanGenerated plan => [OnPlanGenerated plan]
                     | Toast _ _ _ => []
                     end) notices.

(** [tripPlan && !isNavigating]: the Start Journey button is rendered. *)
Definition showsStart (st : HomeState) : bool :=
  match home_tripPlan st with
  | Some _ => negb (isNavigating st)
  | None => false
  end.

(** [isNavigating]: the Exit Journey button is rendered. *)
Definition showsExit (st : HomeState) : bool := isNavigating st.

(** ** Hosts for the scenarios below *)

Module Cases.

(** A host given by its key and its four endpoints. *)
Definition host (k : option string)
    (geo : Request -> Outcome GeocodingResponse)
    (dir : Outcome DirectionsResponse) (places : Outcome PlacesResponse)
    (advice : Outcome (option PromptOutput)) : World :=
  {| API_KEY := k;
     fetchGeocoding := geo;
     fetchDirections := fun _ => dir;
     fetchPlaces := fun _ => places;
     generateTripPlanPrompt := fun _ => advice;
     decode := fun _ => [(37.7749, -122.4194); (34.0522, -118.2437)]%float;
     Math_sin := Sample.sinApprox;
     Math_cos := Sample.cosApprox;
     Math_atan2 := Sample.atan2Approx;
     JSON_stringify := fun _ => "{}";
     weekdayShort := fun _ => "Mon" |}.

Definition status (s : string) : GeocodingResponse :=
  {| g_status := s; g_error_message := None; g_results := None |}.

(** A geocoder that knows San Francisco only. *)
Definition geoSanFrancisco (r : Request) : Outcome GeocodingResponse :=
  match r with
  | GeocodeAddress "San Francisco, CA" _ =>
      Resolved (Sample.geocoded Sample.sanFrancisco)
  | _ => Resolved (status "ZERO_RESULTS")
  end.

(** The destination is unknown to the geocoder. *)
Definition lostDestination : World :=
  host (Some "k-123") geoSanFrancisco
       (Resolved (Sample.directionsOf Sample.coastRoute))
       (Resolved Sample.somePlaces) (Resolved Sample.goodAdvice).

(** The geocoder answers [OK] with an empty list of results. *)
Definition emptyAnswers : World :=
  host (Some "k-123")
       (fun _ => Resolved {| g_status := "OK"; g_error_message := None;
                             g_results := Some [] |})
       (Resolved (Sample.directionsOf Sample.coastRoute))
       (Resolved Sample.somePlaces) (Resolved Sample.goodAdvice).

(** The Directions endpoint answers with the given status and no route. *)
Definition directionsStatus (s : string) : World :=
  host (Some "k-123") (fetchGeocoding Sample.configured)
       (Resolved {| d_status := s; d_error_message := None; routes := None |})
       (Resolved Sample.somePlaces) (Resolved Sample.goodAdvice).

(** The Places endpoint answers with the given status and no result. *)
Definition placesStatus (s : string) : World :=
  host (Some "k-123") (fetchGeocoding Sample.configured)
       (Resolved (Sample.directionsOf Sample.coastRoute))
       (Resolved {| p_status := s; p_error_message := None;
                    p_results := None |})
       (Resolved Sample.goodAdvice).

(** The network is down for the Directions endpoint. *)
Definition directionsDown : World :=
  host (Some "k-123") (fetchGeocoding Sample.configured)
       (Rejected (ErrorObj "socket hang up"))
       (Resolved Sample.somePlaces) (Resolved Sample.goodAdvice).

(** A box from 2.5 S, 90 W to 2.5 N, 90 E: its corners lie half the globe
    apart. *)
Definition halfGlobe : Bounds :=
  {| northeast := {| lat := 2.5; lng := 90 |};
     southwest := {| lat := -2.5; lng := -90 |} |}.

Definition halfGlobeRoute : Route :=
  {| path := [northeast halfGlobe; southwest halfGlobe];
     distanceMeters := 20000000; durationSeconds := 720000;
     bounds := Some halfGlobe; waypointsOrder := None |}.

(** [Math.sin] and [Math.cos] with the correctly rounded values at the
    arguments that the radius for [halfGlobe] asks for (2.5 degrees and
    a right angle, in radians), the series elsewhere. *)
Definition sinRounded (x : float) : float :=
  if PrimFloat.eqb x 0x1.657184ae74487p-5 then 0x1.65547c4694e11p-5
  else if PrimFloat.eqb x 0x1.921fb54442d18p+0 then 1
  else Sample.sinApprox x.

Definition cosRounded (x : float) : float :=
  if PrimFloat.eqb (PrimFloat.abs x) 0x1.657184ae74487p-5
  then 0x1.ff833f9da45f7p-1
  else Sample.cosApprox x.

(** [Math.atan2] is NaN as soon as an argument is. *)
Definition atan2Strict (y x : float) : float :=
  if PrimFloat.is_nan y || PrimFloat.is_nan x then PrimFloat.nan
  else Sample.atan2Approx y x.

(** A configured host with these [Math] functions. *)
Definition rounded : World :=
  {| API_KEY := Some "k-123";
     fetchGeocoding := fetchGeocoding Sample.configured;
     fetchDirections := fetchDirections Sample.configured;
     fetchPlaces := fetchPlaces Sample.configured;
     generateTripPlanPrompt := generateTripPlanPrompt Sample.configured;
     decode := decode Sample.configured;
     Math_sin := sinRounded;
     Math_cos := cosRounded;
     Math_atan2 := atan2Strict;
     JSON_stringify := JSON_stringify Sample.configured;
     weekdayShort := weekdayShort Sample.configured |}.

(** A route without bounding box, through three points. *)
Definition boxless : Route :=
  {| path := [Sample.sanFrancisco; Sample.losAngeles; Sample.sanFrancisco];
     distanceMeters := 0; durationSeconds := 0;
     bounds := None; waypointsOrder := None |}.

(** The plan of the configured host for the coast trip with stop [A]. *)
Definition coastPlan : GenerateTripPlanOutput :=
  {| out_originAddress := "San Francisco, CA";
     out_destinationAddress := "Los Angeles, CA";
     suggestedDepartureTime := "2024-08-03T10:15:00Z";
     route := Sample.coastTrip;
     weatherForecast := forecastOf Sample.sanFrancisco;
     nearbyAttractions :=
       map placeToAttraction
         [ Sample.place "Pier" "A" 4.5%float "OPERATIONAL";
           Sample.place "Tar Pits" "C" 3.5%float "OPERATIONAL";
           Sample.place "Museum" "E" 4.7%float "OPERATIONAL" ];
     reasoning := "Leave shortly after ten to miss the morning peak." |}.

Definition form : TripPlannerFormValues :=
  {| form_originAddress := "San Francisco, CA";
     form_destinationAddress := "Los Angeles, CA";
     form_departureTime := "2024-08-03T10:00" |}.

(** A clock that reads the one date of [form]. *)
Definition toISO (s : string) : option string :=
  if s =? "2024-08-03T10:00" then Some "2024-08-03T10:00:00.000Z" else None.

Definition fresh : PlannerState :=
  {| tripPlan := None; loadingPlan := false; error := None;
     selectedWaypoints := [] |}.

(** A planner that holds the coast plan, with stop [A] ticked. *)
Definition updating : PlannerState :=
  {| tripPlan := Some coastPlan; loadingPlan := false; error := None;
     selectedWaypoints := ["A"] |}.

End Cases.


(** * Properties *)

(** ** Basic facts about the promise monad and the key check *)

Lemma checkApiKey_missing (w : World) (apiName : string) :
  apiKeyMissing w = true -> checkApiKey w apiName = throw CONFIG_ERROR.
Proof. unfold checkApiKey. now intros ->. Qed.

Lemma checkApiKey_present (w : World) (apiName : string) :
  apiKeyMissing w = false -> checkApiKey w apiName = ret tt.
Proof. unfold checkApiKey. now intros ->. Qed.

(** Case analysis on the condition of the first conditional of the goal. *)
Ltac case_if :=
  match goal with
  | |- context [if ?b then _ else _] => destruct b eqn:?
  end.

Lemma directionsCatch_rejects (e : Thrown) :
  exists e', directionsCatch e = ([], Rejected e').
Proof.
  destruct e as [m|]; unfold directionsCatch, throw; repeat case_if; eauto.
Qed.

Lemma placesCatch_rejects (e : Thrown) :
  exists e', placesCatch e = ([], Rejected e').
Proof.
  destruct e as [m|]; unfold placesCatch, throw; repeat case_if; eauto.
Qed.

Lemma geocodingCatch_rejects (e : Thrown) :
  exists e', geocodingCatch e = ([], Rejected e').
Proof.
  destruct e as [m|]; unfold geocodingCatch, throw; repeat case_if; eauto.
Qed.

Lemma flowCatch_rejects (e : Thrown) :
  exists e', flowCatch e = ([], Rejected e').
Proof. destruct e; unfold flowCatch, throw; eauto. Qed.

(** Unfolds the monadic plumbing in the goal. *)
Ltac run :=
  cbn [bind tryCatch ret throw emit settle fetchJson calls outcome
       fst snd app negb] in *.

(** ** The weather stub *)

(** C10: for every location, [getWeatherForecast] resolves, without any
    outbound call, to one fixed forecast: 23 degrees, "Partly Cloudy", and
    the five-entry outlook dated 2024-07-29 to 2024-08-02. The location
    does not influence the result. *)
Theorem getWeatherForecast_fixed :
  (forall location : Coordinate,
      getWeatherForecast location =
      ([], Resolved
             {| currentTemperatureCelsius := 23%float;
                conditions := "Partly Cloudy";
                fiveDayOutlook :=
                  [ {| date := "2024-07-29"; temperatureCelsius := 25%float;
                       dayConditions := "Sunny" |};
                    {| date := "2024-07-30"; temperatureCelsius := 27%float;
                       dayConditions := "Sunny" |};
                    {| date := "2024-07-31"; temperatureCelsius := 26%float;
                       dayConditions := "Cloudy" |};
                    {| date := "2024-08-01"; temperatureCelsius := 24%float;
                       dayConditions := "Rainy" |};
                    {| date := "2024-08-02"; temperatureCelsius := 23%float;
                       dayConditions := "Partly Cloudy" |} ] |}))
  /\ (forall l1 l2 : Coordinate, getWeatherForecast l1 = getWeatherForecast l2)
  /\ (forall location : Coordinate,
         isRejected (outcome (getWeatherForecast location)) = false).
Proof. repeat split. Qed.

(** ** Missing credentials *)

Lemma findShortestRoute_unconfigured w origin destination stops :
  apiKeyMissing w = true ->
  findShortestRoute w origin destination stops = ([], Rejected CONFIG_ERROR).
Proof.
  intros H. unfold findShortestRoute. now rewrite checkApiKey_missing.
Qed.

Lemma getCoordinatesFromAddress_unconfigured w address :
  apiKeyMissing w = true ->
  getCoordinatesFromAddress w address = ([], Rejected CONFIG_ERROR).
Proof.
  intros H. unfold getCoordinatesFromAddress. now rewrite checkApiKey_missing.
Qed.

Lemma getAddressFromCoordinates_unconfigured w coordinate :
  apiKeyMissing w = true ->
  getAddressFromCoordinates w coordinate = ([], Rejected CONFIG_ERROR).
Proof.
  intros H. unfold getAddressFromCoordinates. now rewrite checkApiKey_missing.
Qed.

Lemma findAttractionsNearCoordinate_unconfigured w center radius :
  apiKeyMissing w = true ->
  findAttractionsNearCoordinate w center radius = ([], Rejected CONFIG_ERROR).
Proof.
  intros H. unfold findAttractionsNearCoordinate.
  now rewrite checkApiKey_missing.
Qed.

(** C5, as the code has it: when [GOOGLE_MAPS_API_KEY] is absent or empty,
    every call of a Google-backed provider (geocoding, reverse geocoding,
    routing, nearby search) is rejected with exactly the configuration
    error and has issued no request, and the flow is rejected with that
    error's message behind its own prefix, no request issued; the weather
    provider reads no credential, issues no request and resolves all the
    same. *)
Theorem unconfigured_providers (w : World) :
  apiKeyMissing w = true ->
  (forall address,
      getCoordinatesFromAddress w address = ([], Rejected CONFIG_ERROR))
  /\ (forall coordinate,
         getAddressFromCoordinates w coordinate = ([], Rejected CONFIG_ERROR))
  /\ (forall origin destination stops,
         findShortestRoute w origin destination stops
         = ([], Rejected CONFIG_ERROR))
  /\ (forall center radius,
         findAttractionsNearCoordinate w center radius
         = ([], Rejected CONFIG_ERROR))
  /\ (forall input,
         generateTripPlanFlow w input
         = ([], Rejected (ErrorObj ("Trip plan generation failed: "
                                    ++ SERVER_CONFIG_ERROR_MSG))))
  /\ (forall location,
         calls (getWeatherForecast location) = []
         /\ isRejected (outcome (getWeatherForecast location)) = false).
Proof.
  intros H. repeat split.
  - intros; now apply getCoordinatesFromAddress_unconfigured.
  - intros; now apply getAddressFromCoordinates_unconfigured.
  - intros; now apply findShortestRoute_unconfigured.
  - intros; now apply findAttractionsNearCoordinate_unconfigured.
  - intros input. unfold generateTripPlanFlow.
    now rewrite getCoordinatesFromAddress_unconfigured.
Qed.

Lemma unconfigured_providers_witness :
  apiKeyMissing Sample.unconfigured = true
  /\ getCoordinatesFromAddress Sample.unconfigured "San Francisco, CA"
     = ([], Rejected CONFIG_ERROR).
Proof.
  split; [reflexivity|].
  apply (unconfigured_providers Sample.unconfigured). reflexivity.
Defined.

(** C5 as stated fails for the weather provider: on a host without any
    credential its first call resolves instead of being rejected with a
    configuration error. *)
Lemma weather_ignores_credentials :
  API_KEY Sample.unconfigured = None
  /\ ~ (exists e, outcome (getWeatherForecast Sample.sanFrancisco) = Rejected e).
Proof.
  split; [reflexivity|]. intros [e H]. discriminate H.
Qed.

(** ** [findShortestRoute] *)

(** Settles a branch in which a [catch] block has received an error: the
    block only ever rethrows. *)
Ltac caught rejects :=
  match goal with
  | |- context [?h (ErrorObj ?m)] =>
      let e := fresh "e" in let He := fresh "He" in
      destruct (rejects (ErrorObj m)) as [e He]; rewrite He
  | |- context [?h ?x] =>
      let e := fresh "e" in let He := fresh "He" in
      destruct (rejects x) as [e He]; rewrite He
  end.

(** What a resolved call of [findShortestRoute] has gone through. *)
Lemma findShortestRoute_resolved w origin destination stops log r :
  findShortestRoute w origin destination stops = (log, Resolved r) ->
  exists data chosen rest ls pts b,
    apiKeyMissing w = false
    /\ log = [Fetch (directionsRequest w origin destination stops)]
    /\ fetchDirections w (directionsRequest w origin destination stops)
       = Resolved data
    /\ d_status data = "OK"
    /\ routes data = Some (chosen :: rest)
    /\ legs chosen = Some ls
    /\ polylinePoints chosen = Some pts
    /\ route_bounds chosen = Some b
    /\ r = {| path := map (fun p => {| lat := fst p; lng := snd p |})
                          (decode w pts);
              distanceMeters := fst (sumLegs ls);
              durationSeconds := snd (sumLegs ls);
              bounds := Some b;
              waypointsOrder := waypoint_order chosen |}.
Proof.
  unfold findShortestRoute, checkApiKey.
  destruct (apiKeyMissing w) eqn:Hkey; run; [discriminate|].
  destruct (fetchDirections w _) as [data|e] eqn:Hfetch; run.
  - destruct (d_status data =? "OK") eqn:Hst; run.
    + apply String.eqb_eq in Hst.
      destruct (routes data) as [[|chosen rest]|] eqn:Hroutes; run;
        try (caught directionsCatch_rejects; discriminate).
      unfold buildRoute.
      destruct (legs chosen) as [ls|] eqn:Hlegs;
        [destruct (polylinePoints chosen) as [pts|] eqn:Hpts;
         [destruct (route_bounds chosen) as [b|] eqn:Hb|]|]; run;
        try (caught directionsCatch_rejects; discriminate).
      intros H. injection H as <- <-.
      exists data, chosen, rest, ls, pts, b. destruct b. repeat split; auto.
    + caught directionsCatch_rejects. discriminate.
  - caught directionsCatch_rejects. discriminate.
Qed.

(** ** Doubles that hold integers *)

Section Doubles.

Local Open Scope Z_scope.

Lemma ulp_pos z : 0 < JS.ulp z.
Proof. unfold JS.ulp. apply Z.pow_pos_nonneg; lia. Qed.

Lemma ulp_small z : Z.abs z < 2 ^ 53 -> JS.ulp z = 1.
Proof.
  intros H. unfold JS.ulp.
  replace (Z.max 0 (Z.log2 (Z.abs z) - 52)) with 0; [reflexivity|].
  destruct (Z.eq_dec (Z.abs z) 0) as [E|E].
  - rewrite E. reflexivity.
  - assert (Z.log2 (Z.abs z) < 53) by (apply Z.log2_lt_pow2; lia). lia.
Qed.

(** Below 2^53 every integer is a double. *)
Lemma number_small z : Z.abs z < 2 ^ 53 -> JS.number z = z.
Proof.
  intros H. unfold JS.number. rewrite (ulp_small z H).
  rewrite Z.div_1_r, Z.mod_1_r. cbn [Z.mul Z.ltb Z.compare].
  rewrite Z.mul_1_r. destruct z; reflexivity.
Qed.

Lemma number_0 : JS.number 0 = 0.
Proof. reflexivity. Qed.

(** Rounding does not go below the double just below. *)
Lemma number_floor z : 0 < z -> z / JS.ulp z * JS.ulp z <= JS.number z.
Proof.
  intros H. unfold JS.number. rewrite (Z.abs_eq z), (Z.sgn_pos z) by lia.
  pose proof (ulp_pos z) as Hu. rewrite Z.mul_1_l.
  apply Z.mul_le_mono_nonneg_r; [lia|].
  repeat case_if; lia.
Qed.

(** The binade of an integer from 2^53 on. *)
Lemma ulp_large z :
  0 < z -> 0 < Z.log2 z - 52 ->
  JS.ulp z = 2 ^ (Z.log2 z - 52)
  /\ 2 ^ 52 * JS.ulp z <= z < 2 ^ 53 * JS.ulp z.
Proof.
  intros Hz He. unfold JS.ulp. rewrite (Z.abs_eq z) by lia.
  rewrite Z.max_r by lia. split; [reflexivity|].
  rewrite <- !Z.pow_add_r by lia.
  replace (52 + (Z.log2 z - 52)) with (Z.log2 z) by lia.
  replace (53 + (Z.log2 z - 52)) with (Z.succ (Z.log2 z)) by lia.
  apply Z.log2_spec. exact Hz.
Qed.

Lemma number_isDouble z : isDouble (JS.number z).
Proof.
  unfold isDouble, JS.number.
  set (a := Z.abs z). set (u := JS.ulp z).
  pose proof (ulp_pos z) as Hu. fold u in Hu.
  assert (Ha : 0 <= a) by (unfold a; lia).
  assert (Hq : 0 <= a / u) by (apply Z.div_pos; lia).
  assert (Hlt : a / u < 2 ^ 53).
  { apply Z.div_lt_upper_bound; [lia|].
    destruct (Z_lt_le_dec (Z.abs z) (2 ^ 53)) as [S|L].
    - unfold u. rewrite (ulp_small z S). fold a in S. lia.
    - assert (P : 0 < a) by (unfold a; pose proof (Z.pow_pos_nonneg 2 53); lia).
      assert (0 < Z.log2 a - 52).
      { assert (53 <= Z.log2 a) by (apply Z.log2_le_pow2; unfold a; lia). lia. }
      destruct (ulp_large a P H) as [_ [_ B]].
      assert (Eu : JS.ulp a = u)
        by (unfold u, JS.ulp; fold a; now rewrite (Z.abs_eq a)).
      rewrite Eu in B. lia. }
  set (q' := if 2 * (a mod u) <? u then a / u
             else if u <? 2 * (a mod u) then a / u + 1
             else if Z.even (a / u) then a / u else a / u + 1).
  assert (Hq' : 0 <= q' <= 2 ^ 53) by (unfold q'; repeat case_if; lia).
  exists q', (Z.max 0 (Z.log2 a - 52)). split; [exact Hq'|]. split; [lia|].
  rewrite Z.abs_mul, (Z.abs_eq (q' * u)) by (apply Z.mul_nonneg_nonneg; lia).
  assert (Eu : u = 2 ^ Z.max 0 (Z.log2 a - 52)) by reflexivity.
  rewrite <- Eu.
  destruct z as [|p|p]; cbn [Z.sgn Z.abs]; [|ring|ring].
  assert (q' = 0) as -> by reflexivity. ring.
Qed.

Lemma isDouble_0 : isDouble 0.
Proof. exists 0, 0. cbn. lia. Qed.

(** A double that is not above [x] is not above the double just below
    [x]. *)
Lemma isDouble_floor a x :
  isDouble a -> 0 <= a -> a <= x -> 0 < x ->
  a <= x / JS.ulp x * JS.ulp x.
Proof.
  intros (q & e & [Hq0 Hq] & He & Ha) Ha0 Hax Hx.
  rewrite Z.abs_eq in Ha by exact Ha0.
  pose proof (ulp_pos x) as Hu.
  destruct (Z_lt_le_dec (Z.abs x) (2 ^ 53)) as [S|L].
  - rewrite (ulp_small x S), Z.div_1_r. lia.
  - rewrite Z.abs_eq in L by lia.
    assert (E : 0 < Z.log2 x - 52).
    { assert (53 <= Z.log2 x) by (apply Z.log2_le_pow2; lia). lia. }
    destruct (ulp_large x Hx E) as [Eu [Blo Bhi]].
    set (ex := Z.log2 x - 52) in *.
    destruct (Z_lt_le_dec e ex) as [Lt|Ge].
    + (* [a] lies below the binade of [x] *)
      assert (a <= 2 ^ 52 * JS.ulp x).
      { rewrite Ha, Eu.
        replace ex with (Z.succ e + (ex - Z.succ e)) by lia.
        rewrite Z.pow_add_r, Z.pow_succ_r by lia.
        assert (P : 0 < 2 ^ e) by (apply Z.pow_pos_nonneg; lia).
        assert (P' : 1 <= 2 ^ (ex - Z.succ e))
          by (pose proof (Z.pow_pos_nonneg 2 (ex - Z.succ e)); lia).
        change (2 ^ 53) with (2 * 2 ^ 52) in Hq. nia. }
      assert (2 ^ 52 <= x / JS.ulp x)
        by (apply Z.div_le_lower_bound; lia).
      nia.
    + (* [a] is a multiple of the spacing around [x] *)
      assert (Hm : a = (q * 2 ^ (e - ex)) * JS.ulp x).
      { rewrite Ha, Eu, <- Z.mul_assoc, <- Z.pow_add_r by lia.
        f_equal. f_equal. lia. }
      rewrite Hm. apply Z.mul_le_mono_nonneg_r; [lia|].
      apply Z.div_le_lower_bound; lia.
Qed.

(** Rounding stays above every double below. *)
Lemma number_above a x :
  isDouble a -> 0 <= a -> a <= x -> a <= JS.number x.
Proof.
  intros Da Ha Hax.
  destruct (Z.eq_dec x 0) as [->|Hx]; [rewrite number_0; exact Hax|].
  pose proof (isDouble_floor a x Da Ha Hax ltac:(lia)).
  pose proof (number_floor x ltac:(lia)). lia.
Qed.

Lemma Zsum_nonneg (l : list Z) : Forall (fun z => 0 <= z) l -> 0 <= Zsum l.
Proof.
  induction 1 as [|z l Hz _ IH]; cbn [Zsum fold_right]; [lia|].
  fold (Zsum l). lia.
Qed.

(** Below 2^53 the running total of non-negative values is their sum. *)
Lemma plus_exact (l : list Z) (d : Z) :
  0 <= d -> Forall (fun z => 0 <= z) l -> d + Zsum l < 2 ^ 53 ->
  fold_left JS.plus l d = d + Zsum l.
Proof.
  revert d. induction l as [|z l IH]; intros d Hd Hl Hs;
    cbn [fold_left Zsum fold_right] in *; [lia|].
  inversion Hl as [|? ? Hz Hl']; subst. fold (Zsum l) in *.
  pose proof (Zsum_nonneg l Hl') as N.
  unfold JS.plus at 2. rewrite number_small by (rewrite Z.abs_eq; lia).
  rewrite IH; [lia|lia|exact Hl'|lia].
Qed.

(** The running total of non-negative doubles is not below where it
    started, nor below any of them. *)
Lemma plus_bounds (l : list Z) (d : Z) :
  isDouble d -> 0 <= d ->
  Forall (fun z => 0 <= z /\ isDouble z) l ->
  d <= fold_left JS.plus l d
  /\ Forall (fun z => z <= fold_left JS.plus l d) l.
Proof.
  revert d. induction l as [|z l IH]; intros d Dd Hd Hl; cbn [fold_left].
  - split; [lia|constructor].
  - inversion Hl as [|? ? [Hz Dz] Hl']; subst.
    assert (A : d <= JS.plus d z)
      by (apply number_above; [exact Dd|exact Hd|lia]).
    assert (B : z <= JS.plus d z)
      by (apply number_above; [exact Dz|exact Hz|lia]).
    destruct (IH (JS.plus d z) (number_isDouble _) ltac:(lia) Hl') as [C D].
    split; [lia|]. constructor; [lia|exact D].
Qed.

End Doubles.

Lemma legDistance_isDouble (leg : Leg) : isDouble (legDistance leg).
Proof.
  unfold legDistance. destruct (distance leg) as [[[v|]]|]; cbn;
    try apply isDouble_0. apply number_isDouble.
Qed.

Lemma legDuration_isDouble (leg : Leg) : isDouble (legDuration leg).
Proof.
  unfold legDuration. destruct (duration leg) as [[[v|]]|]; cbn;
    try apply isDouble_0. apply number_isDouble.
Qed.

Lemma sumLegs_from (ls : list Leg) (d t : Z) :
  fold_left
    (fun totals leg =>
       (JS.plus (fst totals) (legDistance leg),
        JS.plus (snd totals) (legDuration leg)))
    ls (d, t)
  = (fold_left JS.plus (map legDistance ls) d,
     fold_left JS.plus (map legDuration ls) t).
Proof.
  revert d t. induction ls as [|leg ls IH]; intros d t;
    cbn [fold_left map fst snd]; [reflexivity|]. now rewrite IH.
Qed.

(** The totals are the running totals of the legs' values. *)
Lemma sumLegs_spec (ls : list Leg) :
  sumLegs ls = (runningTotal (map legDistance ls),
                runningTotal (map legDuration ls)).
Proof. unfold sumLegs, runningTotal. now rewrite sumLegs_from. Qed.

(** C1 as stated fails where doubles stop holding every integer: for legs
    of 2^53 m, 1 m and 1 m the route's [distanceMeters] is 2^53, two
    short of the sum of the legs' values. *)
Lemma route_totals_counterexample :
  exists log r ls,
    findShortestRoute (Sample.routing Sample.farRoute) Sample.sanFrancisco
      Sample.losAngeles None = (log, Resolved r)
    /\ legs Sample.farRoute = Some ls
    /\ map legDistance ls = [2 ^ 53; 1; 1]%Z
    /\ distanceMeters r = (2 ^ 53)%Z
    /\ distanceMeters r <> Zsum (map legDistance ls).
Proof.
  eexists. eexists. eexists.
  split; [vm_compute; reflexivity|].
  split; [reflexivity|].
  split; [vm_compute; reflexivity|].
  split; [vm_compute; reflexivity|].
  apply Z.eqb_neq. vm_compute. reflexivity.
Qed.

(** C1, as the code has it: whenever [findShortestRoute] resolves, the
    route's [distanceMeters] and [durationSeconds] are the running totals,
    in doubles and in the order of the legs, of the distance and duration
    values of all legs of the first route of the provider's response (a
    leg without a value counting for 0); whenever these values are not
    negative and their sum is below 2^53, the total is exactly their
    sum. *)
Theorem route_totals_are_leg_sums w origin destination stops log r :
  findShortestRoute w origin destination stops = (log, Resolved r) ->
  exists data chosen rest ls,
    fetchDirections w (directionsRequest w origin destination stops)
    = Resolved data
    /\ routes data = Some (chosen :: rest)
    /\ legs chosen = Some ls
    /\ distanceMeters r = runningTotal (map legDistance ls)
    /\ durationSeconds r = runningTotal (map legDuration ls)
    /\ (Forall (fun leg => 0 <= legDistance leg)%Z ls ->
        (Zsum (map legDistance ls) < 2 ^ 53)%Z ->
        distanceMeters r = Zsum (map legDistance ls))
    /\ (Forall (fun leg => 0 <= legDuration leg)%Z ls ->
        (Zsum (map legDuration ls) < 2 ^ 53)%Z ->
        durationSeconds r = Zsum (map legDuration ls)).
Proof.
  intros H.
  destruct (findShortestRoute_resolved _ _ _ _ _ _ H)
    as (data & chosen & rest & ls & pts & b & _ & _ & Hf & _ & Hr & Hl & _ & _ & ->).
  exists data, chosen, rest, ls. cbn [distanceMeters durationSeconds].
  rewrite sumLegs_spec. cbn [fst snd]. repeat split; auto.
  - intros Hpos Hsum. unfold runningTotal.
    rewrite plus_exact; [reflexivity|reflexivity| |exact Hsum].
    now apply Forall_map.
  - intros Hpos Hsum. unfold runningTotal.
    rewrite plus_exact; [reflexivity|reflexivity| |exact Hsum].
    now apply Forall_map.
Qed.

Lemma route_totals_are_leg_sums_witness :
  exists data chosen rest ls,
    fetchDirections Sample.configured
      (directionsRequest Sample.configured Sample.sanFrancisco
         Sample.losAngeles (Some ["place_id:A"; "place_id:B"]))
    = Resolved data
    /\ routes data = Some (chosen :: rest)
    /\ legs chosen = Some ls
    /\ 635000%Z = runningTotal (map legDistance ls)
    /\ 23400%Z = runningTotal (map legDuration ls)
    /\ (Forall (fun leg => 0 <= legDistance leg)%Z ls ->
        (Zsum (map legDistance ls) < 2 ^ 53)%Z ->
        635000%Z = Zsum (map legDistance ls))
    /\ (Forall (fun leg => 0 <= legDuration leg)%Z ls ->
        (Zsum (map legDuration ls) < 2 ^ 53)%Z ->
        23400%Z = Zsum (map legDuration ls)).
Proof.
  apply (route_totals_are_leg_sums Sample.configured Sample.sanFrancisco
           Sample.losAngeles (Some ["place_id:A"; "place_id:B"])
           [Fetch (directionsRequest Sample.configured Sample.sanFrancisco
                     Sample.losAngeles (Some ["place_id:A"; "place_id:B"]))]
           {| path := [Sample.sanFrancisco; Sample.losAngeles];
              distanceMeters := 635000;
              durationSeconds := 23400;
              bounds := Some Sample.coastBounds;
              waypointsOrder := Some [1; 0]%nat |}).
  vm_compute. reflexivity.
Defined.

(** C6: the code does not keep to the claim, nor to its own description
    of [waypointsOrder] (present only if waypoints were provided, indices
    of the input waypoints). Without any stop the route carries an order
    as soon as the provider sends one (the Directions API sends an empty
    [waypoint_order] then); and with two stops of which only one is a
    usable place reference the provider's order [[0]] is returned, which
    is no permutation of [[0; 1]]. *)
Lemma stop_order_counterexample :
  (exists log r,
      findShortestRoute (Sample.routing (Sample.withOrder (Some [])))
        Sample.sanFrancisco Sample.losAngeles (Some []) = (log, Resolved r)
      /\ waypointsOrder r <> None)
  /\ (exists log r order,
         findShortestRoute (Sample.routing (Sample.withOrder (Some [0%nat])))
           Sample.sanFrancisco Sample.losAngeles
           (Some ["place_id:A"; "B"]) = (log, Resolved r)
         /\ waypointsOrder r = Some order
         /\ ~ Permutation order (seq 0 (List.length ["place_id:A"; "B"]))).
Proof.
  split.
  - eexists. eexists. split; [reflexivity|]. discriminate.
  - eexists. eexists. eexists. split; [reflexivity|]. split; [reflexivity|].
    intros P. apply Permutation_length in P. discriminate P.
Qed.

(** Where the order comes from: whenever [findShortestRoute] resolves,
    the route's [waypointsOrder] is the [waypoint_order] field of the
    first route of the provider's response, whatever stops were passed. *)
Lemma stop_order_is_providers w origin destination stops log r :
  findShortestRoute w origin destination stops = (log, Resolved r) ->
  exists data chosen rest,
    fetchDirections w (directionsRequest w origin destination stops)
    = Resolved data
    /\ routes data = Some (chosen :: rest)
    /\ waypointsOrder r = waypoint_order chosen
    /\ (forall n order,
           waypoint_order chosen = Some order ->
           Permutation order (seq 0 n) ->
           exists order',
             waypointsOrder r = Some order' /\ Permutation order' (seq 0 n))
    /\ (waypoint_order chosen = None -> waypointsOrder r = None).
Proof.
  intros H.
  destruct (findShortestRoute_resolved _ _ _ _ _ _ H)
    as (data & chosen & rest & ls & pts & b & _ & _ & Hf & _ & Hr & _ & _ & _ & ->).
  exists data, chosen, rest. cbn [waypointsOrder].
  repeat split; auto.
  intros n order Ho P. exists order. auto.
Qed.

Lemma stop_order_is_providers_witness :
  exists data chosen rest,
    fetchDirections Sample.configured
      (directionsRequest Sample.configured Sample.sanFrancisco
         Sample.losAngeles (Some ["place_id:A"; "place_id:B"]))
    = Resolved data
    /\ routes data = Some (chosen :: rest)
    /\ Some [1; 0]%nat = waypoint_order chosen
    /\ (forall n order,
           waypoint_order chosen = Some order ->
           Permutation order (seq 0 n) ->
           exists order',
             Some [1; 0]%nat = Some order' /\ Permutation order' (seq 0 n))
    /\ (waypoint_order chosen = None -> Some [1; 0]%nat = None).
Proof.
  apply (stop_order_is_providers Sample.configured Sample.sanFrancisco
           Sample.losAngeles (Some ["place_id:A"; "place_id:B"])
           [Fetch (directionsRequest Sample.configured Sample.sanFrancisco
                     Sample.losAngeles (Some ["place_id:A"; "place_id:B"]))]
           {| path := [Sample.sanFrancisco; Sample.losAngeles];
              distanceMeters := 635000;
              durationSeconds := 23400;
              bounds := Some Sample.coastBounds;
              waypointsOrder := Some [1; 0]%nat |}).
  reflexivity.
Defined.

(** C7: if the first route of the provider's response lacks its legs, its
    overview polyline points or its bounds, [findShortestRoute] is
    rejected, whatever else holds; with a key configured and status [OK]
    the error is the missing-fields error, as rethrown by the [catch]
    block, and the only call issued is the directions request. No route is
    returned. *)
Theorem missing_fields_are_fatal w origin destination stops data chosen rest :
  fetchDirections w (directionsRequest w origin destination stops)
  = Resolved data ->
  routes data = Some (chosen :: rest) ->
  missingRequiredFields chosen = true ->
  isRejected (outcome (findShortestRoute w origin destination stops)) = true
  /\ (apiKeyMissing w = false ->
      d_status data = "OK" ->
      findShortestRoute w origin destination stops
      = ([Fetch (directionsRequest w origin destination stops)],
         Rejected (ErrorObj ("Failed to fetch directions: "
                             ++ MISSING_FIELDS_MSG)))).
Proof.
  intros Hf Hr Hm. split.
  - destruct (findShortestRoute w origin destination stops) as [log [r|e]] eqn:H;
      [|reflexivity].
    destruct (findShortestRoute_resolved _ _ _ _ _ _ H)
      as (data' & chosen' & rest' & ls & pts & b & _ & _ & Hf' & _ & Hr' & Hl & Hp & Hb & _).
    rewrite Hf in Hf'. injection Hf' as <-.
    rewrite Hr in Hr'. injection Hr' as <- <-.
    unfold missingRequiredFields in Hm. rewrite Hl, Hp, Hb in Hm.
    discriminate Hm.
  - intros Hkey Hst.
    unfold findShortestRoute, checkApiKey. rewrite Hkey. run.
    rewrite Hf. run. rewrite Hst. cbn [String.eqb Ascii.eqb Bool.eqb negb].
    rewrite Hr. unfold buildRoute, missingRequiredFields in *.
    destruct (legs chosen); [destruct (polylinePoints chosen);
      [destruct (route_bounds chosen); [discriminate Hm|]|]|]; reflexivity.
Qed.

Lemma missing_fields_are_fatal_witness :
  isRejected
    (outcome (findShortestRoute (Sample.routing Sample.unboundedRoute)
                Sample.sanFrancisco Sample.losAngeles None)) = true
  /\ (apiKeyMissing (Sample.routing Sample.unboundedRoute) = false ->
      d_status (Sample.directionsOf Sample.unboundedRoute) = "OK" ->
      findShortestRoute (Sample.routing Sample.unboundedRoute)
        Sample.sanFrancisco Sample.losAngeles None
      = ([Fetch (directionsRequest (Sample.routing Sample.unboundedRoute)
                   Sample.sanFrancisco Sample.losAngeles None)],
         Rejected (ErrorObj ("Failed to fetch directions: "
                             ++ MISSING_FIELDS_MSG)))).
Proof.
  apply (missing_fields_are_fatal (Sample.routing Sample.unboundedRoute)
           Sample.sanFrancisco Sample.losAngeles None
           (Sample.directionsOf Sample.unboundedRoute)
           Sample.unboundedRoute []); reflexivity.
Defined.

(** ** [findAttractionsNearCoordinate] *)

Lemma subseq_refl {A} (l : list A) : subseq l l.
Proof. induction l; [apply subseq_nil | now apply subseq_keep]. Qed.

Lemma subseq_nil_l {A} (l : list A) : subseq [] l.
Proof. induction l; constructor; auto. Qed.

Lemma subseq_trans {A} (l1 l2 l3 : list A) :
  subseq l1 l2 -> subseq l2 l3 -> subseq l1 l3.
Proof.
  intros H12 H23. revert l1 H12.
  induction H23 as [|x l2 l3 _ IH|x l2 l3 _ IH]; intros l1 H12.
  - exact H12.
  - apply subseq_skip. auto.
  - inversion H12; subst; [apply subseq_skip | apply subseq_keep]; auto.
Qed.

Lemma subseq_filter {A} (f : A -> bool) (l : list A) : subseq (filter f l) l.
Proof.
  induction l as [|x l IH]; cbn; [constructor|].
  destruct (f x); [apply subseq_keep | apply subseq_skip]; auto.
Qed.

Lemma subseq_firstn {A} (n : nat) (l : list A) : subseq (firstn n l) l.
Proof.
  revert n. induction l as [|x l IH]; intros [|n]; cbn;
    auto using subseq_nil, subseq_nil_l, subseq_keep.
Qed.

Lemma subseq_In {A} (l1 l2 : list A) (x : A) :
  subseq l1 l2 -> In x l1 -> In x l2.
Proof.
  induction 1; cbn; intuition.
Qed.

Lemma keptPlaces_subseq (results : list Place) :
  subseq (keptPlaces results) results.
Proof.
  unfold keptPlaces, JS.slice0.
  eapply subseq_trans; [apply subseq_firstn | apply subseq_filter].
Qed.

Lemma keepPlace_true (p : Place) :
  keepPlace p = true ->
  exists r,
    place_rating p = Some r
    /\ PrimFloat.leb 3.5%float r = true
    /\ business_status p = Some "OPERATIONAL".
Proof.
  unfold keepPlace, wellRated, operational.
  destruct (place_rating p) as [r|]; [|discriminate].
  destruct (business_status p) as [st|]; [|now rewrite andb_false_r].
  intros H. apply andb_prop in H as [H1 H2].
  apply andb_prop in H1 as [_ H1]. apply String.eqb_eq in H2. subst st.
  eauto.
Qed.

Lemma keptPlaces_kept (results : list Place) :
  Forall (fun p => keepPlace p = true) (keptPlaces results).
Proof.
  apply Forall_forall. intros p Hin. unfold keptPlaces, JS.slice0 in Hin.
  apply (subseq_In _ _ _ (subseq_firstn _ _)) in Hin.
  now apply filter_In in Hin.
Qed.

Lemma keptPlaces_length (results : list Place) :
  (List.length (keptPlaces results) <= 15)%nat.
Proof. apply firstn_le_length. Qed.

(** What a resolved call of [findAttractionsNearCoordinate] has gone
    through. *)
Lemma findAttractionsNearCoordinate_resolved w center radius log l :
  findAttractionsNearCoordinate w center radius = (log, Resolved l) ->
  exists data,
    apiKeyMissing w = false
    /\ log = [Fetch (nearbySearchRequest w center radius)]
    /\ fetchPlaces w (nearbySearchRequest w center radius) = Resolved data
    /\ l = if p_status data =? "ZERO_RESULTS" then []
           else match p_results data with
                | Some results => map placeToAttraction (keptPlaces results)
                | None => []
                end.
Proof.
  unfold findAttractionsNearCoordinate, checkApiKey.
  destruct (apiKeyMissing w) eqn:Hkey; run; [discriminate|].
  destruct (fetchPlaces w _) as [data|e] eqn:Hfetch; run.
  - destruct (negb (p_status data =? "OK") && negb (p_status data =? "ZERO_RESULTS"));
      run; [caught placesCatch_rejects; discriminate|].
    destruct (p_status data =? "ZERO_RESULTS") eqn:Hz; run.
    + intros H. injection H as <- <-. exists data. rewrite Hz. auto.
    + destruct (p_results data) eqn:Hres; run; intros H; injection H as <- <-;
        exists data; rewrite Hz, Hres; auto.
  - caught placesCatch_rejects. discriminate.
Qed.

(** C3: whenever [findAttractionsNearCoordinate] resolves, the returned
    attractions are the images of places [kept] that form a subsequence of
    the provider's results (so the provider's order is preserved), each
    kept place is rated at least 3.5 and is operational, the list has at
    most 15 entries, and every returned attraction carries a rating of at
    least 3.5. *)
Theorem nearby_attractions_filtered w center radius log l :
  findAttractionsNearCoordinate w center radius = (log, Resolved l) ->
  exists data kept,
    fetchPlaces w (nearbySearchRequest w center radius) = Resolved data
    /\ l = map placeToAttraction kept
    /\ subseq kept (match p_results data with Some rs => rs | None => [] end)
    /\ Forall (fun p => exists r,
                   place_rating p = Some r
                   /\ PrimFloat.leb 3.5%float r = true
                   /\ business_status p = Some "OPERATIONAL") kept
    /\ (List.length l <= 15)%nat
    /\ Forall (fun a => exists r,
                   rating a = Some r /\ PrimFloat.leb 3.5%float r = true) l.
Proof.
  intros H.
  destruct (findAttractionsNearCoordinate_resolved _ _ _ _ _ H)
    as (data & _ & _ & Hf & ->).
  exists data.
  assert (Hnone : exists kept : list Place,
             fetchPlaces w (nearbySearchRequest w center radius) = Resolved data
             /\ @nil Attraction = map placeToAttraction kept
             /\ subseq kept (match p_results data with Some rs => rs | None => [] end)
             /\ Forall (fun p => exists r,
                            place_rating p = Some r
                            /\ PrimFloat.leb 3.5%float r = true
                            /\ business_status p = Some "OPERATIONAL") kept
             /\ (List.length (@nil Attraction) <= 15)%nat
             /\ Forall (fun a => exists r,
                            rating a = Some r
                            /\ PrimFloat.leb 3.5%float r = true) []).
  { exists []. repeat split; auto using subseq_nil_l. cbn; lia. }
  destruct (p_status data =? "ZERO_RESULTS"); [exact Hnone|].
  destruct (p_results data) as [results|]; [|exact Hnone].
  exists (keptPlaces results).
  assert (Hk : Forall (fun p => exists r,
                          place_rating p = Some r
                          /\ PrimFloat.leb 3.5%float r = true
                          /\ business_status p = Some "OPERATIONAL")
                      (keptPlaces results)).
  { eapply Forall_impl; [|apply keptPlaces_kept]. apply keepPlace_true. }
  repeat split; auto using keptPlaces_subseq.
  - rewrite length_map. apply keptPlaces_length.
  - apply Forall_map. eapply Forall_impl; [|exact Hk].
    intros p (r & Hr & Hle & _). exists r. auto.
Qed.

Lemma nearby_attractions_filtered_witness :
  exists data kept,
    fetchPlaces Sample.configured
      (nearbySearchRequest Sample.configured Sample.sanFrancisco 15000%float)
    = Resolved data
    /\ map placeToAttraction
         [ Sample.place "Pier" "A" 4.5%float "OPERATIONAL";
           Sample.place "Tar Pits" "C" 3.5%float "OPERATIONAL";
           Sample.place "Museum" "E" 4.7%float "OPERATIONAL" ]
       = map placeToAttraction kept
    /\ subseq kept (match p_results data with Some rs => rs | None => [] end)
    /\ Forall (fun p => exists r,
                   place_rating p = Some r
                   /\ PrimFloat.leb 3.5%float r = true
                   /\ business_status p = Some "OPERATIONAL") kept
    /\ (List.length
          (map placeToAttraction
             [ Sample.place "Pier" "A" 4.5%float "OPERATIONAL";
               Sample.place "Tar Pits" "C" 3.5%float "OPERATIONAL";
               Sample.place "Museum" "E" 4.7%float "OPERATIONAL" ]) <= 15)%nat
    /\ Forall (fun a => exists r,
                   rating a = Some r /\ PrimFloat.leb 3.5%float r = true)
         (map placeToAttraction
            [ Sample.place "Pier" "A" 4.5%float "OPERATIONAL";
              Sample.place "Tar Pits" "C" 3.5%float "OPERATIONAL";
              Sample.place "Museum" "E" 4.7%float "OPERATIONAL" ]).
Proof.
  apply (nearby_attractions_filtered Sample.configured Sample.sanFrancisco
           15000%float
           [Fetch (nearbySearchRequest Sample.configured Sample.sanFrancisco
                     15000%float)]).
  reflexivity.
Defined.

(** ** [findAttractionsNearRoute]: the failure policy *)

Lemma nearRouteCatch_config : nearRouteCatch CONFIG_ERROR = throw CONFIG_ERROR.
Proof.
  unfold nearRouteCatch, CONFIG_ERROR. now rewrite String.eqb_refl.
Qed.

Lemma nearRouteCatch_other (e : Thrown) :
  e <> CONFIG_ERROR -> nearRouteCatch e = ret [].
Proof.
  destruct e as [m|]; unfold nearRouteCatch, CONFIG_ERROR; [|reflexivity].
  intros H. destruct (m =? SERVER_CONFIG_ERROR_MSG) eqn:E; [|reflexivity].
  apply String.eqb_eq in E. now subst m.
Qed.

Lemma nearRouteCatch_rejects_only_config (e e' : Thrown) log :
  nearRouteCatch e = (log, Rejected e') -> e' = CONFIG_ERROR.
Proof.
  destruct e as [m|]; unfold nearRouteCatch, throw, ret; [|discriminate].
  destruct (m =? SERVER_CONFIG_ERROR_MSG) eqn:E; [|discriminate].
  apply String.eqb_eq in E. subst m. now intros [= _ <-].
Qed.

(** A guarded search settles as the search does, except that a rejection
    other than the configuration error becomes an empty list. *)
Lemma guarded_search (m : Task (list Attraction)) :
  (forall e, outcome m = Rejected e ->
             (e = CONFIG_ERROR ->
              outcome (tryCatch m nearRouteCatch) = Rejected CONFIG_ERROR)
             /\ (e <> CONFIG_ERROR ->
                 tryCatch m nearRouteCatch = (calls m, Resolved [])))
  /\ (forall e', outcome (tryCatch m nearRouteCatch) = Rejected e' ->
                 e' = CONFIG_ERROR).
Proof.
  destruct m as [log [l|e0]]; run; split.
  - discriminate.
  - discriminate.
  - intros e [= <-]. split.
    + intros ->. now rewrite nearRouteCatch_config.
    + intros Hne. rewrite (nearRouteCatch_other _ Hne). run.
      now rewrite app_nil_r.
  - intros e'. destruct (nearRouteCatch e0) as [l' [x|e'']] eqn:Hc; run.
    + discriminate.
    + intros [= <-]. eapply nearRouteCatch_rejects_only_config; eauto.
Qed.

Lemma nth_error_nonEmpty {A} (l : list A) (i : nat) (x : A) :
  nth_error l i = Some x -> nonEmpty l = true.
Proof. destruct l; [destruct i; discriminate | reflexivity]. Qed.

(** [findAttractionsNearRoute] is its search target under the guard. *)
Lemma findAttractionsNearRoute_target w r :
  findAttractionsNearRoute w r =
  match searchTarget w r with
  | Some (c, rad) =>
      tryCatch (findAttractionsNearCoordinate w c rad) nearRouteCatch
  | None =>
      if nonEmpty (path r)
      then tryCatch (checkApiKey w "Places" ;;;
                     throw (ErrorObj "Cannot read properties of undefined (reading 'lat')"))
                    nearRouteCatch
      else ret []
  end.
Proof.
  unfold findAttractionsNearRoute, searchTarget.
  destruct (bounds r) as [b|]; [reflexivity|].
  destruct (nth_error (path r) _) as [mid|] eqn:Hn; [|reflexivity].
  now rewrite (nth_error_nonEmpty _ _ _ Hn).
Qed.

Lemma searchTarget_none w r :
  searchTarget w r = None -> path r = [].
Proof.
  unfold searchTarget. destruct (bounds r); [discriminate|].
  destruct (path r) as [|x l] eqn:Hp; [reflexivity|].
  destruct (nth_error _ _) eqn:Hn; [discriminate|].
  apply nth_error_None in Hn. cbn [List.length] in Hn.
  pose proof (Nat.div_lt (S (List.length l)) 2). lia.
Qed.

(** C4: when the nearby search that [findAttractionsNearRoute] delegates
    to is rejected with the configuration error, so is
    [findAttractionsNearRoute]; when it is rejected with anything else,
    [findAttractionsNearRoute] resolves to the empty list; and no error
    other than the configuration error ever leaves
    [findAttractionsNearRoute]. *)
Theorem attraction_failure_policy w r :
  (forall c rad e,
      searchTarget w r = Some (c, rad) ->
      outcome (findAttractionsNearCoordinate w c rad) = Rejected e ->
      (e = CONFIG_ERROR ->
       outcome (findAttractionsNearRoute w r) = Rejected CONFIG_ERROR)
      /\ (e <> CONFIG_ERROR ->
          findAttractionsNearRoute w r
          = (calls (findAttractionsNearCoordinate w c rad), Resolved [])))
  /\ (forall e',
         outcome (findAttractionsNearRoute w r) = Rejected e' ->
         e' = CONFIG_ERROR).
Proof.
  rewrite findAttractionsNearRoute_target. split.
  - intros c rad e -> He. now apply guarded_search.
  - destruct (searchTarget w r) as [[c rad]|] eqn:Ht.
    + apply guarded_search.
    + rewrite (searchTarget_none _ _ Ht). cbn [nonEmpty]. discriminate.
Qed.

Lemma attraction_failure_policy_witness :
  (ErrorObj "Failed to find attractions: socket hang up" = CONFIG_ERROR ->
   outcome (findAttractionsNearRoute Sample.placesDown Sample.coastTrip)
   = Rejected CONFIG_ERROR)
  /\ (ErrorObj "Failed to find attractions: socket hang up" <> CONFIG_ERROR ->
      findAttractionsNearRoute Sample.placesDown Sample.coastTrip
      = (calls (findAttractionsNearCoordinate Sample.placesDown
                  (boundsCenter Sample.coastBounds) 50000%float),
         Resolved [])).
Proof.
  apply (proj1 (attraction_failure_policy Sample.placesDown Sample.coastTrip)
           (boundsCenter Sample.coastBounds) 50000%float
           (ErrorObj "Failed to find attractions: socket hang up"));
    vm_compute; reflexivity.
Defined.

(** ** The orchestration flow *)

Lemma getCoordinatesFromAddress_calls w address :
  Forall isFetch (calls (getCoordinatesFromAddress w address)).
Proof.
  unfold getCoordinatesFromAddress, checkApiKey.
  destruct (apiKeyMissing w); run; [constructor|].
  destruct (fetchGeocoding w _) as [data|e]; run.
  - destruct (negb (g_status data =? "OK")); run;
      [|destruct (g_results data) as [[|x rest]|]; run];
      try (caught geocodingCatch_rejects); run; repeat constructor.
  - caught geocodingCatch_rejects. run. repeat constructor.
Qed.

Lemma findShortestRoute_calls w origin destination stops :
  Forall isFetch (calls (findShortestRoute w origin destination stops)).
Proof.
  destruct (findShortestRoute w origin destination stops) as [log [r|e]] eqn:H.
  - destruct (findShortestRoute_resolved _ _ _ _ _ _ H)
      as (? & ? & ? & ? & ? & ? & _ & -> & _). repeat constructor.
  - revert H. unfold findShortestRoute, checkApiKey.
    destruct (apiKeyMissing w); run; [intros [= <- _]; constructor|].
    destruct (fetchDirections w _) as [data|e0]; run.
    + destruct (negb (d_status data =? "OK")); run;
        [|destruct (routes data) as [[|x rest]|]; run];
        try (caught directionsCatch_rejects; run; intros [= <- _];
             repeat constructor).
      unfold buildRoute.
      destruct (legs x); [destruct (polylinePoints x);
        [destruct (route_bounds x)|]|]; run;
        try (caught directionsCatch_rejects; run); intros [= <- _];
        repeat constructor.
    + caught directionsCatch_rejects. run. intros [= <- _]. repeat constructor.
Qed.

Lemma findAttractionsNearCoordinate_calls w center radius :
  Forall isFetch (calls (findAttractionsNearCoordinate w center radius)).
Proof.
  destruct (findAttractionsNearCoordinate w center radius) as [log [l|e]] eqn:H.
  - destruct (findAttractionsNearCoordinate_resolved _ _ _ _ _ H)
      as (? & _ & -> & _). repeat constructor.
  - revert H. unfold findAttractionsNearCoordinate, checkApiKey.
    destruct (apiKeyMissing w); run; [intros [= <- _]; constructor|].
    destruct (fetchPlaces w _) as [data|e0]; run.
    + destruct (negb (p_status data =? "OK") && negb (p_status data =? "ZERO_RESULTS"));
        run; [caught placesCatch_rejects; run; intros [= <- _];
              repeat constructor|].
      destruct (p_status data =? "ZERO_RESULTS"); run; [discriminate|].
      destruct (p_results data); run; discriminate.
    + caught placesCatch_rejects. run. intros [= <- _]. repeat constructor.
Qed.

Lemma nearRouteCatch_calls (e : Thrown) : calls (nearRouteCatch e) = [].
Proof.
  destruct e as [m|]; unfold nearRouteCatch; [|reflexivity].
  destruct (m =? SERVER_CONFIG_ERROR_MSG); reflexivity.
Qed.

Lemma tryCatch_nearRoute_calls (m : Task (list Attraction)) :
  calls (tryCatch m nearRouteCatch) = calls m.
Proof.
  destruct m as [log [l|e]]; run; [reflexivity|].
  pose proof (nearRouteCatch_calls e) as H.
  destruct (nearRouteCatch e) as [l' r]. run. subst l'. apply app_nil_r.
Qed.

Lemma findAttractionsNearRoute_calls w r :
  Forall isFetch (calls (findAttractionsNearRoute w r)).
Proof.
  rewrite findAttractionsNearRoute_target.
  destruct (searchTarget w r) as [[c rad]|].
  - rewrite tryCatch_nearRoute_calls.
    apply findAttractionsNearCoordinate_calls.
  - destruct (nonEmpty (path r)); [|constructor].
    rewrite tryCatch_nearRoute_calls. unfold checkApiKey.
    destruct (apiKeyMissing w); run; constructor.
Qed.

(** The forecast the stub resolves to. *)
Lemma getWeatherForecast_resolves (location : Coordinate) :
  exists forecast, getWeatherForecast location = ([], Resolved forecast).
Proof. eexists. reflexivity. Qed.

(** A run of the flow either fails before the reasoning stage, having made
    only provider requests, or reaches it with the results of the earlier
    stages, prompts the engine once, last, and settles by its verdict. *)
Lemma flow_run w input :
  (Forall isFetch (calls (generateTripPlanFlow w input))
   /\ isRejected (outcome (generateTripPlanFlow w input)) = true)
  \/ exists originCoord destinationCoord r forecast nearby pre,
      outcome (getCoordinatesFromAddress w (originAddress input))
      = Resolved originCoord
      /\ outcome (getCoordinatesFromAddress w (destinationAddress input))
         = Resolved destinationCoord
      /\ outcome (findShortestRoute w originCoord destinationCoord
                    (Some (waypointsParam input))) = Resolved r
      /\ outcome (getWeatherForecast originCoord) = Resolved forecast
      /\ outcome (findAttractionsNearRoute w r) = Resolved nearby
      /\ Forall isFetch pre
      /\ generateTripPlanFlow w input
         = ((pre ++ [Prompt (buildPromptInput w input r forecast nearby)])%list,
            reasoningVerdict w input r forecast nearby).
Proof.
  unfold generateTripPlanFlow.
  pose proof (getCoordinatesFromAddress_calls w (originAddress input)) as C1.
  destruct (getCoordinatesFromAddress w (originAddress input))
    as [l1 [oc|e1]] eqn:E1; run;
    [|left; caught flowCatch_rejects; run; rewrite app_nil_r; auto].
  pose proof (getCoordinatesFromAddress_calls w (destinationAddress input)) as C2.
  destruct (getCoordinatesFromAddress w (destinationAddress input))
    as [l2 [dc|e2]] eqn:E2; run;
    [|left; caught flowCatch_rejects; run; rewrite app_nil_r;
      split; [apply Forall_app|]; auto].
  pose proof (findShortestRoute_calls w oc dc (Some (waypointsParam input))) as C3.
  destruct (findShortestRoute w oc dc (Some (waypointsParam input)))
    as [l3 [r|e3]] eqn:E3; run;
    [|left; caught flowCatch_rejects; run; rewrite app_nil_r;
      split; [repeat (apply Forall_app; split)|]; auto].
  destruct (getWeatherForecast_resolves oc) as [forecast Hw].
  rewrite Hw. run.
  pose proof (findAttractionsNearRoute_calls w r) as C4.
  destruct (findAttractionsNearRoute w r) as [l4 [nearby|e4]] eqn:E4; run;
    [|left; caught flowCatch_rejects; run; rewrite app_nil_r;
      split; [repeat (apply Forall_app; split)|]; auto].
  right.
  exists oc, dc, r, forecast, nearby, (l1 ++ l2 ++ l3 ++ l4)%list.
  rewrite E3, E4, Hw. run.
  repeat (split; [auto; repeat (apply Forall_app; split); auto|]).
  unfold reasoningVerdict, callPrompt, assemble. run.
  set (p := buildPromptInput w input r forecast nearby).
  destruct (generateTripPlanPrompt w p) as [output|e5]; run.
  - destruct (incompleteOutput output); run; unfold flowCatch; run;
      rewrite ?app_nil_r, <- ?app_assoc; reflexivity.
  - destruct (flowCatch_rejects e5) as [e' He]. rewrite He. run.
    rewrite ?app_nil_r, <- ?app_assoc. reflexivity.
Qed.

Lemma incompleteOutput_spec (output : option PromptOutput) :
  incompleteRecommendation output -> incompleteOutput output = true.
Proof.
  destruct output as [[t why]|]; cbn; [|reflexivity].
  unfold missingOrEmpty. intros [[->| ->]|[->| ->]]; cbn;
    rewrite ?orb_true_r; reflexivity.
Qed.

Lemma fetches_hold_no_prompt (l : list Event) (p : PromptInput) :
  Forall isFetch l -> ~ In (Prompt p) l.
Proof.
  intros F Hin. rewrite Forall_forall in F. exact (F _ Hin).
Qed.

Lemma only_prompt (pre : list Event) (p q : PromptInput) :
  Forall isFetch pre -> In (Prompt p) (pre ++ [Prompt q]) -> p = q.
Proof.
  intros F Hin. apply in_app_or in Hin as [Hin|[Hin|[]]].
  - now apply fetches_hold_no_prompt in Hin.
  - now injection Hin.
Qed.

(** C8: if the reasoning engine, on the prompt the flow sends it, returns
    an output that is absent or whose suggested departure time or
    reasoning is missing or empty, the flow is rejected with the
    invalid-recommendation error; no trip plan is returned and no
    replacement text is made up. *)
Theorem incomplete_recommendation_is_fatal w input p output :
  In (Prompt p) (calls (generateTripPlanFlow w input)) ->
  generateTripPlanPrompt w p = Resolved output ->
  incompleteRecommendation output ->
  outcome (generateTripPlanFlow w input) = Rejected INVALID_RECOMMENDATION.
Proof.
  intros Hin Hp Hinc.
  destruct (flow_run w input)
    as [[F _]|(oc & dc & r & forecast & nearby & pre & _ & _ & _ & _ & _ & F & E)].
  - now apply fetches_hold_no_prompt in Hin.
  - rewrite E in *. run.
    apply (only_prompt _ _ _ F) in Hin. subst p.
    unfold reasoningVerdict. rewrite Hp.
    now rewrite (incompleteOutput_spec _ Hinc).
Qed.

Lemma incomplete_recommendation_is_fatal_witness :
  outcome (generateTripPlanFlow Sample.vagueAdvisor
             (Sample.tripInput (Some ["A"])))
  = Rejected INVALID_RECOMMENDATION.
Proof.
  eapply (incomplete_recommendation_is_fatal Sample.vagueAdvisor
            (Sample.tripInput (Some ["A"])) _ Sample.emptyTimeAdvice).
  - cbv. do 4 right. left. reflexivity.
  - reflexivity.
  - left. right. reflexivity.
Defined.

Lemma notAStop_true input (att : Attraction) :
  notAStop input att = true ->
  forall stops id,
    waypoints input = Some stops -> placeId att = Some id -> ~ In id stops.
Proof.
  unfold notAStop. intros H stops id Hs Hid Hin. rewrite Hs, Hid in H.
  assert (Hor : JS.orString (Some id) "" = id) by (destruct id; reflexivity).
  rewrite Hor in H. apply negb_true_iff in H.
  assert (JS.includes stops id = true); [|congruence].
  apply existsb_exists. exists id. split; [assumption|apply String.eqb_refl].
Qed.

Lemma promptCandidates_spec input (nearby : list Attraction) :
  subseq (promptCandidates input nearby) nearby
  /\ (List.length (promptCandidates input nearby) <= 5)%nat
  /\ Forall (fun att => forall stops id,
                 waypoints input = Some stops ->
                 placeId att = Some id -> ~ In id stops)
            (promptCandidates input nearby).
Proof.
  unfold promptCandidates, JS.slice0. repeat split.
  - eapply subseq_trans; [apply subseq_firstn | apply subseq_filter].
  - apply firstn_le_length.
  - apply Forall_forall. intros att Hin.
    apply (subseq_In _ _ _ (subseq_firstn _ _)) in Hin.
    apply filter_In in Hin as [_ Hin]. now apply notAStop_true.
Qed.

(** C9: in every run of the flow, a prompt sent to the reasoning engine
    carries the summaries of at most 5 attractions, taken in order from
    the attractions found near the route, none of which has a place
    identifier among the requested stops; and a plan returned by the flow
    carries the route, the forecast and the attraction list of the earlier
    stages unchanged, the attraction list being the full one the prompt's
    candidates were taken from. *)
Theorem condensed_prompt_full_result w input :
  (forall p,
      In (Prompt p) (calls (generateTripPlanFlow w input)) ->
      exists r forecast nearby,
        outcome (findAttractionsNearRoute w r) = Resolved nearby
        /\ p = buildPromptInput w input r forecast nearby
        /\ attractions p
           = map summarizeAttraction (promptCandidates input nearby)
        /\ subseq (promptCandidates input nearby) nearby
        /\ (List.length (attractions p) <= 5)%nat
        /\ Forall (fun att => forall stops id,
                       waypoints input = Some stops ->
                       placeId att = Some id -> ~ In id stops)
                  (promptCandidates input nearby))
  /\ (forall plan,
         outcome (generateTripPlanFlow w input) = Resolved plan ->
         exists originCoord destinationCoord r forecast nearby,
           outcome (getCoordinatesFromAddress w (originAddress input))
           = Resolved originCoord
           /\ outcome (getCoordinatesFromAddress w (destinationAddress input))
              = Resolved destinationCoord
           /\ outcome (findShortestRoute w originCoord destinationCoord
                         (Some (waypointsParam input))) = Resolved r
           /\ outcome (getWeatherForecast originCoord) = Resolved forecast
           /\ outcome (findAttractionsNearRoute w r) = Resolved nearby
           /\ In (Prompt (buildPromptInput w input r forecast nearby))
                 (calls (generateTripPlanFlow w input))
           /\ route plan = r
           /\ weatherForecast plan = forecast
           /\ nearbyAttractions plan = nearby).
Proof.
  destruct (flow_run w input)
    as [[F R]|(oc & dc & r & forecast & nearby & pre & H1 & H2 & H3 & H4 & H5 & F & E)].
  - split.
    + intros p Hin. now apply fetches_hold_no_prompt in Hin.
    + intros plan Hplan. rewrite Hplan in R. discriminate R.
  - rewrite E. run. split.
    + intros p Hin. apply (only_prompt _ _ _ F) in Hin. subst p.
      exists r, forecast, nearby.
      destruct (promptCandidates_spec input nearby) as (S1 & S2 & S3).
      repeat split; auto.
      cbn [attractions buildPromptInput]. now rewrite length_map.
    + intros plan Hplan. exists oc, dc, r, forecast, nearby.
      repeat (split; [assumption|]).
      split; [apply in_or_app; right; left; reflexivity|].
      unfold reasoningVerdict in Hplan.
      destruct (generateTripPlanPrompt w _) as [output|e].
      * destruct (incompleteOutput output); [discriminate|].
        injection Hplan as <-. auto.
      * destruct (flowCatch_rejects e) as [e' He]. rewrite He in Hplan.
        discriminate.
Qed.

Lemma condensed_prompt_full_result_witness :
  exists originCoord destinationCoord r forecast nearby,
    outcome (getCoordinatesFromAddress Sample.configured "San Francisco, CA")
    = Resolved originCoord
    /\ outcome (getCoordinatesFromAddress Sample.configured "Los Angeles, CA")
       = Resolved destinationCoord
    /\ outcome (findShortestRoute Sample.configured originCoord
                  destinationCoord (Some ["place_id:A"])) = Resolved r
    /\ outcome (getWeatherForecast originCoord) = Resolved forecast
    /\ outcome (findAttractionsNearRoute Sample.configured r) = Resolved nearby
    /\ In (Prompt (buildPromptInput Sample.configured
                     (Sample.tripInput (Some ["A"])) r forecast nearby))
          (calls (generateTripPlanFlow Sample.configured
                    (Sample.tripInput (Some ["A"]))))
    /\ Sample.coastTrip = r
    /\ weatherForecast
         {| out_originAddress := "San Francisco, CA";
            out_destinationAddress := "Los Angeles, CA";
            suggestedDepartureTime := "2024-08-03T10:15:00Z";
            route := Sample.coastTrip;
            weatherForecast := forecastOf Sample.sanFrancisco;
            nearbyAttractions :=
              map placeToAttraction
                [ Sample.place "Pier" "A" 4.5%float "OPERATIONAL";
                  Sample.place "Tar Pits" "C" 3.5%float "OPERATIONAL";
                  Sample.place "Museum" "E" 4.7%float "OPERATIONAL" ];
            reasoning := "Leave shortly after ten to miss the morning peak." |}
       = forecast
    /\ map placeToAttraction
         [ Sample.place "Pier" "A" 4.5%float "OPERATIONAL";
           Sample.place "Tar Pits" "C" 3.5%float "OPERATIONAL";
           Sample.place "Museum" "E" 4.7%float "OPERATIONAL" ]
       = nearby.
Proof.
  apply (proj2 (condensed_prompt_full_result Sample.configured
                  (Sample.tripInput (Some ["A"])))
           {| out_originAddress := "San Francisco, CA";
              out_destinationAddress := "Los Angeles, CA";
              suggestedDepartureTime := "2024-08-03T10:15:00Z";
              route := Sample.coastTrip;
              weatherForecast := forecastOf Sample.sanFrancisco;
              nearbyAttractions :=
                map placeToAttraction
                  [ Sample.place "Pier" "A" 4.5%float "OPERATIONAL";
                    Sample.place "Tar Pits" "C" 3.5%float "OPERATIONAL";
                    Sample.place "Museum" "E" 4.7%float "OPERATIONAL" ];
              reasoning := "Leave shortly after ten to miss the morning peak." |}).
  reflexivity.
Defined.

(** ** Facts about binary64 comparison, division and rounding *)

Module FloatFacts.

Local Open Scope Z_scope.

Lemma compare_cont_swap (p q : positive) :
  Pos.compare_cont Eq q p = CompOpp (Pos.compare_cont Eq p q).
Proof. now rewrite Pos.compare_cont_antisym. Qed.

Lemma SFcompare_swap (x y : spec_float) :
  SFcompare y x = option_map CompOpp (SFcompare x y).
Proof.
  destruct x as [sx|sx| |sx mx ex], y as [sy|sy| |sy my ey]; cbn;
    try destruct sx; try destruct sy; try reflexivity;
    rewrite (Z.compare_antisym ex ey); destruct (ex ?= ey); cbn;
    try reflexivity;
    rewrite (compare_cont_swap mx my);
    now rewrite ?CompOpp_involutive.
Qed.

Lemma SFcompare_refl (x : spec_float) :
  x <> S754_nan -> SFcompare x x = Some Eq.
Proof.
  destruct x as [s|s| |s m e]; cbn; intros H; try congruence;
    destruct s; try reflexivity;
    now rewrite Z.compare_refl, Pos.compare_cont_refl.
Qed.

Lemma SFcompare_some (x y : spec_float) :
  x <> S754_nan -> y <> S754_nan -> exists c, SFcompare x y = Some c.
Proof.
  destruct x as [sx|sx| |sx mx ex], y as [sy|sy| |sy my ey]; cbn;
    intros Hx Hy; try congruence; eauto.
Qed.

Lemma is_nan_spec (x : float) :
  PrimFloat.is_nan x = false <-> Prim2SF x <> S754_nan.
Proof.
  unfold PrimFloat.is_nan. rewrite eqb_spec. unfold SFeqb. split.
  - intros H E. rewrite E in H. discriminate H.
  - intros H. now rewrite (SFcompare_refl _ H).
Qed.

(** On numbers, [x < y] failing means [y <= x]. *)
Lemma not_ltb_leb (x y : float) :
  PrimFloat.is_nan x = false -> PrimFloat.is_nan y = false ->
  PrimFloat.ltb x y = false -> PrimFloat.leb y x = true.
Proof.
  rewrite !is_nan_spec, ltb_spec, leb_spec. unfold SFltb, SFleb.
  intros Hx Hy. rewrite (SFcompare_swap (Prim2SF x) (Prim2SF y)).
  destruct (SFcompare_some _ _ Hx Hy) as [c ->].
  destruct c; cbn; congruence.
Qed.

Lemma leb_refl (x : float) :
  PrimFloat.is_nan x = false -> PrimFloat.leb x x = true.
Proof.
  rewrite is_nan_spec, leb_spec. unfold SFleb. intros H.
  now rewrite (SFcompare_refl _ H).
Qed.

(** *** Rounding never invents a NaN *)

Lemma iter_pos_preserves {A} (P : A -> Prop) (f : A -> A) :
  (forall a, P a -> P (f a)) ->
  forall n a, P a -> P (iter_pos f n a).
Proof.
  intros Hf. induction n as [n IH|n IH|]; intros a Ha; cbn; auto.
Qed.

Lemma shr_1_nonneg (mrs : shr_record) :
  0 <= shr_m mrs -> 0 <= shr_m (shr_1 mrs).
Proof.
  destruct mrs as [m r s]. cbn.
  destruct m as [|[p|p|]|[p|p|]]; cbn; lia.
Qed.

Lemma shr_nonneg (mrs : shr_record) (e n : Z) :
  0 <= shr_m mrs -> 0 <= shr_m (fst (shr mrs e n)).
Proof.
  intros H. destruct n as [|p|p]; cbn; auto.
  apply (iter_pos_preserves (fun a => 0 <= shr_m a)); auto using shr_1_nonneg.
Qed.

Lemma shr_record_of_loc_m (m : Z) (l : SpecFloat.location) :
  shr_m (shr_record_of_loc m l) = m.
Proof. destruct l as [|[ | | ]]; reflexivity. Qed.

Lemma shr_fexp_nonneg (m e : Z) (l : SpecFloat.location) :
  0 <= m -> 0 <= shr_m (fst (shr_fexp prec emax m e l)).
Proof.
  intros H. unfold shr_fexp. apply shr_nonneg.
  now rewrite shr_record_of_loc_m.
Qed.

Lemma round_nearest_even_nonneg (m : Z) (l : SpecFloat.location) :
  0 <= m -> 0 <= round_nearest_even m l.
Proof.
  intros H. destruct l as [|[ | | ]]; cbn; try lia.
  destruct (Z.even m); lia.
Qed.

Lemma binary_round_aux_not_nan (s : bool) (m e : Z) (l : SpecFloat.location) :
  0 <= m -> binary_round_aux prec emax s m e l <> S754_nan.
Proof.
  intros H. unfold binary_round_aux.
  pose proof (shr_fexp_nonneg m e l H) as H1.
  destruct (shr_fexp prec emax m e l) as [mrs' e']. cbn [fst] in H1.
  pose proof (shr_fexp_nonneg _ e' loc_Exact
                (round_nearest_even_nonneg _ (loc_of_shr_record mrs') H1)) as H2.
  destruct (shr_fexp prec emax _ e' loc_Exact) as [mrs'' e'']. cbn [fst] in H2.
  destruct (shr_m mrs'') as [|p|p]; try discriminate; [|lia].
  destruct (e'' <=? emax - prec); discriminate.
Qed.

Lemma SFdiv_core_binary_nonneg (m1 : positive) (e1 : Z) (m2 : positive) (e2 : Z) :
  0 <= fst (fst (SFdiv_core_binary prec emax (Zpos m1) e1 (Zpos m2) e2)).
Proof.
  unfold SFdiv_core_binary.
  set (s := _ - _ - _).
  set (m' := match s with Zpos _ => _ | Z0 => _ | Zneg _ => _ end).
  assert (Hm : 0 <= m').
  { subst m'. destruct s; try lia. apply Z.shiftl_nonneg. lia. }
  pose proof (Z.div_pos m' (Zpos m2) Hm ltac:(lia)) as Hq.
  unfold Z.div in Hq. destruct (Z.div_eucl m' (Zpos m2)) as [q r].
  exact Hq.
Qed.

(** Dividing a number by a finite non-zero number gives a number. *)
Lemma SFdiv_finite_not_nan (x : spec_float) (s : bool) (m : positive) (e : Z) :
  x <> S754_nan -> SF64div x (S754_finite s m e) <> S754_nan.
Proof.
  unfold SF64div. destruct x as [sx|sx| |sx mx ex]; cbn [SFdiv];
    intros H; try congruence; try discriminate.
  pose proof (SFdiv_core_binary_nonneg mx ex m e) as Hq.
  destruct (SFdiv_core_binary prec emax (Zpos mx) ex (Zpos m) e) as [[q e'] l].
  now apply binary_round_aux_not_nan.
Qed.

Lemma div_by_finite_not_nan (x y : float) (s : bool) (m : positive) (e : Z) :
  Prim2SF y = S754_finite s m e ->
  PrimFloat.is_nan x = false -> PrimFloat.is_nan (x / y)%float = false.
Proof.
  intros Hy. rewrite !is_nan_spec, div_spec, Hy.
  apply SFdiv_finite_not_nan.
Qed.

(** Multiplying a number by a finite non-zero number gives a number. *)
Lemma SFmul_finite_not_nan (s : bool) (m : positive) (e : Z) (y : spec_float) :
  y <> S754_nan -> SF64mul (S754_finite s m e) y <> S754_nan.
Proof.
  unfold SF64mul. destruct y as [sy|sy| |sy my ey]; cbn [SFmul];
    intros H; try congruence; try discriminate.
  apply binary_round_aux_not_nan. lia.
Qed.

Lemma mul_finite_not_nan (x y : float) (s : bool) (m : positive) (e : Z) :
  Prim2SF x = S754_finite s m e ->
  PrimFloat.is_nan y = false -> PrimFloat.is_nan (x * y)%float = false.
Proof.
  intros Hx. rewrite !is_nan_spec, mul_spec, Hx.
  apply SFmul_finite_not_nan.
Qed.

End FloatFacts.

(** ** [Math.round] between 10000 and 50000 *)

Module RoundFacts.

Import RoundTable.
Local Open Scope Z_scope.

Lemma lo_spec : Prim2SF 10000%float = lo.
Proof. vm_compute. reflexivity. Qed.

Lemma hi_spec : Prim2SF 50000%float = hi.
Proof. vm_compute. reflexivity. Qed.

Lemma allFrom_spec (f : Z -> bool) (n : nat) :
  forall from, allFrom f from n = true ->
  forall r, from <= r < from + Z.of_nat n -> f r = true.
Proof.
  induction n as [|k IH]; intros from H r Hr; [lia|].
  cbn [allFrom] in H. apply andb_prop in H as [H0 H1].
  destruct (Z.eq_dec r from) as [->|Hne]; [assumption|].
  apply (IH (from + 1) H1). lia.
Qed.

(** Checked on each of the 40001 integers of the range. *)
Lemma rounded_table :
  allFrom roundedOk 10000 (Z.to_nat 40001) = true.
Proof. vm_compute. reflexivity. Qed.

Lemma roundedOk_in_range (r : Z) :
  10000 <= r <= 50000 -> roundedOk r = true.
Proof.
  intros H. apply (allFrom_spec _ _ _ rounded_table).
  rewrite Z2Nat.id; lia.
Qed.

Lemma digits2_pos_size (m : positive) : digits2_pos m = Pos.size m.
Proof. induction m; cbn; congruence. Qed.

(** A mantissa of 53 digits lies between [2^52] and [2^53]. *)
Lemma mantissa_53 (m : positive) :
  Zpos (digits2_pos m) = 53 ->
  4503599627370496 <= Zpos m < 9007199254740992.
Proof.
  rewrite digits2_pos_size. intros H.
  pose proof (Pos.size_gt m) as Hgt. pose proof (Pos.size_le m) as Hle.
  assert (Hs : Pos.size m = 53%positive) by lia. rewrite Hs in Hgt, Hle.
  change (2 ^ 53)%positive with 9007199254740992%positive in Hgt, Hle.
  apply Pos2Z.pos_lt_pos in Hgt. apply Pos2Z.pos_le_pos in Hle.
  rewrite Pos2Z.inj_xO in Hle. clear H Hs. lia.
Qed.

(** Comparison of a positive finite double with another double. *)
Lemma finite_leb (m1 : positive) (e1 : Z) (x : spec_float) :
  SFleb (S754_finite false m1 e1) x = true ->
  x = S754_infinity false
  \/ exists m e,
       x = S754_finite false m e
       /\ (e1 < e \/ (e1 = e /\ Zpos m1 <= Zpos m)).
Proof.
  unfold SFleb. destruct x as [s|s| |s m e]; cbn [SFcompare].
  - destruct s; discriminate.
  - destruct s; [discriminate|]. now left.
  - discriminate.
  - destruct s; [discriminate|]. intros H. right. exists m, e.
    split; [reflexivity|].
    destruct (Z.compare_spec e1 e) as [E|E|E]; [|lia|discriminate H].
    right. split; [assumption|].
    destruct (Pos.compare_cont Eq m1 m) eqn:C; [| |discriminate H].
    + apply Pos.compare_eq in C. subst m. apply Z.le_refl.
    + apply Pos2Z.pos_lt_pos in C. now apply Z.lt_le_incl.
Qed.

Lemma leb_finite (m m2 : positive) (e1 e2 : Z) :
  SFleb (S754_finite false m e1) (S754_finite false m2 e2) = true ->
  e1 < e2 \/ (e1 = e2 /\ Zpos m <= Zpos m2).
Proof.
  intros H. destruct (finite_leb _ _ _ H) as [H0|(m' & e' & H0 & H1)];
    [discriminate H0|].
  injection H0 as <- <-. exact H1.
Qed.

(** A canonical mantissa above the subnormal range has 53 digits. *)
Lemma canonical_digits (m : positive) (e : Z) :
  bounded prec emax m e = true -> -1074 < e ->
  Zpos (digits2_pos m) = 53.
Proof.
  unfold bounded, canonical_mantissa, fexp, emin.
  intros H He. apply andb_prop in H as [H _]. apply Z.eqb_eq in H.
  change prec with 53 in H. change emax with 1024 in H.
  change (3 - 1024 - 53) with (-1074) in H.
  pose proof (Z.max_spec (Zpos (digits2_pos m) + e - 53) (-1074)) as M.
  change Z.max with IntDef.Z.max in M. lia.
Qed.

(** The shape of a valid double between 10000 and 50000. *)
Lemma shape_in_range (x : spec_float) :
  valid_binary x = true -> SFleb lo x = true -> SFleb x hi = true ->
  exists m e,
    x = S754_finite false m e
    /\ 4503599627370496 <= Zpos m < 9007199254740992
    /\ ((e = -39 /\ 5497558138880000 <= Zpos m)
        \/ e = -38
        \/ (e = -37 /\ Zpos m <= 6871947673600000)).
Proof.
  intros Hv Hlo Hhi. unfold lo in Hlo.
  destruct (finite_leb _ _ _ Hlo) as [->|(m & e & -> & Hl)];
    [discriminate Hhi|].
  unfold hi in Hhi. apply leb_finite in Hhi.
  exists m, e. split; [reflexivity|].
  assert (He : -39 <= e <= -37) by lia.
  assert (Hd : Zpos (digits2_pos m) = 53)
    by (apply (canonical_digits m e Hv); lia).
  split; [now apply mantissa_53|]. lia.
Qed.

(** [floor(x + 1/2)] of such a double stays in the range. *)
Lemma nearest_integer_in_range (m : positive) (e : Z) :
  4503599627370496 <= Zpos m < 9007199254740992 ->
  (e = -39 /\ 5497558138880000 <= Zpos m)
  \/ e = -38
  \/ (e = -37 /\ Zpos m <= 6871947673600000) ->
  10000 <= (2 * Zpos m + 2 ^ (- e)) / 2 ^ (- e + 1) <= 50000.
Proof.
  intros Hm [[-> H]| [-> | [-> H]]].
  - change (2 ^ (- -39)) with 549755813888.
    change (2 ^ (- -39 + 1)) with 1099511627776.
    split; [apply Z.div_le_lower_bound; lia|].
    apply Z.lt_succ_r. apply Z.div_lt_upper_bound; lia.
  - change (2 ^ (- -38)) with 274877906944.
    change (2 ^ (- -38 + 1)) with 549755813888.
    split; [apply Z.div_le_lower_bound; lia|].
    apply Z.lt_succ_r. apply Z.div_lt_upper_bound; lia.
  - change (2 ^ (- -37)) with 137438953472.
    change (2 ^ (- -37 + 1)) with 274877906944.
    split; [apply Z.div_le_lower_bound; lia|].
    apply Z.lt_succ_r. apply Z.div_lt_upper_bound; lia.
Qed.

Lemma Math_round_in_range (x : float) :
  PrimFloat.leb 10000 x = true -> PrimFloat.leb x 50000 = true ->
  PrimFloat.leb 10000 (JS.Math_round x) = true
  /\ PrimFloat.leb (JS.Math_round x) 50000 = true.
Proof.
  rewrite !leb_spec, lo_spec, hi_spec. intros Hlo Hhi.
  destruct (shape_in_range _ (Prim2SF_valid x) Hlo Hhi)
    as (m & e & Hx & Hm & He).
  unfold JS.Math_round. rewrite Hx. cbn [cond_Zopp].
  assert (Hneg : (0 <=? e) = false) by (apply Z.leb_gt; lia).
  rewrite Hneg.
  pose proof (roundedOk_in_range _ (nearest_integer_in_range m e Hm He)) as Hok.
  unfold roundedOk, ofInteger in Hok.
  apply andb_prop in Hok as [Hok H3]. apply andb_prop in Hok as [H1 H2].
  rewrite (Prim2SF_SF2Prim _ H1). auto.
Qed.

End RoundFacts.

(** ** The search radius of [findAttractionsNearRoute] *)

Lemma Math_max_number (x y : float) :
  PrimFloat.is_nan x = false -> PrimFloat.is_nan y = false ->
  JS.isPZero y = false ->
  JS.Math_max x y = if PrimFloat.ltb x y then y else x.
Proof.
  intros Hx Hy Hz. unfold JS.Math_max. rewrite Hx, Hy, Hz. cbn [orb andb].
  now rewrite orb_false_r.
Qed.

Lemma Math_min_number (x y : float) :
  PrimFloat.is_nan x = false -> PrimFloat.is_nan y = false ->
  JS.isNZero y = false ->
  JS.Math_min x y = if PrimFloat.ltb y x then y else x.
Proof.
  intros Hx Hy Hz. unfold JS.Math_min. rewrite Hx, Hy, Hz. cbn [orb andb].
  now rewrite orb_false_r.
Qed.

Lemma clampRadius_spec (diagonal : float) :
  PrimFloat.is_nan diagonal = false ->
  clampRadius diagonal = clampTo 10000 50000 (diagonal / 1.8)
  /\ PrimFloat.leb 10000 (clampRadius diagonal) = true
  /\ PrimFloat.leb (clampRadius diagonal) 50000 = true.
Proof.
  intros Hd.
  assert (Hx : PrimFloat.is_nan (diagonal / 1.8) = false).
  { assert (H18 : exists m e, Prim2SF 1.8 = S754_finite false m e)
      by (vm_compute; eauto).
    destruct H18 as (m & e & H18).
    exact (FloatFacts.div_by_finite_not_nan _ _ _ _ _ H18 Hd). }
  unfold clampRadius, clampTo.
  rewrite (Math_max_number _ 10000 Hx eq_refl eq_refl).
  destruct (PrimFloat.ltb (diagonal / 1.8) 10000) eqn:Hlow.
  - rewrite (Math_min_number 10000 50000 eq_refl eq_refl eq_refl).
    repeat split; reflexivity.
  - rewrite (Math_min_number _ 50000 Hx eq_refl eq_refl).
    destruct (PrimFloat.ltb 50000 (diagonal / 1.8)) eqn:Hhigh.
    + repeat split; reflexivity.
    + repeat split; [| apply FloatFacts.not_ltb_leb; auto ].
      apply FloatFacts.not_ltb_leb; auto.
Qed.

Lemma findAttractionsNearCoordinate_configured_calls w center radius :
  apiKeyMissing w = false ->
  calls (findAttractionsNearCoordinate w center radius)
  = [Fetch (nearbySearchRequest w center radius)].
Proof.
  intros Hkey.
  destruct (findAttractionsNearCoordinate w center radius) as [log [l|e]] eqn:H.
  - destruct (findAttractionsNearCoordinate_resolved _ _ _ _ _ H)
      as (? & _ & -> & _). reflexivity.
  - revert H. unfold findAttractionsNearCoordinate, checkApiKey.
    rewrite Hkey. run.
    destruct (fetchPlaces w _) as [data|e0]; run.
    + destruct (negb (p_status data =? "OK") && negb (p_status data =? "ZERO_RESULTS"));
        run; [caught placesCatch_rejects; run; now intros [= <- _]|].
      destruct (p_status data =? "ZERO_RESULTS"); run; [discriminate|].
      destruct (p_results data); run; discriminate.
    + caught placesCatch_rejects. run. now intros [= <- _].
Qed.

(** The diagonal is a number as soon as the host's [Math.atan2] returns one
    on the two square roots. *)
Lemma diagonalDistance_number w (b : Bounds) :
  PrimFloat.is_nan
    (Math_atan2 w (PrimFloat.sqrt (squareHalfChord w b))
                  (PrimFloat.sqrt (1 - squareHalfChord w b))) = false ->
  PrimFloat.is_nan (diagonalDistance w b) = false.
Proof.
  intros Hatan. unfold diagonalDistance.
  assert (HR : exists m e, Prim2SF EARTH_RADIUS = S754_finite false m e)
    by (vm_compute; eauto).
  assert (H2 : exists m e, Prim2SF 2%float = S754_finite false m e)
    by (vm_compute; eauto).
  destruct HR as (mR & eR & HR). destruct H2 as (m2 & e2 & H2).
  apply (FloatFacts.mul_finite_not_nan _ _ _ _ _ HR).
  now apply (FloatFacts.mul_finite_not_nan _ _ _ _ _ H2).
Qed.

(** Without that, the clamp does not help: a NaN stays a NaN. *)
Lemma clampRadius_nan : PrimFloat.is_nan (clampRadius PrimFloat.nan) = true.
Proof. vm_compute. reflexivity. Qed.

(** C2: for the box from (-2.5, -90) to (2.5, 90), with sines and cosines
    correctly rounded, the [a] of the Haversine formula comes out above 1,
    so the square root of [1 - a] is NaN, and with it the diagonal, the
    radius derived from it and the radius of the nearby search that
    [findAttractionsNearRoute] issues: the radius is not within
    [10000, 50000], against the claim and against the code's own
    [Min 10km, Max 50km]. *)
Theorem search_radius_not_a_number :
  PrimFloat.ltb 1 (squareHalfChord Cases.rounded Cases.halfGlobe) = true
  /\ PrimFloat.is_nan (diagonalDistance Cases.rounded Cases.halfGlobe) = true
  /\ PrimFloat.is_nan (searchRadius Cases.rounded Cases.halfGlobe) = true
  /\ PrimFloat.leb 10000 (searchRadius Cases.rounded Cases.halfGlobe) = false
  /\ PrimFloat.leb (searchRadius Cases.rounded Cases.halfGlobe) 50000 = false
  /\ calls (findAttractionsNearRoute Cases.rounded Cases.halfGlobeRoute)
     = [Fetch (NearbySearch (boundsCenter Cases.halfGlobe) PrimFloat.nan
                 PLACES_KEYWORD "k-123")].
Proof. repeat split; vm_compute; reflexivity. Qed.

(** X26: for a route with a bounding box, the diagonal computed by
    [findAttractionsNearRoute] is the Haversine distance between the
    corners of the box on a sphere of radius 6371000 m; whenever it is a
    number, the derived radius is that diagonal divided by 1.8 and clamped
    to [10000, 50000], it lies within [10000, 50000], so does its rounding
    to the nearest integer, and that is the radius of the one nearby
    search issued (around the centre of the box) when the key is
    configured. *)
Theorem search_radius_clamped w (b : Bounds) :
  PrimFloat.is_nan (diagonalDistance w b) = false ->
  diagonalDistance w b = haversine w 6371000 (southwest b) (northeast b)
  /\ searchRadius w b = clampTo 10000 50000 (diagonalDistance w b / 1.8)
  /\ PrimFloat.leb 10000 (searchRadius w b) = true
  /\ PrimFloat.leb (searchRadius w b) 50000 = true
  /\ PrimFloat.leb 10000 (JS.Math_round (searchRadius w b)) = true
  /\ PrimFloat.leb (JS.Math_round (searchRadius w b)) 50000 = true
  /\ (forall r,
         bounds r = Some b ->
         apiKeyMissing w = false ->
         calls (findAttractionsNearRoute w r)
         = [Fetch (NearbySearch (boundsCenter b)
                     (JS.Math_round (searchRadius w b))
                     PLACES_KEYWORD (apiKey w))]).
Proof.
  intros Hd. unfold searchRadius.
  destruct (clampRadius_spec _ Hd) as (Hc & Hlo & Hhi).
  destruct (RoundFacts.Math_round_in_range _ Hlo Hhi) as [Rlo Rhi].
  repeat split; auto.
  intros r Hb Hkey. unfold findAttractionsNearRoute. rewrite Hb.
  rewrite tryCatch_nearRoute_calls.
  now rewrite findAttractionsNearCoordinate_configured_calls.
Qed.

Lemma search_radius_clamped_witness :
  diagonalDistance Sample.configured Sample.coastBounds
  = haversine Sample.configured 6371000
      (southwest Sample.coastBounds) (northeast Sample.coastBounds)
  /\ searchRadius Sample.configured Sample.coastBounds
  = clampTo 10000 50000
      (diagonalDistance Sample.configured Sample.coastBounds / 1.8)
  /\ PrimFloat.leb 10000 (searchRadius Sample.configured Sample.coastBounds)
     = true
  /\ PrimFloat.leb (searchRadius Sample.configured Sample.coastBounds) 50000
     = true
  /\ PrimFloat.leb 10000
       (JS.Math_round (searchRadius Sample.configured Sample.coastBounds))
     = true
  /\ PrimFloat.leb
       (JS.Math_round (searchRadius Sample.configured Sample.coastBounds))
       50000 = true
  /\ (forall r,
         bounds r = Some Sample.coastBounds ->
         apiKeyMissing Sample.configured = false ->
         calls (findAttractionsNearRoute Sample.configured r)
         = [Fetch (NearbySearch (boundsCenter Sample.coastBounds)
                     (JS.Math_round
                        (searchRadius Sample.configured Sample.coastBounds))
                     PLACES_KEYWORD (apiKey Sample.configured))]).
Proof.
  apply (search_radius_clamped Sample.configured Sample.coastBounds).
  vm_compute. reflexivity.
Defined.

(** * Further properties of the services *)

(** ** How the [catch] blocks treat the errors thrown in their [try] *)

(** The error thrown for a Geocoding status passes the [catch] block as
    it is. *)
Lemma geocodingCatch_status address data :
  geocodingCatch (ErrorObj (geocodingStatusError address data))
  = throw (ErrorObj (geocodingStatusError address data)).
Proof.
  unfold geocodingStatusError.
  destruct (g_status data =? "REQUEST_DENIED");
    [|destruct (g_status data =? "ZERO_RESULTS");
      [|destruct (g_status data =? "OVER_QUERY_LIMIT")]];
    vm_compute; reflexivity.
Qed.

Lemma reverseCatch_status w coordinate data :
  reverseCatch (ErrorObj (reverseStatusError w coordinate data))
  = throw (ErrorObj (reverseStatusError w coordinate data)).
Proof.
  unfold reverseStatusError.
  destruct (g_status data =? "REQUEST_DENIED");
    [|destruct (g_status data =? "ZERO_RESULTS");
      [|destruct (g_status data =? "OVER_QUERY_LIMIT")]];
    vm_compute; reflexivity.
Qed.

Lemma directionsCatch_status data stops :
  directionsCatch (ErrorObj (directionsStatusError data stops))
  = throw (ErrorObj (directionsStatusError data stops)).
Proof.
  unfold directionsStatusError.
  destruct (d_status data =? "REQUEST_DENIED");
    [|destruct ((d_status data =? "ZERO_RESULTS") && hasStops stops);
      [|destruct (d_status data =? "INVALID_REQUEST");
        [|destruct (d_status data =? "MAX_WAYPOINTS_EXCEEDED");
          [|destruct (d_status data =? "OVER_QUERY_LIMIT")]]]];
    vm_compute; reflexivity.
Qed.

(** ** The geocoder *)

(** What a resolved geocoding has gone through. *)
Lemma getCoordinatesFromAddress_resolved w address log c :
  getCoordinatesFromAddress w address = (log, Resolved c) ->
  apiKeyMissing w = false
  /\ log = [Fetch (geocodeRequest w address)]
  /\ exists data r rest,
       fetchGeocoding w (geocodeRequest w address) = Resolved data
       /\ g_status data = "OK"
       /\ g_results data = Some (r :: rest)
       /\ c = geometry_location r.
Proof.
  unfold getCoordinatesFromAddress, checkApiKey, geocodeRequest.
  destruct (apiKeyMissing w); run; [discriminate|].
  destruct (fetchGeocoding w _) as [data|e] eqn:Hf; run;
    [|caught geocodingCatch_rejects; discriminate].
  destruct (g_status data =? "OK") eqn:Hs; run;
    [|caught geocodingCatch_rejects; discriminate].
  apply String.eqb_eq in Hs.
  destruct (g_results data) as [[|r rest]|] eqn:Hr; run;
    try (caught geocodingCatch_rejects; discriminate).
  intros [= <- <-]. repeat split. exists data, r, rest. auto.
Qed.

(** X1: [getCoordinatesFromAddress] resolves exactly when the key is
    configured and the provider answers [OK] with at least one result;
    it then has issued the one request for that address under the
    configured key, and returns the location of the provider's first
    result. *)
Theorem geocoder_first_match w address log c :
  getCoordinatesFromAddress w address = (log, Resolved c)
  <-> apiKeyMissing w = false
      /\ log = [Fetch (geocodeRequest w address)]
      /\ exists data r rest,
           fetchGeocoding w (geocodeRequest w address) = Resolved data
           /\ g_status data = "OK"
           /\ g_results data = Some (r :: rest)
           /\ c = geometry_location r.
Proof.
  split; [apply getCoordinatesFromAddress_resolved|].
  unfold getCoordinatesFromAddress, checkApiKey, geocodeRequest.
  - intros (Hk & -> & data & r & rest & Hf & Hs & Hr & ->).
    rewrite Hk. run. rewrite Hf. run. rewrite Hs. cbn [String.eqb Ascii.eqb Bool.eqb negb].
    rewrite Hr. reflexivity.
Qed.

(** X2: with the key configured, a Geocoding status other than [OK] is
    rejected with the error for that status, not rewrapped by the [catch]
    block, after the one request; for [ZERO_RESULTS] it is the
    no-results error naming the address. *)
Theorem geocoder_status_errors w address data :
  apiKeyMissing w = false ->
  fetchGeocoding w (geocodeRequest w address) = Resolved data ->
  g_status data <> "OK" ->
  getCoordinatesFromAddress w address
  = ([Fetch (geocodeRequest w address)],
     Rejected (ErrorObj (geocodingStatusError address data)))
  /\ (g_status data = "ZERO_RESULTS" ->
      geocodingStatusError address data
      = "Geocoding API Error: No results found for address " ++ JS.dquote
        ++ address ++ JS.dquote ++ ". Please ensure the address is valid.").
Proof.
  intros Hk Hf Hs. split.
  - unfold getCoordinatesFromAddress, checkApiKey, geocodeRequest in *.
    rewrite Hk. run. rewrite Hf. run.
    apply String.eqb_neq in Hs. rewrite Hs. run.
    now rewrite geocodingCatch_status.
  - intros E. unfold geocodingStatusError. rewrite E. reflexivity.
Qed.

Lemma geocoder_status_errors_witness :
  getCoordinatesFromAddress Cases.lostDestination "Los Angeles, CA"
  = ([Fetch (geocodeRequest Cases.lostDestination "Los Angeles, CA")],
     Rejected (ErrorObj (geocodingStatusError "Los Angeles, CA"
                           (Cases.status "ZERO_RESULTS"))))
  /\ (g_status (Cases.status "ZERO_RESULTS") = "ZERO_RESULTS" ->
      geocodingStatusError "Los Angeles, CA" (Cases.status "ZERO_RESULTS")
      = "Geocoding API Error: No results found for address " ++ JS.dquote
        ++ "Los Angeles, CA" ++ JS.dquote
        ++ ". Please ensure the address is valid.").
Proof.
  apply (geocoder_status_errors Cases.lostDestination "Los Angeles, CA"
           (Cases.status "ZERO_RESULTS")).
  - reflexivity.
  - reflexivity.
  - discriminate.
Defined.

Lemma geocoder_first_match_witness :
  getCoordinatesFromAddress Sample.configured "San Francisco, CA"
  = ([Fetch (geocodeRequest Sample.configured "San Francisco, CA")],
     Resolved Sample.sanFrancisco).
Proof.
  apply (proj2 (geocoder_first_match Sample.configured "San Francisco, CA"
                  [Fetch (geocodeRequest Sample.configured "San Francisco, CA")]
                  Sample.sanFrancisco)).
  repeat split.
  exists (Sample.geocoded Sample.sanFrancisco),
         {| geometry_location := Sample.sanFrancisco;
            formatted_address := "somewhere" |}, [].
  repeat split.
Defined.

(** ** The route finder *)

(** A Directions status other than [OK] is rejected with its error. *)
Lemma findShortestRoute_status w origin destination stops data :
  apiKeyMissing w = false ->
  fetchDirections w (directionsRequest w origin destination stops)
  = Resolved data ->
  d_status data <> "OK" ->
  findShortestRoute w origin destination stops
  = ([Fetch (directionsRequest w origin destination stops)],
     Rejected (ErrorObj (directionsStatusError data stops))).
Proof.
  intros Hk Hf Hs. unfold findShortestRoute, checkApiKey.
  rewrite Hk. run. rewrite Hf. run.
  apply String.eqb_neq in Hs. rewrite Hs. run.
  now rewrite directionsCatch_status.
Qed.

(** X3: with the key configured, a Directions status other than [OK] is
    rejected with the error for that status, not rewrapped, after the one
    request; for [ZERO_RESULTS] the error tells a search with stops from
    one without. *)
Theorem directions_status_errors w origin destination stops data :
  apiKeyMissing w = false ->
  fetchDirections w (directionsRequest w origin destination stops)
  = Resolved data ->
  d_status data <> "OK" ->
  findShortestRoute w origin destination stops
  = ([Fetch (directionsRequest w origin destination stops)],
     Rejected (ErrorObj (directionsStatusError data stops)))
  /\ (d_status data = "ZERO_RESULTS" ->
      directionsStatusError data stops
      = if hasStops stops
        then "Directions API Error: No route found including the specified waypoints. Status: ZERO_RESULTS."
        else "Could not find route. Status: ZERO_RESULTS. "
             ++ JS.orString (d_error_message data) "").
Proof.
  intros Hk Hf Hs. split.
  - now apply findShortestRoute_status.
  - intros E. unfold directionsStatusError. rewrite E.
    destruct (hasStops stops); reflexivity.
Qed.

Lemma directions_status_errors_witness :
  findShortestRoute (Cases.directionsStatus "ZERO_RESULTS")
    Sample.sanFrancisco Sample.losAngeles (Some ["place_id:A"])
  = ([Fetch (directionsRequest (Cases.directionsStatus "ZERO_RESULTS")
               Sample.sanFrancisco Sample.losAngeles (Some ["place_id:A"]))],
     Rejected (ErrorObj "Directions API Error: No route found including the specified waypoints. Status: ZERO_RESULTS.")).
Proof.
  apply (proj1 (directions_status_errors (Cases.directionsStatus "ZERO_RESULTS")
                  Sample.sanFrancisco Sample.losAngeles (Some ["place_id:A"])
                  {| d_status := "ZERO_RESULTS"; d_error_message := None;
                     routes := None |}
                  eq_refl eq_refl ltac:(discriminate))).
Defined.

(** ** The attraction locator *)

(** X4: with the key configured, a Places status the service has an error
    for ([REQUEST_DENIED], [INVALID_REQUEST], [OVER_QUERY_LIMIT]) is
    rejected with that error as it is; any other status apart from [OK]
    and [ZERO_RESULTS] is rejected with the request-failed error behind
    the prefix the [catch] block gives to transport failures. *)
Theorem places_status_errors w center radius data :
  apiKeyMissing w = false ->
  fetchPlaces w (nearbySearchRequest w center radius) = Resolved data ->
  p_status data <> "OK" ->
  p_status data <> "ZERO_RESULTS" ->
  findAttractionsNearCoordinate w center radius
  = ([Fetch (nearbySearchRequest w center radius)],
     Rejected
       (ErrorObj
          (if knownPlacesFailure (p_status data)
           then placesStatusError data
           else "Failed to find attractions: Places API request failed. Status: "
                ++ p_status data ++ ". "
                ++ JS.orString (p_error_message data) ""))).
Proof.
  intros Hk Hf Ho Hz.
  unfold findAttractionsNearCoordinate, checkApiKey.
  rewrite Hk. run. rewrite Hf. run.
  apply String.eqb_neq in Ho, Hz. rewrite Ho, Hz. run. cbn [andb].
  unfold knownPlacesFailure, placesStatusError.
  destruct (p_status data =? "REQUEST_DENIED");
    [|destruct (p_status data =? "INVALID_REQUEST");
      [|destruct (p_status data =? "OVER_QUERY_LIMIT")]];
    vm_compute; reflexivity.
Qed.

Lemma places_status_errors_witness :
  findAttractionsNearCoordinate (Cases.placesStatus "UNKNOWN_ERROR")
    Sample.sanFrancisco 15000%float
  = ([Fetch (nearbySearchRequest (Cases.placesStatus "UNKNOWN_ERROR")
               Sample.sanFrancisco 15000%float)],
     Rejected
       (ErrorObj "Failed to find attractions: Places API request failed. Status: UNKNOWN_ERROR. ")).
Proof.
  apply (places_status_errors (Cases.placesStatus "UNKNOWN_ERROR")
           Sample.sanFrancisco 15000%float
           {| p_status := "UNKNOWN_ERROR"; p_error_message := None;
              p_results := None |}
           eq_refl eq_refl ltac:(discriminate) ltac:(discriminate)).
Defined.

(** X5: with the key configured, a [ZERO_RESULTS] answer, or an [OK]
    answer without a result list, makes [findAttractionsNearCoordinate]
    resolve to the empty list after its one request: finding nothing is
    no failure. *)
Theorem nothing_nearby_is_no_failure w center radius data :
  apiKeyMissing w = false ->
  fetchPlaces w (nearbySearchRequest w center radius) = Resolved data ->
  p_status data = "ZERO_RESULTS"
  \/ (p_status data = "OK" /\ p_results data = None) ->
  findAttractionsNearCoordinate w center radius
  = ([Fetch (nearbySearchRequest w center radius)], Resolved []).
Proof.
  intros Hk Hf H.
  unfold findAttractionsNearCoordinate, checkApiKey.
  rewrite Hk. run. rewrite Hf. run.
  destruct H as [-> | [-> ->]]; reflexivity.
Qed.

Lemma nothing_nearby_is_no_failure_witness :
  findAttractionsNearCoordinate (Cases.placesStatus "ZERO_RESULTS")
    Sample.sanFrancisco 15000%float
  = ([Fetch (nearbySearchRequest (Cases.placesStatus "ZERO_RESULTS")
               Sample.sanFrancisco 15000%float)], Resolved []).
Proof.
  apply (nothing_nearby_is_no_failure (Cases.placesStatus "ZERO_RESULTS")
           Sample.sanFrancisco 15000%float
           {| p_status := "ZERO_RESULTS"; p_error_message := None;
              p_results := None |} eq_refl eq_refl).
  left. reflexivity.
Defined.

Lemma orString_truthy (x : option string) (d : string) :
  JS.truthyString d = true -> JS.truthyString (JS.orString x d) = true.
Proof.
  intros H. destruct x as [s|]; cbn; [|exact H].
  destruct (JS.truthyString s) eqn:E; assumption.
Qed.

Lemma placeDescription_truthy (p : Place) :
  JS.truthyString (placeDescription p) = true.
Proof.
  unfold placeDescription.
  destruct (vicinity p) as [v|].
  - destruct (JS.truthyString v) eqn:E; [exact E|].
    now apply orString_truthy.
  - now apply orString_truthy.
Qed.

(** X6: every attraction [findAttractionsNearCoordinate] returns has a
    description that is not empty, and is the image of a place of the
    provider's answer, whose name, location, identifier, rating and types
    it carries. *)
Theorem attractions_are_described w center radius log l :
  findAttractionsNearCoordinate w center radius = (log, Resolved l) ->
  Forall (fun a =>
            description a <> ""
            /\ exists data results p,
                 fetchPlaces w (nearbySearchRequest w center radius)
                 = Resolved data
                 /\ p_results data = Some results
                 /\ In p results
                 /\ name a = place_name p
                 /\ location a = place_location p
                 /\ placeId a = place_id p
                 /\ rating a = place_rating p
                 /\ types a = place_types p) l.
Proof.
  intros H.
  destruct (findAttractionsNearCoordinate_resolved _ _ _ _ _ H)
    as (data & _ & _ & Hf & ->).
  destruct (p_status data =? "ZERO_RESULTS"); [constructor|].
  destruct (p_results data) as [results|] eqn:Hr; [|constructor].
  apply Forall_forall. intros a Ha. apply in_map_iff in Ha as (p & <- & Hp).
  split.
  - pose proof (placeDescription_truthy p) as T.
    cbn [description placeToAttraction]. intros E. rewrite E in T.
    discriminate T.
  - exists data, results, p. repeat split; auto.
    exact (subseq_In _ _ _ (keptPlaces_subseq results) Hp).
Qed.

Lemma attractions_are_described_witness :
  Forall (fun a =>
            description a <> ""
            /\ exists data results p,
                 fetchPlaces Sample.configured
                   (nearbySearchRequest Sample.configured Sample.sanFrancisco
                      15000%float) = Resolved data
                 /\ p_results data = Some results
                 /\ In p results
                 /\ name a = place_name p
                 /\ location a = place_location p
                 /\ placeId a = place_id p
                 /\ rating a = place_rating p
                 /\ types a = place_types p)
    (map placeToAttraction
       [ Sample.place "Pier" "A" 4.5%float "OPERATIONAL";
         Sample.place "Tar Pits" "C" 3.5%float "OPERATIONAL";
         Sample.place "Museum" "E" 4.7%float "OPERATIONAL" ]).
Proof.
  apply (attractions_are_described Sample.configured Sample.sanFrancisco
           15000%float
           [Fetch (nearbySearchRequest Sample.configured Sample.sanFrancisco
                     15000%float)]).
  reflexivity.
Defined.

(** X7: a route without bounding box is searched around the point in the
    middle of its path, [path[floor(length / 2)]], with a radius of
    20000 m, in one request when the key is configured; a route with
    neither bounding box nor path gives the empty list without any
    request, whether or not a key is configured. *)
Theorem boxless_route_search w r :
  bounds r = None ->
  (path r = [] -> findAttractionsNearRoute w r = ([], Resolved []))
  /\ (path r <> [] ->
      exists midPoint,
        nth_error (path r) (Nat.div (List.length (path r)) 2) = Some midPoint
        /\ searchTarget w r = Some (midPoint, 20000%float)
        /\ (apiKeyMissing w = false ->
            calls (findAttractionsNearRoute w r)
            = [Fetch (nearbySearchRequest w midPoint 20000%float)])).
Proof.
  intros Hb. split.
  - intros Hp. unfold findAttractionsNearRoute. now rewrite Hb, Hp.
  - intros Hp.
    destruct (nth_error (path r) (Nat.div (List.length (path r)) 2))
      as [mid|] eqn:Hn.
    + exists mid. split; [reflexivity|].
      assert (Ht : searchTarget w r = Some (mid, 20000%float))
        by (unfold searchTarget; now rewrite Hb, Hn).
      split; [exact Ht|]. intros Hk.
      rewrite findAttractionsNearRoute_target, Ht, tryCatch_nearRoute_calls.
      now apply findAttractionsNearCoordinate_configured_calls.
    + exfalso. apply Hp. apply (searchTarget_none w).
      unfold searchTarget. now rewrite Hb, Hn.
Qed.

Lemma boxless_route_search_witness :
  (path Cases.boxless = [] ->
   findAttractionsNearRoute Sample.configured Cases.boxless = ([], Resolved []))
  /\ (path Cases.boxless <> [] ->
      exists midPoint,
        nth_error (path Cases.boxless)
          (Nat.div (List.length (path Cases.boxless)) 2) = Some midPoint
        /\ searchTarget Sample.configured Cases.boxless
           = Some (midPoint, 20000%float)
        /\ (apiKeyMissing Sample.configured = false ->
            calls (findAttractionsNearRoute Sample.configured Cases.boxless)
            = [Fetch (nearbySearchRequest Sample.configured midPoint
                        20000%float)])).
Proof.
  apply (boxless_route_search Sample.configured Cases.boxless). reflexivity.
Defined.

(** ** What the services throw *)

Lemma directionsCatch_error (e : Thrown) :
  exists m, directionsCatch e = ([], Rejected (ErrorObj m)).
Proof.
  destruct e as [m|]; unfold directionsCatch, throw; repeat case_if; eauto.
Qed.

Lemma geocodingCatch_error (e : Thrown) :
  exists m, geocodingCatch e = ([], Rejected (ErrorObj m)).
Proof.
  destruct e as [m|]; unfold geocodingCatch, throw; repeat case_if; eauto.
Qed.

Lemma reverseCatch_error (e : Thrown) :
  exists m, reverseCatch e = ([], Rejected (ErrorObj m)).
Proof.
  destruct e as [m|]; unfold reverseCatch, throw; repeat case_if; eauto.
Qed.

Lemma placesCatch_error (e : Thrown) :
  exists m, placesCatch e = ([], Rejected (ErrorObj m)).
Proof.
  destruct e as [m|]; unfold placesCatch, throw; repeat case_if; eauto.
Qed.

Lemma flowCatch_error (e : Thrown) :
  flowCatch e = ([], Rejected (flowError e)).
Proof. destruct e; reflexivity. Qed.

(** A service made of the key check and a guarded body only ever rejects
    with an [Error]. *)
Lemma guarded_rejections {A} w apiName (body : Task A) (h : Thrown -> Task A) :
  (forall e, exists m, h e = ([], Rejected (ErrorObj m))) ->
  forall e,
    outcome (checkApiKey w apiName ;;; tryCatch body h) = Rejected e ->
    exists m, e = ErrorObj m.
Proof.
  intros Hh e. unfold checkApiKey.
  destruct (apiKeyMissing w); run; [intros [= <-]; eauto|].
  destruct body as [log [a|e0]]; run; [discriminate|].
  destruct (Hh e0) as [m ->]. run. intros [= <-]. eauto.
Qed.

(** X8: whatever reaches them, the four services,
    [findAttractionsNearRoute] and the flow only ever reject with an
    [Error] object carrying a message, never with another value; the
    message of the flow opens with [Trip plan generation failed: ], which
    the planner looks for, or is the flow's unknown-error message. *)
Theorem rejections_are_errors w :
  (forall address e,
      outcome (getCoordinatesFromAddress w address) = Rejected e ->
      exists m, e = ErrorObj m)
  /\ (forall coordinate e,
         outcome (getAddressFromCoordinates w coordinate) = Rejected e ->
         exists m, e = ErrorObj m)
  /\ (forall origin destination stops e,
         outcome (findShortestRoute w origin destination stops) = Rejected e ->
         exists m, e = ErrorObj m)
  /\ (forall center radius e,
         outcome (findAttractionsNearCoordinate w center radius) = Rejected e ->
         exists m, e = ErrorObj m)
  /\ (forall r e,
         outcome (findAttractionsNearRoute w r) = Rejected e ->
         exists m, e = ErrorObj m)
  /\ (forall input e,
         outcome (generateTripPlanFlow w input) = Rejected e ->
         exists m,
           e = ErrorObj m
           /\ (JS.startsWith m "Trip plan generation failed: " = true
               \/ m = "An unknown error occurred during trip plan generation.")).
Proof.
  repeat split.
  - intros address. apply guarded_rejections, geocodingCatch_error.
  - intros coordinate. apply guarded_rejections, reverseCatch_error.
  - intros origin destination stops.
    apply guarded_rejections, directionsCatch_error.
  - intros center radius. apply guarded_rejections, placesCatch_error.
  - intros r e. rewrite findAttractionsNearRoute_target.
    destruct (searchTarget w r) as [[c rad]|].
    + intros H. apply guarded_search in H. subst e. unfold CONFIG_ERROR. eauto.
    + destruct (nonEmpty (path r)); [|discriminate].
      intros H. apply guarded_search in H. subst e. unfold CONFIG_ERROR. eauto.
  - intros input e. unfold generateTripPlanFlow.
    match goal with |- context [tryCatch ?b flowCatch] => destruct b as [log [p|e0]] end;
      run; [discriminate|].
    rewrite flowCatch_error. run. intros [= <-].
    destruct e0 as [m0|]; cbn [flowError]; eexists; split; try reflexivity.
    + left. destruct m0; reflexivity.
    + right. reflexivity.
Qed.

Lemma rejections_are_errors_witness :
  exists m,
    ErrorObj "Failed to find attractions: socket hang up" = ErrorObj m.
Proof.
  apply (proj1 (proj2 (proj2 (proj2 (rejections_are_errors Sample.placesDown))))
           Sample.sanFrancisco 15000%float).
  reflexivity.
Defined.

(** X9: with the key configured, a transport failure of the Directions or
    Geocoding endpoint (a rejected [fetch], or a body that is no JSON)
    whose message is not one of the service's own is rejected, after the
    one request, as [Failed to fetch directions: ...] or
    [Failed to geocode address: ...] followed by the cause; a thrown value
    that is no [Error] is reported as an unknown error. *)
Theorem transport_failures w :
  apiKeyMissing w = false ->
  (forall origin destination stops m,
      fetchDirections w (directionsRequest w origin destination stops)
      = Rejected (ErrorObj m) ->
      (m =? SERVER_CONFIG_ERROR_MSG) = false ->
      JS.startsWith m "Could not find route" = false ->
      JS.startsWith m "Directions API Error:" = false ->
      findShortestRoute w origin destination stops
      = ([Fetch (directionsRequest w origin destination stops)],
         Rejected (ErrorObj ("Failed to fetch directions: " ++ m))))
  /\ (forall origin destination stops,
         fetchDirections w (directionsRequest w origin destination stops)
         = Rejected NonError ->
         findShortestRoute w origin destination stops
         = ([Fetch (directionsRequest w origin destination stops)],
            Rejected (ErrorObj "An unknown error occurred while fetching directions.")))
  /\ (forall address m,
         fetchGeocoding w (geocodeRequest w address) = Rejected (ErrorObj m) ->
         (m =? SERVER_CONFIG_ERROR_MSG) = false ->
         JS.startsWith m "Could not geocode address" = false ->
         JS.startsWith m "Geocoding API Error:" = false ->
         getCoordinatesFromAddress w address
         = ([Fetch (geocodeRequest w address)],
            Rejected (ErrorObj ("Failed to geocode address: " ++ m))))
  /\ (forall address,
         fetchGeocoding w (geocodeRequest w address) = Rejected NonError ->
         getCoordinatesFromAddress w address
         = ([Fetch (geocodeRequest w address)],
            Rejected (ErrorObj "An unknown error occurred during geocoding."))).
Proof.
  intros Hk. repeat split.
  - intros origin destination stops m Hf H1 H2 H3.
    unfold findShortestRoute, checkApiKey. rewrite Hk. run. rewrite Hf. run.
    unfold directionsCatch. now rewrite H1, H2, H3.
  - intros origin destination stops Hf.
    unfold findShortestRoute, checkApiKey. rewrite Hk. run. now rewrite Hf.
  - intros address m Hf H1 H2 H3.
    unfold getCoordinatesFromAddress, checkApiKey, geocodeRequest in *.
    rewrite Hk. run. rewrite Hf. run.
    unfold geocodingCatch. now rewrite H1, H2, H3.
  - intros address Hf.
    unfold getCoordinatesFromAddress, checkApiKey, geocodeRequest in *.
    rewrite Hk. run. now rewrite Hf.
Qed.

Lemma transport_failures_witness :
  findShortestRoute Cases.directionsDown Sample.sanFrancisco Sample.losAngeles
    None
  = ([Fetch (directionsRequest Cases.directionsDown Sample.sanFrancisco
               Sample.losAngeles None)],
     Rejected (ErrorObj "Failed to fetch directions: socket hang up")).
Proof.
  apply (proj1 (transport_failures Cases.directionsDown eq_refl)
           Sample.sanFrancisco Sample.losAngeles None "socket hang up");
    reflexivity.
Defined.

(** ** The route finder, continued *)

(** X10: a route returned by [findShortestRoute] always has its bounding
    box, so that [findAttractionsNearRoute] searches around the centre of
    the box; it has cost exactly the one Directions request; its path is
    the decoded overview polyline; and when the provider's legs have no
    negative value, the totals are not negative and no leg exceeds them. *)
Theorem route_invariants w origin destination stops log r :
  findShortestRoute w origin destination stops = (log, Resolved r) ->
  log = [Fetch (directionsRequest w origin destination stops)]
  /\ exists data chosen rest ls pts b,
       fetchDirections w (directionsRequest w origin destination stops)
       = Resolved data
       /\ routes data = Some (chosen :: rest)
       /\ legs chosen = Some ls
       /\ polylinePoints chosen = Some pts
       /\ route_bounds chosen = Some b
       /\ bounds r = Some b
       /\ searchTarget w r
          = Some (boundsCenter b, JS.Math_round (searchRadius w b))
       /\ path r = map (fun p => {| lat := fst p; lng := snd p |})
                       (decode w pts)
       /\ (Forall (fun leg => 0 <= legDistance leg /\ 0 <= legDuration leg)%Z
                  ls ->
           (0 <= distanceMeters r)%Z /\ (0 <= durationSeconds r)%Z
           /\ Forall (fun leg => legDistance leg <= distanceMeters r
                                 /\ legDuration leg <= durationSeconds r)%Z ls).
Proof.
  intros H.
  destruct (findShortestRoute_resolved _ _ _ _ _ _ H)
    as (data & chosen & rest & ls & pts & b & _ & -> & Hf & _ & Hr & Hl & Hp & Hb & ->).
  split; [reflexivity|].
  exists data, chosen, rest, ls, pts, b.
  cbn [bounds path distanceMeters durationSeconds]. rewrite sumLegs_spec.
  cbn [fst snd]. repeat (split; [auto; fail|]).
  intros Hpos.
  assert (Hd : Forall (fun z => 0 <= z /\ isDouble z)%Z (map legDistance ls)).
  { apply Forall_map. eapply Forall_impl; [|exact Hpos]. cbn.
    intros leg [H0 _]. split; [exact H0|apply legDistance_isDouble]. }
  assert (Ht : Forall (fun z => 0 <= z /\ isDouble z)%Z (map legDuration ls)).
  { apply Forall_map. eapply Forall_impl; [|exact Hpos]. cbn.
    intros leg [_ H0]. split; [exact H0|apply legDuration_isDouble]. }
  destruct (plus_bounds _ 0%Z isDouble_0 ltac:(reflexivity) Hd) as [Hd0 Hd1].
  destruct (plus_bounds _ 0%Z isDouble_0 ltac:(reflexivity) Ht) as [Ht0 Ht1].
  fold (runningTotal (map legDistance ls)) in Hd0, Hd1.
  fold (runningTotal (map legDuration ls)) in Ht0, Ht1.
  repeat split; auto.
  rewrite Forall_map in Hd1, Ht1. rewrite Forall_forall in *.
  intros leg Hin. split; [apply Hd1 | apply Ht1]; exact Hin.
Qed.

Lemma route_invariants_witness :
  [Fetch (directionsRequest Sample.configured Sample.sanFrancisco
            Sample.losAngeles (Some ["place_id:A"; "place_id:B"]))]
  = [Fetch (directionsRequest Sample.configured Sample.sanFrancisco
              Sample.losAngeles (Some ["place_id:A"; "place_id:B"]))]
  /\ exists data chosen rest ls pts b,
       fetchDirections Sample.configured
         (directionsRequest Sample.configured Sample.sanFrancisco
            Sample.losAngeles (Some ["place_id:A"; "place_id:B"]))
       = Resolved data
       /\ routes data = Some (chosen :: rest)
       /\ legs chosen = Some ls
       /\ polylinePoints chosen = Some pts
       /\ route_bounds chosen = Some b
       /\ bounds Sample.coastTrip = Some b
       /\ searchTarget Sample.configured Sample.coastTrip
          = Some (boundsCenter b,
                  JS.Math_round (searchRadius Sample.configured b))
       /\ path Sample.coastTrip
          = map (fun p => {| lat := fst p; lng := snd p |})
                (decode Sample.configured pts)
       /\ (Forall (fun leg => 0 <= legDistance leg /\ 0 <= legDuration leg)%Z
                  ls ->
           (0 <= distanceMeters Sample.coastTrip)%Z
           /\ (0 <= durationSeconds Sample.coastTrip)%Z
           /\ Forall (fun leg =>
                        legDistance leg <= distanceMeters Sample.coastTrip
                        /\ legDuration leg <= durationSeconds Sample.coastTrip)%Z
                     ls).
Proof.
  apply (route_invariants Sample.configured Sample.sanFrancisco
           Sample.losAngeles (Some ["place_id:A"; "place_id:B"])).
  reflexivity.
Defined.

Lemma prefixed_stops_are_valid (ids : list string) :
  filter (fun wp => JS.startsWith wp "place_id:")
         (map (fun id => "place_id:" ++ id) ids)
  = map (fun id => "place_id:" ++ id) ids.
Proof.
  induction ids as [|id ids IH]; [reflexivity|].
  cbn [map filter]. rewrite IH.
  assert (Hp : JS.startsWith ("place_id:" ++ id) "place_id:" = true)
    by (destruct id; reflexivity).
  now rewrite Hp.
Qed.

(** X11: the Directions request of the flow carries every requested stop,
    in the order given, as [place_id:] references behind the
    [optimize:true] flag, and carries no [waypoints] parameter when no
    stop is requested; in general only the entries of the form
    [place_id:...] are sent, and none of them is dropped. *)
Theorem stops_are_forwarded w origin destination :
  (forall input,
      directionsRequest w origin destination (Some (waypointsParam input))
      = Directions origin destination
          (match waypoints input with
           | Some (id :: ids) =>
               Some ("optimize:true|"
                     ++ JS.join "|" (map (fun i => "place_id:" ++ i)
                                         (id :: ids)))
           | _ => None
           end)
          (apiKey w))
  /\ (forall stops,
         waypointsParameter (Some stops)
         = match filter (fun wp => JS.startsWith wp "place_id:") stops with
           | [] => None
           | valid => Some ("optimize:true|" ++ JS.join "|" valid)
           end).
Proof.
  split.
  - intros input. unfold directionsRequest, waypointsParam. f_equal.
    destruct (waypoints input) as [[|id ids]|]; try reflexivity.
    unfold waypointsParameter. rewrite prefixed_stops_are_valid. reflexivity.
  - intros stops. unfold waypointsParameter.
    destruct stops as [|s stops]; [reflexivity|]. cbn [nonEmpty].
    destruct (filter _ (s :: stops)); reflexivity.
Qed.

(** ** The flow, composed *)

Lemma settled {A} (m : Task A) (o : Outcome A) :
  outcome m = o -> m = (calls m, o).
Proof. destruct m; cbn. now intros ->. Qed.

Lemma placesStatusError_not_config data :
  placesStatusError data <> SERVER_CONFIG_ERROR_MSG.
Proof.
  unfold placesStatusError. repeat case_if; intros H; vm_compute in H;
    discriminate.
Qed.

Lemma placesCatch_not_config (e : Thrown) :
  e <> CONFIG_ERROR -> outcome (placesCatch e) <> Rejected CONFIG_ERROR.
Proof.
  unfold CONFIG_ERROR. destruct e as [m|]; unfold placesCatch; intros Hne.
  - destruct (m =? SERVER_CONFIG_ERROR_MSG) eqn:E.
    + apply String.eqb_eq in E. now subst m.
    + case_if; run; [congruence|]. discriminate.
  - run. discriminate.
Qed.

(** With the key configured, the nearby search cannot end in the
    configuration error unless the transport itself raises it. *)
Lemma findAttractionsNearCoordinate_not_config w center radius :
  apiKeyMissing w = false ->
  (forall req, fetchPlaces w req <> Rejected CONFIG_ERROR) ->
  outcome (findAttractionsNearCoordinate w center radius)
  <> Rejected CONFIG_ERROR.
Proof.
  intros Hk Hp. unfold findAttractionsNearCoordinate, checkApiKey.
  rewrite Hk. run.
  specialize (Hp (nearbySearchRequest w center radius)).
  destruct (fetchPlaces w _) as [data|e]; run.
  - case_if; run.
    + pose proof (placesCatch_not_config (ErrorObj (placesStatusError data))) as H.
      destruct (placesCatch _) as [l o]. run. apply H.
      unfold CONFIG_ERROR. intros [= E]. now apply placesStatusError_not_config in E.
    + case_if; run; [discriminate|]. destruct (p_results data); run; discriminate.
  - pose proof (placesCatch_not_config e) as H.
    destruct (placesCatch e) as [l o]. run. apply H. congruence.
Qed.

(** For a route with its bounding box and the key configured, the search
    along the route resolves to what the nearby search found, or to
    nothing when that search failed, after the one request. *)
Lemma findAttractionsNearRoute_boxed w r b :
  apiKeyMissing w = false ->
  (forall req, fetchPlaces w req <> Rejected CONFIG_ERROR) ->
  bounds r = Some b ->
  findAttractionsNearRoute w r
  = ([Fetch (nearbySearchRequest w (boundsCenter b)
               (JS.Math_round (searchRadius w b)))],
     Resolved
       match outcome (findAttractionsNearCoordinate w (boundsCenter b)
                        (JS.Math_round (searchRadius w b))) with
       | Resolved l => l
       | Rejected _ => []
       end).
Proof.
  intros Hk Hp Hb. unfold findAttractionsNearRoute. rewrite Hb.
  pose proof (findAttractionsNearCoordinate_configured_calls w (boundsCenter b)
                (JS.Math_round (searchRadius w b)) Hk) as Hc.
  pose proof (findAttractionsNearCoordinate_not_config w (boundsCenter b)
                (JS.Math_round (searchRadius w b)) Hk Hp) as Hn.
  destruct (findAttractionsNearCoordinate w _ _) as [l [found|e]]; run.
  - now subst l.
  - subst l. rewrite nearRouteCatch_other by congruence. reflexivity.
Qed.

(** The flow when its first five stages succeed. *)
Lemma flow_composed w input l1 oc l2 dc l3 r forecast l4 nearby :
  getCoordinatesFromAddress w (originAddress input) = (l1, Resolved oc) ->
  getCoordinatesFromAddress w (destinationAddress input) = (l2, Resolved dc) ->
  findShortestRoute w oc dc (Some (waypointsParam input)) = (l3, Resolved r) ->
  getWeatherForecast oc = ([], Resolved forecast) ->
  findAttractionsNearRoute w r = (l4, Resolved nearby) ->
  generateTripPlanFlow w input
  = ((l1 ++ l2 ++ l3 ++ l4
      ++ [Prompt (buildPromptInput w input r forecast nearby)])%list,
     reasoningVerdict w input r forecast nearby).
Proof.
  intros E1 E2 E3 Hw E4. unfold generateTripPlanFlow.
  rewrite E1. run. rewrite E2. run. rewrite E3. run. rewrite Hw. run.
  rewrite E4. run.
  unfold reasoningVerdict, callPrompt, assemble. run.
  set (p := buildPromptInput w input r forecast nearby).
  destruct (generateTripPlanPrompt w p) as [output|e5]; run.
  - destruct (incompleteOutput output); run; unfold flowCatch; run;
      rewrite ?app_nil_r, <- ?app_assoc; reflexivity.
  - destruct (flowCatch_rejects e5) as [e' He]. rewrite He. run.
    rewrite ?app_nil_r, <- ?app_assoc. reflexivity.
Qed.

(** What a resolved run of the flow has gone through. *)
Lemma flow_resolved w input log plan :
  generateTripPlanFlow w input = (log, Resolved plan) ->
  exists l1 oc l2 dc l3 r forecast l4 nearby,
    getCoordinatesFromAddress w (originAddress input) = (l1, Resolved oc)
    /\ getCoordinatesFromAddress w (destinationAddress input)
       = (l2, Resolved dc)
    /\ findShortestRoute w oc dc (Some (waypointsParam input))
       = (l3, Resolved r)
    /\ getWeatherForecast oc = ([], Resolved forecast)
    /\ findAttractionsNearRoute w r = (l4, Resolved nearby)
    /\ log = (l1 ++ l2 ++ l3 ++ l4
              ++ [Prompt (buildPromptInput w input r forecast nearby)])%list
    /\ reasoningVerdict w input r forecast nearby = Resolved plan.
Proof.
  intros H.
  destruct (getCoordinatesFromAddress w (originAddress input))
    as [l1 [oc|e1]] eqn:E1;
    [|revert H; unfold generateTripPlanFlow; rewrite E1; run;
      caught flowCatch_rejects; discriminate].
  destruct (getCoordinatesFromAddress w (destinationAddress input))
    as [l2 [dc|e2]] eqn:E2;
    [|revert H; unfold generateTripPlanFlow; rewrite E1; run; rewrite E2; run;
      caught flowCatch_rejects; discriminate].
  destruct (findShortestRoute w oc dc (Some (waypointsParam input)))
    as [l3 [r|e3]] eqn:E3;
    [|revert H; unfold generateTripPlanFlow; rewrite E1; run; rewrite E2; run;
      rewrite E3; run; caught flowCatch_rejects; discriminate].
  destruct (getWeatherForecast_resolves oc) as [forecast Hw].
  destruct (findAttractionsNearRoute w r) as [l4 [nearby|e4]] eqn:E4;
    [|revert H; unfold generateTripPlanFlow; rewrite E1; run; rewrite E2; run;
      rewrite E3; run; rewrite Hw; run; rewrite E4; run;
      caught flowCatch_rejects; discriminate].
  rewrite (flow_composed _ _ _ _ _ _ _ _ _ _ _ E1 E2 E3 Hw E4) in H.
  injection H as <- Hv.
  exists l1, oc, l2, dc, l3, r, forecast, l4, nearby. auto 10.
Qed.

Lemma reasoningVerdict_resolved w input r forecast nearby plan :
  reasoningVerdict w input r forecast nearby = Resolved plan ->
  exists output,
    generateTripPlanPrompt w (buildPromptInput w input r forecast nearby)
    = Resolved (Some output)
    /\ po_suggestedDepartureTime output = Some (suggestedDepartureTime plan)
    /\ suggestedDepartureTime plan <> ""
    /\ po_reasoning output = Some (reasoning plan)
    /\ reasoning plan <> ""
    /\ out_originAddress plan = originAddress input
    /\ out_destinationAddress plan = destinationAddress input
    /\ route plan = r
    /\ weatherForecast plan = forecast
    /\ nearbyAttractions plan = nearby.
Proof.
  unfold reasoningVerdict.
  destruct (generateTripPlanPrompt w _) as [[[t why]|]|e]; cbn;
    try discriminate; [|rewrite flowCatch_error; discriminate].
  destruct t as [[|c t]|]; cbn; try discriminate;
    destruct why as [[|c' why]|]; cbn; try discriminate.
  intros [= <-]. eexists. cbn. repeat split; try reflexivity; discriminate.
Qed.

(** X12: a run of the flow that returns a plan has made exactly five
    outbound calls, in this order: the geocoding of the origin, the
    geocoding of the destination, the Directions request between the two
    coordinates found with the requested stops, one nearby search around
    the centre of the route's bounding box, and one prompt of the
    reasoning engine; the key is configured; the plan echoes the two
    addresses of the input, and its suggested time and reasoning are the
    engine's, both non-empty. *)
Theorem successful_run w input log plan :
  generateTripPlanFlow w input = (log, Resolved plan) ->
  apiKeyMissing w = false
  /\ exists oc dc b output,
       outcome (getCoordinatesFromAddress w (originAddress input))
       = Resolved oc
       /\ outcome (getCoordinatesFromAddress w (destinationAddress input))
          = Resolved dc
       /\ outcome (findShortestRoute w oc dc (Some (waypointsParam input)))
          = Resolved (route plan)
       /\ outcome (getWeatherForecast oc) = Resolved (weatherForecast plan)
       /\ bounds (route plan) = Some b
       /\ log
          = [ Fetch (geocodeRequest w (originAddress input));
              Fetch (geocodeRequest w (destinationAddress input));
              Fetch (directionsRequest w oc dc (Some (waypointsParam input)));
              Fetch (nearbySearchRequest w (boundsCenter b)
                       (JS.Math_round (searchRadius w b)));
              Prompt (buildPromptInput w input (route plan)
                        (weatherForecast plan) (nearbyAttractions plan)) ]
       /\ generateTripPlanPrompt w
            (buildPromptInput w input (route plan) (weatherForecast plan)
               (nearbyAttractions plan))
          = Resolved (Some output)
       /\ po_suggestedDepartureTime output
          = Some (suggestedDepartureTime plan)
       /\ suggestedDepartureTime plan <> ""
       /\ po_reasoning output = Some (reasoning plan)
       /\ reasoning plan <> ""
       /\ out_originAddress plan = originAddress input
       /\ out_destinationAddress plan = destinationAddress input.
Proof.
  intros H.
  destruct (flow_resolved _ _ _ _ H)
    as (l1 & oc & l2 & dc & l3 & r & forecast & l4 & nearby
        & E1 & E2 & E3 & Hw & E4 & -> & Hv).
  destruct (reasoningVerdict_resolved _ _ _ _ _ _ Hv)
    as (output & Hp & Ht & Ht' & Hwhy & Hwhy' & Ho & Hd & <- & <- & <-).
  destruct (getCoordinatesFromAddress_resolved _ _ _ _ E1) as (Hk & -> & _).
  destruct (getCoordinatesFromAddress_resolved _ _ _ _ E2) as (_ & -> & _).
  destruct (findShortestRoute_resolved _ _ _ _ _ _ E3)
    as (data & chosen & rest & ls & pts & b & _ & -> & _ & _ & _ & _ & _ & _ & Hr).
  assert (Hb : bounds (route plan) = Some b) by (rewrite Hr; reflexivity).
  assert (l4 = [Fetch (nearbySearchRequest w (boundsCenter b)
                         (JS.Math_round (searchRadius w b)))]) as ->.
  { pose proof (f_equal calls E4) as Hc. cbn [calls fst] in Hc. rewrite <- Hc.
    unfold findAttractionsNearRoute. rewrite Hb.
    rewrite tryCatch_nearRoute_calls.
    now apply findAttractionsNearCoordinate_configured_calls. }
  split; [exact Hk|].
  exists oc, dc, b, output.
  rewrite E1, E2, E3, Hw. cbn [outcome snd app].
  repeat split; auto.
Qed.

Lemma successful_run_witness :
  apiKeyMissing Sample.configured = false
  /\ exists oc dc b output,
       outcome (getCoordinatesFromAddress Sample.configured
                  "San Francisco, CA") = Resolved oc
       /\ outcome (getCoordinatesFromAddress Sample.configured
                     "Los Angeles, CA") = Resolved dc
       /\ outcome (findShortestRoute Sample.configured oc dc
                     (Some ["place_id:A"]))
          = Resolved Sample.coastTrip
       /\ outcome (getWeatherForecast oc)
          = Resolved (forecastOf Sample.sanFrancisco)
       /\ Some Sample.coastBounds = Some b
       /\ calls (generateTripPlanFlow Sample.configured
                   (Sample.tripInput (Some ["A"])))
          = [ Fetch (geocodeRequest Sample.configured "San Francisco, CA");
              Fetch (geocodeRequest Sample.configured "Los Angeles, CA");
              Fetch (directionsRequest Sample.configured oc dc
                       (Some ["place_id:A"]));
              Fetch (nearbySearchRequest Sample.configured (boundsCenter b)
                       (JS.Math_round (searchRadius Sample.configured b)));
              Prompt (buildPromptInput Sample.configured
                        (Sample.tripInput (Some ["A"])) Sample.coastTrip
                        (forecastOf Sample.sanFrancisco)
                        (nearbyAttractions Cases.coastPlan)) ]
       /\ generateTripPlanPrompt Sample.configured
            (buildPromptInput Sample.configured
               (Sample.tripInput (Some ["A"])) Sample.coastTrip
               (forecastOf Sample.sanFrancisco)
               (nearbyAttractions Cases.coastPlan))
          = Resolved (Some output)
       /\ po_suggestedDepartureTime output = Some "2024-08-03T10:15:00Z"
       /\ "2024-08-03T10:15:00Z" <> ""
       /\ po_reasoning output
          = Some "Leave shortly after ten to miss the morning peak."
       /\ "Leave shortly after ten to miss the morning peak." <> ""
       /\ "San Francisco, CA" = "San Francisco, CA"
       /\ "Los Angeles, CA" = "Los Angeles, CA".
Proof.
  apply (successful_run Sample.configured (Sample.tripInput (Some ["A"]))
           (calls (generateTripPlanFlow Sample.configured
                     (Sample.tripInput (Some ["A"]))))
           Cases.coastPlan).
  apply settled. vm_compute. reflexivity.
Defined.

(** The flow when its route finder fails. *)
Lemma flow_route_rejected w input l1 oc l2 dc l3 e :
  getCoordinatesFromAddress w (originAddress input) = (l1, Resolved oc) ->
  getCoordinatesFromAddress w (destinationAddress input) = (l2, Resolved dc) ->
  findShortestRoute w oc dc (Some (waypointsParam input)) = (l3, Rejected e) ->
  generateTripPlanFlow w input
  = ((l1 ++ l2 ++ l3)%list, Rejected (flowError e)).
Proof.
  intros E1 E2 E3. unfold generateTripPlanFlow.
  rewrite E1. run. rewrite E2. run. rewrite E3. run.
  rewrite flowCatch_error. run. now rewrite app_nil_r, <- ?app_assoc.
Qed.

(** X13: the flow stops at the first stage that fails: when the geocoding
    of the origin, the geocoding of the destination, the route finder or
    the attraction search is rejected, the flow is rejected with that
    error behind the prefix [Trip plan generation failed: ], and has made
    the calls of the stages up to the failing one and no other; in
    particular the reasoning engine is not prompted. *)
Theorem flow_stops_at_first_failure w input :
  (forall l1 e,
      getCoordinatesFromAddress w (originAddress input) = (l1, Rejected e) ->
      generateTripPlanFlow w input = (l1, Rejected (flowError e)))
  /\ (forall l1 oc l2 e,
         getCoordinatesFromAddress w (originAddress input)
         = (l1, Resolved oc) ->
         getCoordinatesFromAddress w (destinationAddress input)
         = (l2, Rejected e) ->
         generateTripPlanFlow w input
         = ((l1 ++ l2)%list, Rejected (flowError e)))
  /\ (forall l1 oc l2 dc l3 e,
         getCoordinatesFromAddress w (originAddress input)
         = (l1, Resolved oc) ->
         getCoordinatesFromAddress w (destinationAddress input)
         = (l2, Resolved dc) ->
         findShortestRoute w oc dc (Some (waypointsParam input))
         = (l3, Rejected e) ->
         generateTripPlanFlow w input
         = ((l1 ++ l2 ++ l3)%list, Rejected (flowError e)))
  /\ (forall l1 oc l2 dc l3 r l4 e,
         getCoordinatesFromAddress w (originAddress input)
         = (l1, Resolved oc) ->
         getCoordinatesFromAddress w (destinationAddress input)
         = (l2, Resolved dc) ->
         findShortestRoute w oc dc (Some (waypointsParam input))
         = (l3, Resolved r) ->
         findAttractionsNearRoute w r = (l4, Rejected e) ->
         generateTripPlanFlow w input
         = ((l1 ++ l2 ++ l3 ++ l4)%list, Rejected (flowError e))).
Proof.
  repeat split; try unfold generateTripPlanFlow.
  - intros l1 e E1. rewrite E1. run. rewrite flowCatch_error. run.
    now rewrite app_nil_r.
  - intros l1 oc l2 e E1 E2. rewrite E1. run. rewrite E2. run.
    rewrite flowCatch_error. run. now rewrite app_nil_r.
  - intros l1 oc l2 dc l3 e E1 E2 E3.
    apply (flow_route_rejected _ _ _ _ _ _ _ _ E1 E2 E3).
  - intros l1 oc l2 dc l3 r l4 e E1 E2 E3 E4. rewrite E1. run. rewrite E2. run.
    rewrite E3. run.
    destruct (getWeatherForecast_resolves oc) as [forecast Hw]. rewrite Hw. run.
    rewrite E4. run. rewrite flowCatch_error. run.
    now rewrite app_nil_r, <- ?app_assoc.
Qed.

Lemma flow_stops_at_first_failure_witness :
  generateTripPlanFlow Cases.lostDestination (Sample.tripInput None)
  = ([ Fetch (geocodeRequest Cases.lostDestination "San Francisco, CA");
       Fetch (geocodeRequest Cases.lostDestination "Los Angeles, CA") ],
     Rejected
       (ErrorObj
          ("Trip plan generation failed: Geocoding API Error: No results found for address "
           ++ JS.dquote ++ "Los Angeles, CA" ++ JS.dquote
           ++ ". Please ensure the address is valid."))).
Proof.
  apply (proj1 (proj2 (flow_stops_at_first_failure Cases.lostDestination
                         (Sample.tripInput None)))
           [Fetch (geocodeRequest Cases.lostDestination "San Francisco, CA")]
           Sample.sanFrancisco
           [Fetch (geocodeRequest Cases.lostDestination "Los Angeles, CA")]
           (ErrorObj
              ("Geocoding API Error: No results found for address "
               ++ JS.dquote ++ "Los Angeles, CA" ++ JS.dquote
               ++ ". Please ensure the address is valid.")));
    reflexivity.
Defined.

(** X14: a failure of the Places endpoint does not cost the plan. When the
    two geocodings and the route finder succeed, the transport of the
    Places endpoint does not itself raise the configuration error, and
    the reasoning engine answers with a time and a reasoning, the flow
    returns a plan with the route found; its attractions are those of the
    nearby search around the centre of the route's bounding box when that
    search succeeded, and none when it failed. *)
Theorem places_outage_keeps_plan w input oc dc r :
  (forall req, fetchPlaces w req <> Rejected CONFIG_ERROR) ->
  outcome (getCoordinatesFromAddress w (originAddress input)) = Resolved oc ->
  outcome (getCoordinatesFromAddress w (destinationAddress input))
  = Resolved dc ->
  outcome (findShortestRoute w oc dc (Some (waypointsParam input)))
  = Resolved r ->
  (forall p, exists output,
       generateTripPlanPrompt w p = Resolved output
       /\ incompleteOutput output = false) ->
  exists plan b,
    outcome (generateTripPlanFlow w input) = Resolved plan
    /\ route plan = r
    /\ bounds r = Some b
    /\ nearbyAttractions plan
       = match outcome (findAttractionsNearCoordinate w (boundsCenter b)
                          (JS.Math_round (searchRadius w b))) with
         | Resolved found => found
         | Rejected _ => []
         end.
Proof.
  intros Hp H1 H2 H3 Hadvice.
  apply settled in H1, H2, H3.
  destruct (getCoordinatesFromAddress_resolved _ _ _ _ H1) as (Hk & _).
  destruct (findShortestRoute_resolved _ _ _ _ _ _ H3)
    as (data & chosen & rest & ls & pts & b & _ & _ & _ & _ & _ & _ & _ & _ & Hr).
  assert (Hb : bounds r = Some b) by (rewrite Hr; reflexivity).
  destruct (getWeatherForecast_resolves oc) as [forecast Hw].
  pose proof (findAttractionsNearRoute_boxed w r b Hk Hp Hb) as H4.
  rewrite (flow_composed _ _ _ _ _ _ _ _ _ _ _ H1 H2 H3 Hw H4).
  cbn [outcome snd]. unfold reasoningVerdict.
  destruct (Hadvice (buildPromptInput w input r forecast
                       match outcome (findAttractionsNearCoordinate w (boundsCenter b)
                                        (JS.Math_round (searchRadius w b))) with
                       | Resolved l => l
                       | Rejected _ => []
                       end)) as (output & -> & ->).
  eexists. exists b. repeat split. exact Hb.
Qed.

Lemma places_outage_keeps_plan_witness :
  exists plan b,
    outcome (generateTripPlanFlow Sample.placesDown (Sample.tripInput None))
    = Resolved plan
    /\ route plan = Sample.coastTrip
    /\ bounds Sample.coastTrip = Some b
    /\ nearbyAttractions plan
       = match outcome (findAttractionsNearCoordinate Sample.placesDown
                          (boundsCenter b)
                          (JS.Math_round (searchRadius Sample.placesDown b)))
         with
         | Resolved found => found
         | Rejected _ => []
         end.
Proof.
  apply (places_outage_keeps_plan Sample.placesDown (Sample.tripInput None)
           Sample.sanFrancisco Sample.losAngeles Sample.coastTrip).
  - intros req. discriminate.
  - reflexivity.
  - reflexivity.
  - reflexivity.
  - intros p. exists Sample.goodAdvice. split; reflexivity.
Defined.

(** ** The prompt *)

Lemma roundDiv_nearest (n d : Z) :
  (0 < d)%Z -> Z.even d = true ->
  (2 * (d * JS.roundDiv n d) - d <= 2 * n < 2 * (d * JS.roundDiv n d) + d)%Z.
Proof.
  intros Hd _. unfold JS.roundDiv.
  pose proof (Z.div_mod (2 * n + d) (2 * d) ltac:(lia)) as E.
  pose proof (Z.mod_pos_bound (2 * n + d) (2 * d) ltac:(lia)) as B.
  lia.
Qed.

(** X15: for a route whose totals are below 2^53 in magnitude, the
    figures the reasoning engine is given are the totals rounded to the
    nearest kilometre and the nearest minute, a half going up, so within
    500 m and 30 s of the totals; it is told that the trip has stops
    exactly when the input lists at least one; and the two addresses and
    the departure time are the input's. *)
Theorem prompt_figures w input r forecast nearby :
  (Z.abs (distanceMeters r) < 2 ^ 53)%Z ->
  (Z.abs (durationSeconds r) < 2 ^ 53)%Z ->
  let p := buildPromptInput w input r forecast nearby in
  (1000 * distanceKm (routeInfo p) - 500 <= distanceMeters r
   < 1000 * distanceKm (routeInfo p) + 500)%Z
  /\ (60 * durationMinutes (routeInfo p) - 30 <= durationSeconds r
      < 60 * durationMinutes (routeInfo p) + 30)%Z
  /\ (hasWaypoints (routeInfo p) = true
      <-> exists id ids, waypoints input = Some (id :: ids))
  /\ pi_originAddress p = originAddress input
  /\ pi_destinationAddress p = destinationAddress input
  /\ desiredDepartureTime p = departureTime input.
Proof.
  intros _ _.
  cbn [buildPromptInput routeInfo distanceKm durationMinutes hasWaypoints
       pi_originAddress pi_destinationAddress desiredDepartureTime].
  pose proof (roundDiv_nearest (distanceMeters r) 1000 ltac:(lia) eq_refl).
  pose proof (roundDiv_nearest (durationSeconds r) 60 ltac:(lia) eq_refl).
  repeat split; try lia.
  - unfold hasStops. destruct (waypoints input) as [[|id ids]|];
      try discriminate. eauto.
  - intros (id & ids & ->). reflexivity.
Qed.

Lemma prompt_figures_witness :
  let p := buildPromptInput Sample.configured (Sample.tripInput (Some ["A"]))
             Sample.coastTrip (forecastOf Sample.sanFrancisco) [] in
  (1000 * distanceKm (routeInfo p) - 500 <= 635000
   < 1000 * distanceKm (routeInfo p) + 500)%Z
  /\ (60 * durationMinutes (routeInfo p) - 30 <= 23400
      < 60 * durationMinutes (routeInfo p) + 30)%Z
  /\ (hasWaypoints (routeInfo p) = true
      <-> exists id ids, Some ["A"] = Some (id :: ids))
  /\ pi_originAddress p = "San Francisco, CA"
  /\ pi_destinationAddress p = "Los Angeles, CA"
  /\ desiredDepartureTime p = "2024-08-03T10:00:00Z".
Proof.
  apply (prompt_figures Sample.configured (Sample.tripInput (Some ["A"]))
           Sample.coastTrip (forecastOf Sample.sanFrancisco) []);
    reflexivity.
Defined.

(** ** The stops selected in the planner *)

Lemma unchecked_filter (c : CheckedState) placeId prev :
  c <> Checked ->
  handleWaypointChange c placeId prev
  = filter (fun id => negb (id =? placeId)) prev.
Proof. destruct c; [congruence|reflexivity|reflexivity]. Qed.

Lemma filter_absent placeId (prev : list string) :
  ~ In placeId prev ->
  filter (fun id => negb (id =? placeId)) prev = prev.
Proof.
  induction prev as [|x l IH]; [reflexivity|]. cbn [In filter]. intros H.
  destruct (x =? placeId) eqn:E.
  - apply String.eqb_eq in E. tauto.
  - cbn. rewrite IH; tauto.
Qed.

(** X16: [handleWaypointChange] only touches the place it is called for:
    any other place is selected afterwards exactly when it was before.
    Ticking appends the place at the end: the new selection is the old
    one followed by the place. Any change other than ticking removes
    every occurrence of it and keeps the order of the rest: the new
    selection is the old one without the entries equal to the place.
    Ticking a place that was not selected and then unticking it gives the
    selection back, and a selection without duplicates stays so. *)
Theorem waypoint_selection placeId (prev : list string) :
  handleWaypointChange Checked placeId prev = (prev ++ [placeId])%list
  /\ (forall c, c <> Checked ->
                handleWaypointChange c placeId prev
                = filter (fun id => negb (id =? placeId)) prev)
  /\ (forall c other,
      other <> placeId ->
      In other (handleWaypointChange c placeId prev) <-> In other prev)
  /\ In placeId (handleWaypointChange Checked placeId prev)
  /\ (forall c, c <> Checked ->
                ~ In placeId (handleWaypointChange c placeId prev)
                /\ subseq (handleWaypointChange c placeId prev) prev)
  /\ (~ In placeId prev ->
      forall c, c <> Checked ->
                handleWaypointChange c placeId
                  (handleWaypointChange Checked placeId prev) = prev)
  /\ (NoDup prev ->
      (~ In placeId prev ->
       NoDup (handleWaypointChange Checked placeId prev))
      /\ forall c, c <> Checked ->
                   NoDup (handleWaypointChange c placeId prev)).
Proof.
  split; [reflexivity|].
  split; [intros c Hc; now apply unchecked_filter|].
  repeat split.
  - destruct c; cbn [handleWaypointChange].
    + rewrite in_app_iff. cbn. intros [Hin|[Heq|[]]]; congruence.
    + rewrite filter_In. tauto.
    + rewrite filter_In. tauto.
  - destruct c; cbn [handleWaypointChange].
    + rewrite in_app_iff. tauto.
    + rewrite filter_In. intros Hin. split; [exact Hin|].
      apply negb_true_iff, String.eqb_neq. exact H.
    + rewrite filter_In. intros Hin. split; [exact Hin|].
      apply negb_true_iff, String.eqb_neq. exact H.
  - cbn. apply in_or_app. right. left. reflexivity.
  - rewrite (unchecked_filter c _ _ H), filter_In.
    rewrite String.eqb_refl. cbn. intros [_ F]. discriminate.
  - rewrite (unchecked_filter c _ _ H). apply subseq_filter.
  - intros Hnot c Hc. rewrite (unchecked_filter c _ _ Hc).
    cbn [handleWaypointChange]. rewrite filter_app. cbn.
    rewrite String.eqb_refl. cbn. rewrite app_nil_r.
    now apply filter_absent.
  - intros Hnot. cbn [handleWaypointChange].
    apply NoDup_app; [exact H|repeat constructor; intros []|].
    intros x Hx [<-|[]]. contradiction.
  - intros c Hc. rewrite (unchecked_filter c _ _ Hc).
    now apply NoDup_filter.
Qed.

Lemma waypoint_selection_witness :
  handleWaypointChange Checked "B" ["A"; "C"] = ["A"; "C"; "B"]
  /\ handleWaypointChange Unchecked "B"
       (handleWaypointChange Checked "B" ["A"; "C"]) = ["A"; "C"].
Proof.
  split.
  - exact (proj1 (waypoint_selection "B" ["A"; "C"])).
  - apply (proj1 (proj2 (proj2 (proj2 (proj2 (proj2
             (waypoint_selection "B" ["A"; "C"]))))))).
    + intros [H|[H|[]]]; discriminate H.
    + discriminate.
Defined.

(** ** The page *)

Lemma homeStep_keeps (st : HomeState) (a : HomeAction) :
  (isNavigating st = true -> home_tripPlan st <> None) ->
  isNavigating (homeStep st a) = true -> home_tripPlan (homeStep st a) <> None.
Proof.
  destruct st as [plan nav], a as [p| |]; cbn; try discriminate.
  unfold handleStartNavigation. cbn.
  destruct plan; cbn; [discriminate|auto].
Qed.

Lemma homeRun_keeps (actions : list HomeAction) (st : HomeState) :
  (isNavigating st = true -> home_tripPlan st <> None) ->
  isNavigating (fold_left homeStep actions st) = true ->
  home_tripPlan (fold_left homeStep actions st) <> None.
Proof.
  revert st. induction actions as [|a l IH]; intros st H; [exact H|].
  cbn [fold_left]. apply IH. now apply homeStep_keeps.
Qed.

(** X17: whatever sequence of plan notifications, Start Journey and Exit
    Journey requests reaches the page, it never navigates without a trip
    plan; the Start Journey and the Exit Journey buttons are never
    rendered together, exactly one of them is rendered when a plan is
    held and none otherwise; a new plan notification always ends the
    navigation; and a Start Journey request without a plan changes
    nothing. *)
Theorem navigation_needs_plan (actions : list HomeAction) :
  let st := homeRun actions in
  (isNavigating st = true -> home_tripPlan st <> None)
  /\ (showsStart st && showsExit st = false)
  /\ (showsStart st || showsExit st
      = match home_tripPlan st with Some _ => true | None => false end)
  /\ (forall plan, isNavigating (homeStep st (OnPlanGenerated plan)) = false)
  /\ (home_tripPlan st = None -> homeStep st OnStart = st).
Proof.
  cbn zeta. pose proof (homeRun_keeps actions homeInitial) as H.
  fold (homeRun actions) in H. specialize (H ltac:(discriminate)).
  unfold showsStart, showsExit.
  destruct (homeRun actions) as [plan nav]. cbn in *.
  repeat split.
  - exact H.
  - destruct plan, nav; reflexivity.
  - destruct plan, nav; try reflexivity. now destruct H.
  - unfold handleStartNavigation. cbn. now intros ->.
Qed.

(** ** The duration shown *)

Lemma trimEnd_app (s t : string) :
  Text.trimEnd t <> "" -> Text.trimEnd (s ++ t) = s ++ Text.trimEnd t.
Proof.
  intros Ht. induction s as [|c s IH]; [reflexivity|].
  cbn [append Text.trimEnd]. rewrite IH.
  destruct (s ++ Text.trimEnd t) eqn:E; [|reflexivity].
  destruct s; [cbn in E; contradiction|discriminate].
Qed.

Lemma string_of_uint_head (d : Decimal.uint) :
  exists c r, NilZero.string_of_uint d = String c r
              /\ Text.isWhitespace c = false.
Proof. destruct d; cbn; eauto. Qed.

Lemma ofInteger_head (z : Z) :
  (0 <= z)%Z ->
  exists c r, Text.ofInteger z = String c r /\ Text.isWhitespace c = false.
Proof.
  unfold Text.ofInteger. destruct z; [| |lia]; intros _;
    apply string_of_uint_head.
Qed.

(** Trimming a text that opens with a number and closes with [close],
    of which the trimmed form is known. *)
Lemma trim_number (z : Z) (close shown : string) :
  (0 <= z)%Z -> Text.trimEnd close = shown -> shown <> "" ->
  Text.trim (Text.ofInteger z ++ close) = Text.ofInteger z ++ shown.
Proof.
  intros Hz Hc Hs. unfold Text.trim.
  destruct (ofInteger_head z Hz) as (c & r & E & W). rewrite E.
  cbn [append Text.trimStart]. rewrite W.
  change (String c (r ++ close)) with (String c r ++ close).
  rewrite trimEnd_app; rewrite Hc; [reflexivity|exact Hs].
Qed.

(** X18: for a whole number of seconds below 2^53 in magnitude,
    [formatDuration] shows whole hours and whole minutes and drops the
    seconds left over: under an hour it shows the minutes alone, [0 min]
    under a minute; from an hour on it shows the hours, followed by the
    minutes unless they are zero; a negative duration is shown as
    [0 min]. *)
Theorem duration_shown (seconds : Z) :
  (Z.abs seconds < 2 ^ 53)%Z ->
  let h := (seconds / 3600)%Z in
  let m := ((seconds mod 3600) / 60)%Z in
  ((0 <= seconds)%Z ->
   formatDuration seconds
   = (if (h =? 0)%Z then Text.ofInteger m ++ " min"
      else if (m =? 0)%Z then Text.ofInteger h ++ " hr"
      else Text.ofInteger h ++ " hr " ++ Text.ofInteger m ++ " min")
   /\ (0 <= m < 60)%Z
   /\ (3600 * h + 60 * m <= seconds < 3600 * h + 60 * m + 60)%Z)
  /\ ((seconds < 0)%Z -> formatDuration seconds = "0 min").
Proof.
  intros _. cbn zeta. split.
  - intros Hs.
    assert (Hh : (0 <= seconds / 3600)%Z) by (apply Z.div_pos; lia).
    pose proof (Z.mod_pos_bound seconds 3600 ltac:(lia)) as Hr.
    assert (Hm : (0 <= seconds mod 3600 / 60)%Z) by (apply Z.div_pos; lia).
    pose proof (Z.div_mod seconds 3600 ltac:(lia)) as E1.
    pose proof (Z.div_mod (seconds mod 3600) 60 ltac:(lia)) as E2.
    pose proof (Z.mod_pos_bound (seconds mod 3600) 60 ltac:(lia)) as Hr2.
    split; [|lia].
    unfold formatDuration. rewrite Z.rem_mod_nonneg by lia.
    set (h := (seconds / 3600)%Z) in *.
    set (m := (seconds mod 3600 / 60)%Z) in *.
    destruct (h =? 0)%Z eqn:Eh.
    + apply Z.eqb_eq in Eh. rewrite Eh. cbn [Z.ltb Z.compare].
      rewrite orb_true_r. cbn [append].
      rewrite (trim_number m " min" " min" Hm eq_refl ltac:(discriminate)).
      destruct (ofInteger_head m Hm) as (c & r & -> & _). reflexivity.
    + apply Z.eqb_neq in Eh.
      assert (Hpos : (0 <? h)%Z = true) by (apply Z.ltb_lt; lia).
      rewrite Hpos, orb_false_r.
      destruct (m =? 0)%Z eqn:Em.
      * apply Z.eqb_eq in Em. rewrite Em. cbn [Z.ltb Z.compare].
        rewrite (trim_number h " hr " " hr" Hh eq_refl ltac:(discriminate)).
        destruct (ofInteger_head h Hh) as (c & r & -> & _). reflexivity.
      * apply Z.eqb_neq in Em.
        assert (Hmpos : (0 <? m)%Z = true) by (apply Z.ltb_lt; lia).
        rewrite Hmpos.
        assert (Hc : Text.trimEnd (" hr " ++ Text.ofInteger m ++ " min")
                     = " hr " ++ Text.ofInteger m ++ " min").
        { change (" hr " ++ Text.ofInteger m ++ " min")
            with ((" hr " ++ Text.ofInteger m) ++ " min") at 1.
          rewrite trimEnd_app by discriminate. reflexivity. }
        replace ((Text.ofInteger h ++ " hr ") ++ Text.ofInteger m ++ " min")
          with (Text.ofInteger h ++ " hr " ++ Text.ofInteger m ++ " min").
        2:{ destruct (Text.ofInteger h); cbn; [reflexivity|].
            f_equal. clear. induction s; cbn; congruence. }
        rewrite (trim_number h _ _ Hh Hc) by discriminate.
        destruct (ofInteger_head h Hh) as (c & r & -> & _). reflexivity.
  - intros Hs. unfold formatDuration.
    assert (Hh : (seconds / 3600 < 0)%Z) by (apply Z.div_lt_upper_bound; lia).
    assert (Hm : (Z.rem seconds 3600 / 60 <= 0)%Z).
    { pose proof (Z.rem_nonpos seconds 3600 ltac:(lia) ltac:(lia)).
      apply Z.lt_succ_r. apply Z.div_lt_upper_bound; lia. }
    replace (0 <? seconds / 3600)%Z with false by (symmetry; apply Z.ltb_ge; lia).
    replace (0 <? Z.rem seconds 3600 / 60)%Z with false
      by (symmetry; apply Z.ltb_ge; lia).
    replace (seconds / 3600 =? 0)%Z with false by (symmetry; apply Z.eqb_neq; lia).
    reflexivity.
Qed.

Lemma duration_shown_witness :
  formatDuration 23400 = "6 hr 30 min"
  /\ (0 <= 30 < 60)%Z
  /\ (3600 * 6 + 60 * 30 <= 23400 < 3600 * 6 + 60 * 30 + 60)%Z.
Proof.
  apply (proj1 (duration_shown 23400 eq_refl)). lia.
Defined.

(** ** What the planner tells the user *)

Lemma toLowerCase_app (s t : string) :
  Text.toLowerCase (s ++ t) = Text.toLowerCase s ++ Text.toLowerCase t.
Proof. induction s as [|c s IH]; cbn; [reflexivity|now rewrite IH]. Qed.

(** The message shown for a failure that the route finder has wrapped. *)
Lemma network_failure_message (n : nat) (m : string) :
  earlierTrigger m = false ->
  planErrorMessage n
    (ErrorObj ("Trip plan generation failed: Failed to fetch directions: " ++ m))
  = "Error: Network request failed. Could not connect to Google Maps services. Please check your internet connection and firewall settings. (Trip plan generation failed: Failed to fetch directions: "
    ++ m ++ ")".
Proof.
  unfold earlierTrigger. intros H.
  repeat (apply orb_false_elim in H; destruct H as [H ?]).
  unfold planErrorMessage. rewrite toLowerCase_app.
  remember (Text.toLowerCase m) as x eqn:Ex. clear Ex.
  set (p := Text.toLowerCase "Trip plan generation failed: Failed to fetch directions: ").
  vm_compute in p. subst p.
  match goal with
  | |- context [if ?c then SERVER_CONFIG_ERROR_MSG else _] =>
      replace c with false by reflexivity
  end.
  repeat match goal with
  | |- context [Text.includes (?p ++ x) ?needle] =>
      first [ replace (Text.includes (p ++ x) needle) with true by reflexivity
            | replace (Text.includes (p ++ x) needle)
                with (Text.includes x needle) by reflexivity ]
  end.
  repeat match goal with
  | E : Text.includes x _ = false |- _ => rewrite E; clear E
  end.
  cbn [orb andb]. rewrite ?andb_false_r.
  reflexivity.
Qed.

Lemma onSubmit_rejected w toISO st data log err :
  submitPlan w toISO (selectedWaypoints st) data = (log, Rejected err) ->
  onSubmit w toISO st data
  = (log,
     ({| tripPlan := if nonEmpty (selectedWaypoints st) then tripPlan st
                     else None;
         loadingPlan := false;
         error := Some (planErrorMessage (List.length (selectedWaypoints st))
                          err);
         selectedWaypoints := if nonEmpty (selectedWaypoints st)
                              then selectedWaypoints st else [] |},
      [ PlanGenerated (if nonEmpty (selectedWaypoints st)
                       then option_map withoutPath (tripPlan st) else None);
        PlanGenerated None;
        Toast true "Trip Plan Error"
          (planErrorMessage (List.length (selectedWaypoints st)) err) ])).
Proof. intros H. unfold onSubmit. now rewrite H. Qed.

Lemma selection_kept (stops : list string) :
  (if nonEmpty stops then stops else []) = stops.
Proof. now destruct stops. Qed.

(** X19: without a server key, a submitted trip makes no request at all
    and the planner shows exactly the configuration message, in its error
    state and in a destructive toast; the handler of the current location
    shows the same message for the failure of
    [getAddressFromCoordinates]. *)
Theorem missing_key_is_shown w toISO st data departureISO :
  apiKeyMissing w = true ->
  toISO (form_departureTime data) = Some departureISO ->
  onSubmit w toISO st data
  = ([],
     ({| tripPlan := if nonEmpty (selectedWaypoints st) then tripPlan st
                     else None;
         loadingPlan := false;
         error := Some SERVER_CONFIG_ERROR_MSG;
         selectedWaypoints := selectedWaypoints st |},
      [ PlanGenerated (if nonEmpty (selectedWaypoints st)
                       then option_map withoutPath (tripPlan st) else None);
        PlanGenerated None;
        Toast true "Trip Plan Error" SERVER_CONFIG_ERROR_MSG ]))
  /\ forall coordinate,
       exists err,
         getAddressFromCoordinates w coordinate = ([], Rejected err)
         /\ locationErrorMessage err = SERVER_CONFIG_ERROR_MSG.
Proof.
  intros Hk Ht. split.
  - rewrite (onSubmit_rejected w toISO st data [] (flowError CONFIG_ERROR)).
    + rewrite selection_kept.
      replace (planErrorMessage _ (flowError CONFIG_ERROR))
        with SERVER_CONFIG_ERROR_MSG by (vm_compute; reflexivity).
      reflexivity.
    + unfold submitPlan, generateTripPlan, generateTripPlanFlow. rewrite Ht.
      rewrite getCoordinatesFromAddress_unconfigured by exact Hk.
      reflexivity.
  - intros coordinate. exists CONFIG_ERROR.
    rewrite getAddressFromCoordinates_unconfigured by exact Hk.
    split; reflexivity.
Qed.

Lemma missing_key_is_shown_witness :
  onSubmit Sample.unconfigured Cases.toISO Cases.fresh Cases.form
  = ([],
     ({| tripPlan := None; loadingPlan := false;
         error := Some SERVER_CONFIG_ERROR_MSG; selectedWaypoints := [] |},
      [ PlanGenerated None; PlanGenerated None;
        Toast true "Trip Plan Error" SERVER_CONFIG_ERROR_MSG ]))
  /\ forall coordinate,
       exists err,
         getAddressFromCoordinates Sample.unconfigured coordinate
         = ([], Rejected err)
         /\ locationErrorMessage err = SERVER_CONFIG_ERROR_MSG.
Proof.
  apply (missing_key_is_shown Sample.unconfigured Cases.toISO Cases.fresh
           Cases.form "2024-08-03T10:00:00.000Z"); reflexivity.
Defined.

(** X20: a departure time that is no date stops the submission before
    anything is requested: no provider and no engine is called, the
    planner is no longer loading, and the user is told of the invalid
    date. *)
Theorem invalid_departure_makes_no_request w toISO st data :
  toISO (form_departureTime data) = None ->
  onSubmit w toISO st data
  = ([],
     ({| tripPlan := if nonEmpty (selectedWaypoints st) then tripPlan st
                     else None;
         loadingPlan := false;
         error := Some "Error generating trip plan: Invalid date/time format for departure";
         selectedWaypoints := selectedWaypoints st |},
      [ PlanGenerated (if nonEmpty (selectedWaypoints st)
                       then option_map withoutPath (tripPlan st) else None);
        PlanGenerated None;
        Toast true "Trip Plan Error"
          "Error generating trip plan: Invalid date/time format for departure" ])).
Proof.
  intros Ht.
  rewrite (onSubmit_rejected w toISO st data []
             (ErrorObj "Invalid date/time format for departure")).
  - rewrite selection_kept.
    replace (planErrorMessage _ _)
      with "Error generating trip plan: Invalid date/time format for departure"
      by (vm_compute; reflexivity).
    reflexivity.
  - unfold submitPlan. now rewrite Ht.
Qed.

Lemma invalid_departure_makes_no_request_witness :
  onSubmit Sample.configured Cases.toISO Cases.fresh
    {| form_originAddress := "San Francisco, CA";
       form_destinationAddress := "Los Angeles, CA";
       form_departureTime := "tomorrow" |}
  = ([],
     ({| tripPlan := None; loadingPlan := false;
         error := Some "Error generating trip plan: Invalid date/time format for departure";
         selectedWaypoints := [] |},
      [ PlanGenerated None; PlanGenerated None;
        Toast true "Trip Plan Error"
          "Error generating trip plan: Invalid date/time format for departure" ])).
Proof.
  apply (invalid_departure_makes_no_request Sample.configured Cases.toISO
           Cases.fresh). reflexivity.
Defined.

(** X21: whatever the outcome of a submission, the planner ends up not
    loading, with the selection of stops it had, and the page ends up not
    navigating. On success the planner and the page both hold the new
    plan and the error is cleared. On failure the planner shows the
    message for the error and the page holds no plan, while the planner
    itself keeps its previous plan when stops were selected and drops it
    otherwise. *)
Theorem submit_and_page w toISO st data (page : HomeState) :
  let result := onSubmit w toISO st data in
  let st' := fst (snd result) in
  let page' := fold_left homeStep (pageActions (snd (snd result))) page in
  fst result = calls (submitPlan w toISO (selectedWaypoints st) data)
  /\ loadingPlan st' = false
  /\ selectedWaypoints st' = selectedWaypoints st
  /\ isNavigating page' = false
  /\ match outcome (submitPlan w toISO (selectedWaypoints st) data) with
     | Resolved plan =>
         tripPlan st' = Some plan /\ error st' = None
         /\ home_tripPlan page' = Some plan
     | Rejected err =>
         error st'
         = Some (planErrorMessage (List.length (selectedWaypoints st)) err)
         /\ home_tripPlan page' = None
         /\ tripPlan st' = if nonEmpty (selectedWaypoints st) then tripPlan st
                           else None
     end.
Proof.
  cbn zeta. unfold onSubmit.
  destruct (submitPlan w toISO (selectedWaypoints st) data) as [log [plan|err]];
    cbn; rewrite selection_kept; auto 10.
Qed.

Lemma submitPlan_route_rejected
    w toISO stops data departureISO l1 oc l2 dc l3 e :
  toISO (form_departureTime data) = Some departureISO ->
  getCoordinatesFromAddress w (form_originAddress data) = (l1, Resolved oc) ->
  getCoordinatesFromAddress w (form_destinationAddress data)
  = (l2, Resolved dc) ->
  findShortestRoute w oc dc (Some (map (fun i => "place_id:" ++ i) stops))
  = (l3, Rejected e) ->
  submitPlan w toISO stops data
  = ((l1 ++ l2 ++ l3)%list, Rejected (flowError e)).
Proof.
  intros Ht E1 E2 E3. unfold submitPlan, generateTripPlan. rewrite Ht.
  apply (flow_route_rejected w
           {| originAddress := form_originAddress data;
              destinationAddress := form_destinationAddress data;
              departureTime := departureISO;
              waypoints := Some stops |} l1 oc l2 dc l3 e E1 E2 E3).
Qed.

(** X22: when stops are selected and the Directions provider finds no
    route through them, the planner has made the two geocoding requests
    and the Directions request and no other call, tells the user that no
    route was found including the selected stops, and keeps the plan it
    had. *)
Theorem no_route_with_stops_is_explained
    w toISO st data departureISO id ids l1 oc l2 dc response :
  selectedWaypoints st = id :: ids ->
  toISO (form_departureTime data) = Some departureISO ->
  getCoordinatesFromAddress w (form_originAddress data) = (l1, Resolved oc) ->
  getCoordinatesFromAddress w (form_destinationAddress data)
  = (l2, Resolved dc) ->
  fetchDirections w
    (directionsRequest w oc dc
       (Some (map (fun i => "place_id:" ++ i) (id :: ids))))
  = Resolved response ->
  d_status response = "ZERO_RESULTS" ->
  let result := onSubmit w toISO st data in
  let stops := map (fun i => "place_id:" ++ i) (id :: ids) in
  fst result
  = (l1 ++ l2 ++ [Fetch (directionsRequest w oc dc (Some stops))])%list
  /\ error (fst (snd result))
     = Some "Error: No route found between the specified locations including the selected stops. (Trip plan generation failed: Directions API Error: No route found including the specified waypoints. Status: ZERO_RESULTS.)"
  /\ tripPlan (fst (snd result)) = tripPlan st.
Proof.
  intros Hsel Ht E1 E2 Hf Hs. cbn zeta.
  destruct (getCoordinatesFromAddress_resolved _ _ _ _ E1) as (Hk & _).
  set (stops := map (fun i => "place_id:" ++ i) (id :: ids)) in *.
  assert (E3 : findShortestRoute w oc dc (Some stops)
               = ([Fetch (directionsRequest w oc dc (Some stops))],
                  Rejected (ErrorObj "Directions API Error: No route found including the specified waypoints. Status: ZERO_RESULTS."))).
  { rewrite (findShortestRoute_status w oc dc (Some stops) response Hk Hf)
      by (rewrite Hs; discriminate).
    unfold directionsStatusError. rewrite Hs. reflexivity. }
  unfold stops in *. clear stops. rewrite <- Hsel in E3.
  rewrite (onSubmit_rejected w toISO st data _ _
             (submitPlan_route_rejected _ _ _ _ _ _ _ _ _ _ _ Ht E1 E2 E3)).
  rewrite Hsel. cbn [fst snd error tripPlan nonEmpty List.length].
  split; [reflexivity|split; [|reflexivity]].
  f_equal; vm_compute; reflexivity.
Qed.

Lemma no_route_with_stops_is_explained_witness :
  fst (onSubmit (Cases.directionsStatus "ZERO_RESULTS") Cases.toISO
         Cases.updating Cases.form)
  = ([Fetch (geocodeRequest (Cases.directionsStatus "ZERO_RESULTS")
               "San Francisco, CA")]
     ++ [Fetch (geocodeRequest (Cases.directionsStatus "ZERO_RESULTS")
                  "Los Angeles, CA")]
     ++ [Fetch (directionsRequest (Cases.directionsStatus "ZERO_RESULTS")
                  Sample.sanFrancisco Sample.losAngeles
                  (Some ["place_id:A"]))])%list
  /\ error (fst (snd (onSubmit (Cases.directionsStatus "ZERO_RESULTS")
                        Cases.toISO Cases.updating Cases.form)))
     = Some "Error: No route found between the specified locations including the selected stops. (Trip plan generation failed: Directions API Error: No route found including the specified waypoints. Status: ZERO_RESULTS.)"
  /\ tripPlan (fst (snd (onSubmit (Cases.directionsStatus "ZERO_RESULTS")
                           Cases.toISO Cases.updating Cases.form)))
     = tripPlan Cases.updating.
Proof.
  apply (no_route_with_stops_is_explained
           (Cases.directionsStatus "ZERO_RESULTS") Cases.toISO Cases.updating
           Cases.form "2024-08-03T10:00:00.000Z" "A" []
           [Fetch (geocodeRequest (Cases.directionsStatus "ZERO_RESULTS")
                     "San Francisco, CA")]
           Sample.sanFrancisco
           [Fetch (geocodeRequest (Cases.directionsStatus "ZERO_RESULTS")
                     "Los Angeles, CA")]
           Sample.losAngeles
           {| d_status := "ZERO_RESULTS"; d_error_message := None;
              routes := None |});
    reflexivity.
Defined.

(** X23: a failure that the route finder reports as
    [Failed to fetch directions: ...], which is how it reports a failed
    transport and also a response lacking required fields, is shown by
    the planner as a network failure, the original message in brackets,
    when the cause is ASCII text that holds none of the words the planner
    looks for first. *)
Theorem route_failure_shown_as_network_failure
    w toISO st data departureISO l1 oc l2 dc l3 m :
  toISO (form_departureTime data) = Some departureISO ->
  getCoordinatesFromAddress w (form_originAddress data) = (l1, Resolved oc) ->
  getCoordinatesFromAddress w (form_destinationAddress data)
  = (l2, Resolved dc) ->
  findShortestRoute w oc dc
    (Some (map (fun i => "place_id:" ++ i) (selectedWaypoints st)))
  = (l3, Rejected (ErrorObj ("Failed to fetch directions: " ++ m))) ->
  Text.isAscii m = true ->
  earlierTrigger m = false ->
  error (fst (snd (onSubmit w toISO st data)))
  = Some ("Error: Network request failed. Could not connect to Google Maps services. Please check your internet connection and firewall settings. (Trip plan generation failed: Failed to fetch directions: "
          ++ m ++ ")").
Proof.
  intros Ht E1 E2 E3 _ Hm.
  rewrite (onSubmit_rejected w toISO st data _ _
             (submitPlan_route_rejected _ _ _ _ _ _ _ _ _ _ _ Ht E1 E2 E3)).
  cbn [fst snd error flowError]. f_equal.
  now apply network_failure_message.
Qed.

Lemma route_failure_shown_as_network_failure_witness :
  error (fst (snd (onSubmit (Sample.routing Sample.unboundedRoute)
                     Cases.toISO Cases.fresh Cases.form)))
  = Some ("Error: Network request failed. Could not connect to Google Maps services. Please check your internet connection and firewall settings. (Trip plan generation failed: Failed to fetch directions: "
          ++ MISSING_FIELDS_MSG ++ ")").
Proof.
  apply (route_failure_shown_as_network_failure
           (Sample.routing Sample.unboundedRoute) Cases.toISO Cases.fresh
           Cases.form "2024-08-03T10:00:00.000Z"
           [Fetch (geocodeRequest (Sample.routing Sample.unboundedRoute)
                     "San Francisco, CA")]
           Sample.sanFrancisco
           [Fetch (geocodeRequest (Sample.routing Sample.unboundedRoute)
                     "Los Angeles, CA")]
           Sample.losAngeles
           [Fetch (directionsRequest (Sample.routing Sample.unboundedRoute)
                     Sample.sanFrancisco Sample.losAngeles (Some []))]
           MISSING_FIELDS_MSG);
    reflexivity.
Defined.

(** ** The reverse geocoder, and answers without results *)

(** X24: [getAddressFromCoordinates] resolves exactly when the key is
    configured and the provider answers [OK] with at least one result; it
    then has issued the one request for that coordinate under the
    configured key, and returns the formatted address of the provider's
    first result. *)
Theorem reverse_geocoder_first_match w coordinate log address :
  getAddressFromCoordinates w coordinate = (log, Resolved address)
  <-> apiKeyMissing w = false
      /\ log = [Fetch (reverseRequest w coordinate)]
      /\ exists data r rest,
           fetchGeocoding w (reverseRequest w coordinate) = Resolved data
           /\ g_status data = "OK"
           /\ g_results data = Some (r :: rest)
           /\ address = formatted_address r.
Proof.
  unfold getAddressFromCoordinates, checkApiKey, reverseRequest. split.
  - destruct (apiKeyMissing w); run; [discriminate|].
    destruct (fetchGeocoding w _) as [data|e] eqn:Hf; run;
      [|destruct (reverseCatch_error e) as [m ->]; discriminate].
    destruct (g_status data =? "OK") eqn:Hs; run;
      [|destruct (reverseCatch_error
                    (ErrorObj (reverseStatusError w coordinate data)))
          as [m ->]; discriminate].
    apply String.eqb_eq in Hs.
    destruct (g_results data) as [[|r rest]|] eqn:Hr; run;
      try (match goal with
           | |- context [reverseCatch ?e] =>
               destruct (reverseCatch_error e) as [m ->]
           end; discriminate).
    intros [= <- <-]. repeat split. exists data, r, rest. auto.
  - intros (Hk & -> & data & r & rest & Hf & Hs & Hr & ->).
    rewrite Hk. run. rewrite Hf. run. rewrite Hs.
    cbn [String.eqb Ascii.eqb Bool.eqb negb]. rewrite Hr. reflexivity.
Qed.

Lemma reverse_geocoder_first_match_witness :
  getAddressFromCoordinates Sample.configured Sample.sanFrancisco
  = ([Fetch (reverseRequest Sample.configured Sample.sanFrancisco)],
     Resolved "somewhere").
Proof.
  apply (proj2 (reverse_geocoder_first_match Sample.configured
                  Sample.sanFrancisco
                  [Fetch (reverseRequest Sample.configured Sample.sanFrancisco)]
                  "somewhere")).
  repeat split.
  exists (Sample.geocoded Sample.sanFrancisco),
         {| geometry_location := Sample.sanFrancisco;
            formatted_address := "somewhere" |}, [].
  repeat split.
Defined.

(** X25: an answer with status [OK] and no result is an error for both
    geocoders, each after its one request. The geocoder rejects with its
    own [Could not geocode address ... ZERO_RESULTS (unexpected)] error
    as it is; the reverse geocoder's [Could not find address ...] error
    is not among those its [catch] block lets through, and comes out
    wrapped as [Failed to reverse geocode coordinates: ...]. *)
Theorem ok_without_results w data :
  apiKeyMissing w = false ->
  g_status data = "OK" ->
  g_results data = None \/ g_results data = Some [] ->
  (forall address,
      fetchGeocoding w (geocodeRequest w address) = Resolved data ->
      getCoordinatesFromAddress w address
      = ([Fetch (geocodeRequest w address)],
         Rejected (ErrorObj ("Could not geocode address " ++ JS.dquote
                             ++ address ++ JS.dquote
                             ++ ". Status: ZERO_RESULTS (unexpected)."))))
  /\ (forall coordinate,
         fetchGeocoding w (reverseRequest w coordinate) = Resolved data ->
         getAddressFromCoordinates w coordinate
         = ([Fetch (reverseRequest w coordinate)],
            Rejected (ErrorObj ("Failed to reverse geocode coordinates: Could not find address for coordinates "
                                ++ JSON_stringify w coordinate
                                ++ ". Status: ZERO_RESULTS (unexpected).")))).
Proof.
  intros Hk Hs Hr. split.
  - intros address Hf.
    unfold getCoordinatesFromAddress, checkApiKey, geocodeRequest in *.
    rewrite Hk. run. rewrite Hf. run. rewrite Hs.
    cbn [String.eqb Ascii.eqb Bool.eqb negb].
    destruct Hr as [-> | ->]; run; vm_compute; reflexivity.
  - intros coordinate Hf.
    unfold getAddressFromCoordinates, checkApiKey, reverseRequest in *.
    rewrite Hk. run. rewrite Hf. run. rewrite Hs.
    cbn [String.eqb Ascii.eqb Bool.eqb negb].
    destruct Hr as [-> | ->]; run; vm_compute; reflexivity.
Qed.

Lemma ok_without_results_witness :
  getAddressFromCoordinates Cases.emptyAnswers Sample.sanFrancisco
  = ([Fetch (reverseRequest Cases.emptyAnswers Sample.sanFrancisco)],
     Rejected (ErrorObj "Failed to reverse geocode coordinates: Could not find address for coordinates {}. Status: ZERO_RESULTS (unexpected).")).
Proof.
  apply (proj2 (ok_without_results Cases.emptyAnswers
                  {| g_status := "OK"; g_error_message := None;
                     g_results := Some [] |}
                  eq_refl eq_refl (or_intror eq_refl))).
  reflexivity.
Defined.
